(** * FluidSDK integration-test scripts: a shallow embedding

    The scripts of this repository drive a black-box SDK, an MCP endpoint
    and a chain RPC through a fixed lifecycle.  They are sequential
    [async] JavaScript: every observable action is a console line, a
    timed wait, a call to an external collaborator, or the exit of the
    process.  The embedding below keeps exactly that:

    - a script is a function from the history of events so far to an
      outcome (a value, a thrown exception, or an exited process) and the
      events it adds;
    - every external collaborator is an oracle of the [World], free to
      answer differently on every call (it sees the history), and free to
      throw;
    - JSON coming from the network is an untyped [JS.value], read with the
      property access, truthiness and [||] of JavaScript.

    Console lines are recorded with the text of their first argument,
    without the decorative emoji, the leading blanks and the separator
    rules; the holes of a template literal are filled when they hold a
    string or an integer of the model.  Lines that print a label followed
    by a value (an address, a balance, an identifier, an object) are left
    out, but a call made inside such a line is kept, and so is the
    conversion to a string of a value that came as JSON, which can
    throw.  The steps of the
    full-flow script keep the numbers of its console banner (STEP 1 to
    STEP 11). *)

From Stdlib Require Import String List ZArith Lia Bool Floats DecimalString.
Import ListNotations.
Open Scope string_scope.
Open Scope Z_scope.

(* ================================================================== *)
(** * Part I: definitions *)
(* ================================================================== *)

(** ** JavaScript values and exceptions *)

Module JS.

(** What a [catch (error)] clause can receive.  The scripts render it
    with [error instanceof Error ? error.message : String(error)]. *)
Inductive exn : Type :=
| JsError (message stack : string)
| Thrown (rendering : string).

Definition describe (e : exn) : string :=
  match e with
  | JsError m _ => m
  | Thrown s => s
  end.

(** [error instanceof Error && error.stack] *)
Definition stackOf (e : exn) : option string :=
  match e with
  | JsError _ st => if (st =? "")%string then None else Some st
  | Thrown _ => None
  end.

(** The result of evaluating an expression: a value or an exception. *)
Inductive Result (A : Type) : Type :=
| Val (a : A)
| Err (e : exn).
Arguments Val {A} a.
Arguments Err {A} e.

Definition rbind {A B} (r : Result A) (k : A -> Result B) : Result B :=
  match r with
  | Val a => k a
  | Err e => Err e
  end.

(** Values that [JSON.parse] produces, plus [undefined] for what a
    property read gives when the property is missing.  An object is the
    list of its own properties. *)
#[warnings="-register-all"]
Inductive value : Type :=
| Undefined
| Null
| Bool (b : bool)
| Num (n : float)
| Str (s : string)
| Arr (items : list value)
| Obj (fields : list (string * value)).

(** ToBoolean *)
Definition truthy (v : value) : bool :=
  match v with
  | Undefined | Null => false
  | Bool b => b
  | Num n => negb (PrimFloat.eqb n 0%float) && PrimFloat.eqb n n
  | Str s => negb (s =? "")%string
  | Arr _ | Obj _ => true
  end.

Fixpoint lookup (k : string) (fields : list (string * value)) : value :=
  match fields with
  | [] => Undefined
  | (k', v) :: rest => if (k =? k')%string then v else lookup k rest
  end.

Definition typeError (what : string) : exn :=
  JsError ("TypeError: " ++ what) "TypeError".

(** [v.k] for the data properties the scripts read ([result], [tools],
    [prompts], [resources], [name], [uri], [endpoints], ...): reading a
    property of [undefined] or [null] throws, an object gives its own
    property, anything else has no such property. *)
Definition getProp (v : value) (k : string) : Result value :=
  match v with
  | Undefined | Null => Err (typeError ("Cannot read properties of undefined (reading '" ++ k ++ "')"))
  | Obj fields => Val (lookup k fields)
  | _ => Val Undefined
  end.

(** [v?.k] *)
Definition getPropOpt (v : value) (k : string) : Result value :=
  match v with
  | Undefined | Null => Val Undefined
  | _ => getProp v k
  end.

(** [a || b], with [b] evaluated only when [a] is falsy. *)
Definition orElse (a : value) (b : Result value) : Result value :=
  if truthy a then Val a else b.

Fixpoint mapR {A B} (f : A -> Result B) (l : list A) : Result (list B) :=
  match l with
  | [] => Val []
  | x :: rest =>
      rbind (f x) (fun y => rbind (mapR f rest) (fun ys => Val (y :: ys)))
  end.

(** [v.map(f)]: only an array has a [map] method. *)
Definition arrayMap (f : value -> Result value) (v : value) : Result (list value) :=
  match v with
  | Arr items => mapR f items
  | Undefined | Null => Err (typeError "Cannot read properties of undefined (reading 'map')")
  | _ => Err (typeError "map is not a function")
  end.

Fixpoint findR (p : value -> Result bool) (l : list value) : Result value :=
  match l with
  | [] => Val Undefined
  | x :: rest =>
      rbind (p x) (fun b => if b then Val x else findR p rest)
  end.

(** [v?.find(p)] *)
Definition arrayFindOpt (p : value -> Result bool) (v : value) : Result value :=
  match v with
  | Undefined | Null => Val Undefined
  | Arr items => findR p items
  | _ => Err (typeError "find is not a function")
  end.

(** [v === "s"] *)
Definition isStr (v : value) (s : string) : bool :=
  match v with
  | Str s' => (s' =? s)%string
  | _ => false
  end.

(** Truthiness of an optional string ([process.env.X], an optional
    field): [undefined] and the empty string are falsy. *)
Definition truthyStr (o : option string) : bool :=
  match o with
  | Some s => negb (s =? "")%string
  | None => false
  end.

(** [undefined] or [null] *)
Definition nullish (v : value) : bool :=
  match v with
  | Undefined | Null => true
  | _ => false
  end.

(** The own property [k] of a value that is neither [undefined] nor
    [null]: what [v.k] evaluates to, without the exception. *)
Definition own (k : string) (v : value) : value :=
  match v with
  | Obj fields => lookup k fields
  | _ => Undefined
  end.

(** Decimal rendering of an integer inside a template literal. *)
Definition showZ (z : Z) : string := NilZero.string_of_int (Z.to_int z).

Definition hasOwn (k : string) (fields : list (string * value)) : bool :=
  existsb (fun kv => (fst kv =? k)%string) fields.

(** Whether ToString of a value returns.  A value of [JSON.parse]
    converts to a string unless it is an object with an own property
    [toString]: that property holds no function, and the inherited
    [valueOf] gives the object back, so the conversion throws a
    TypeError.  An array converts through [join], element by element
    ([null] and [undefined] give the empty string). *)
Fixpoint convertible (v : value) : bool :=
  match v with
  | Obj fields => negb (hasOwn "toString" fields)
  | Arr items => forallb convertible items
  | _ => true
  end.

Definition notConvertible : exn := typeError "Cannot convert object to primitive value".

Section Conversions.

(** Number-to-string conversion ([Number::toString]). *)
Variable numberToString : float -> string.

(** ToString, as a template literal and [String(v)] apply it to a value
    of [JSON.parse]. *)
Fixpoint toStr (v : value) : Result string :=
  match v with
  | Undefined => Val "undefined"
  | Null => Val "null"
  | Bool b => Val (if b then "true" else "false")
  | Num n => Val (numberToString n)
  | Str s => Val s
  | Arr items =>
      (fix joined (l : list value) : Result string :=
         match l with
         | [] => Val ""
         | x :: rest =>
             rbind (if nullish x then Val "" else toStr x)
               (fun s =>
                  match rest with
                  | [] => Val s
                  | _ :: _ => rbind (joined rest) (fun r => Val (s ++ "," ++ r))
                  end)
         end) items
  | Obj fields =>
      if hasOwn "toString" fields then Err notConvertible else Val "[object Object]"
  end.

End Conversions.

(** A hole [${v}] of a template literal, for what it can throw; the
    text itself is not kept. *)
Definition template (v : value) : Result unit :=
  if convertible v then Val tt else Err notConvertible.

(** [items.join(', ')] on an array, for what it can throw. *)
Definition joinValues (items : list value) : Result unit :=
  if forallb convertible items then Val tt else Err notConvertible.

(** [${v?.length || 0}]: the length of an array or of a string is a
    number; an object gives its own property [length]. *)
Definition lengthOrZero (v : value) : Result unit :=
  match v with
  | Obj fields =>
      let n := lookup "length" fields in
      if truthy n then template n else Val tt
  | _ => Val tt
  end.

End JS.

Export JS.

Notation "x <~ r ;; k" := (rbind r (fun x => k))
  (at level 61, r at next level, right associativity).

(** ** Scripts: events, outcomes and sequencing *)

Module Script.

(** The requests a script sends to its collaborators. *)
Inductive Request : Type :=
| HttpGet (url : string)
| JsonRpc (url rpcMethod : string) (id : Z)
| SignerGetAddress (address : string)
| ProviderGetBalance (address : string)
| SdkChainId
| SdkRegistries
| SdkSearchAgents
| SdkSearchAgentsByReputation
| SdkCreateAgent (name description image : string)
| AgentSetMCP (url version : string) (autoFetch : bool)
| AgentSetMcpCapabilities (tools prompts resources : list value)
| AgentSetActive (active : bool)
| AgentRegisterIPFS
| SdkGetAgent (agentId : string)
| SdkLoadAgent (agentId : string)
| SdkPrepareFeedback (agentId : string) (score : Z) (tags : list string)
| SdkGiveFeedback (agentId : string) (signer : option string)
| SdkSearchFeedback (agentId : string) (tags : option (list string))
| SdkGetReputationSummary (agentId : string) (tag : option string)
| SdkGetFeedback (agentId reviewer : string) (index : value).

Inductive Event : Type :=
| Log (text : string)          (* console.log *)
| LogError (text : string)     (* console.error *)
| Sleep (ms : Z)               (* await new Promise(r => setTimeout(r, ms)) *)
| Call (req : Request)
| Exit (code : Z).             (* process.exit(code) *)

Definition Trace := list Event.

Inductive Outcome (A : Type) : Type :=
| Ok (a : A)
| Throw (e : exn)
| Exited (code : Z).
Arguments Ok {A} a.
Arguments Throw {A} e.
Arguments Exited {A} code.

(** A script reads the history and returns its outcome and the events
    it has added, oldest first. *)
Definition M (A : Type) : Type := Trace -> Outcome A * Trace.

Definition ret {A} (a : A) : M A := fun _ => (Ok a, []).

Definition bind {A B} (m : M A) (k : A -> M B) : M B :=
  fun h =>
    match m h with
    | (Ok a, t1) => let (o, t2) := k a (h ++ t1)%list in (o, (t1 ++ t2)%list)
    | (Throw e, t1) => (Throw e, t1)
    | (Exited c, t1) => (Exited c, t1)
    end.

Definition emit (e : Event) : M unit := fun _ => (Ok tt, [e]).
Definition log (text : string) : M unit := emit (Log text).
Definition logError (text : string) : M unit := emit (LogError text).
Definition sleep (ms : Z) : M unit := emit (Sleep ms).

(** [throw e] *)
Definition throw {A} (e : exn) : M A := fun _ => (Throw e, []).
(** [throw new Error(msg)] *)
Definition throwError {A} (msg : string) : M A := throw (JsError msg "Error").

(** [process.exit(code)] *)
Definition exit {A} (code : Z) : M A := fun _ => (Exited code, [Exit code]).

(** Evaluation of a pure expression that may throw. *)
Definition lift {A} (r : Result A) : M A :=
  fun _ => match r with Val a => (Ok a, []) | Err e => (Throw e, []) end.

(** A call to a collaborator: the request is recorded, the oracle
    answers from the history. *)
Definition call {A} (req : Request) (oracle : Trace -> Result A) : M A :=
  fun h => match oracle h with
           | Val a => (Ok a, [Call req])
           | Err e => (Throw e, [Call req])
           end.

(** [try { m } catch (e) { handler e }]: an exited process is not caught. *)
Definition tryCatch {A} (m : M A) (handler : exn -> M A) : M A :=
  fun h =>
    match m h with
    | (Throw e, t1) => let (o, t2) := handler e (h ++ t1)%list in (o, (t1 ++ t2)%list)
    | r => r
    end.

Definition when (b : bool) (m : M unit) : M unit := if b then m else ret tt.

(** Running a script from the start of the process. *)
Definition run {A} (m : M A) : Outcome A * Trace := m [].

(** The requests of a trace, in order. *)
Definition requests (t : Trace) : list Request :=
  flat_map (fun e => match e with Call r => [r] | _ => [] end) t.

(** The console lines of a trace, in order. *)
Definition logged (t : Trace) : list string :=
  flat_map (fun e => match e with Log s => [s] | _ => [] end) t.

Definition isCall (p : Request -> bool) (e : Event) : bool :=
  match e with
  | Call r => p r
  | _ => false
  end.

End Script.

Export Script.

Notation "x <- m ;; k" := (bind m (fun x => k))
  (at level 61, m at next level, right associativity).
Notation "m ;;; k" := (bind m (fun _ => k))
  (at level 61, right associativity).

(** ** scripts/mcp-server.ts: the tool handler of the local MCP server *)

Module McpServer.

Record Content : Type := { type : string; text : string }.

(** The handler's return value [{ content: [...] }]. *)
Record ToolResult : Type := { content : list Content }.

Definition textResult (s : string) : ToolResult :=
  {| content := [ {| type := "text"; text := s |} ] |}.

(** [request.params] of a tool call, as the request schema allows it:
    a name, and optional arguments that are a JSON object whose values
    are not checked. *)
Record Params : Type := {
  p_name : string;
  p_arguments : option (list (string * value))
}.

(** [const { ... } = args]: destructuring [undefined] throws. *)
Definition destructured (args : option (list (string * value)))
  : Result (list (string * value)) :=
  match args with
  | Some fields => Val fields
  | None => Err (typeError "Cannot destructure 'args' as it is undefined")
  end.

(** [b === 0], which holds for the numbers [0] and [-0] only. *)
Definition isZero (v : value) : bool :=
  match v with
  | Num n => PrimFloat.eqb n 0%float
  | _ => false
  end.

Section Handler.

(** Number-to-string conversion of template literals
    ([Number::toString]); the handler only splices its result. *)
Variable numberToString : float -> string.

(** [JSON.stringify(mockWeather, null, 2)], whose other fields come
    from [Math.random]. *)
Variable mockWeatherText : value -> string.

(** The arithmetic operators of JavaScript on operands that are not
    both numbers: they coerce their operands, concatenate strings, or
    throw.  These coercions are not modelled; the operator is named by
    its sign. *)
Variable coerced : string -> value -> value -> Result value.

(** An arithmetic operator: on two numbers, the operation of the IEEE
    doubles. *)
Definition arith (f : float -> float -> float) (sign : string) (x y : value)
  : Result value :=
  match x, y with
  | Num a, Num b => Val (Num (f a b))
  | _, _ => coerced sign x y
  end.

(** The inner [switch (operation)]: [inr result] where control reaches
    the [break], [inl r] where the case returns [r] at once. *)
Definition compute (operation a b : value) : Result (ToolResult + value) :=
  if isStr operation "add" then
    rbind (arith PrimFloat.add "+" a b) (fun r => Val (inr r))
  else if isStr operation "subtract" then
    rbind (arith PrimFloat.sub "-" a b) (fun r => Val (inr r))
  else if isStr operation "multiply" then
    rbind (arith PrimFloat.mul "*" a b) (fun r => Val (inr r))
  else if isStr operation "divide" then
    if isZero b
    then Val (inl (textResult "Error: Division by zero"))
    else rbind (arith PrimFloat.div "/" a b) (fun r => Val (inr r))
  else
    rbind (toStr numberToString operation)
      (fun s => Val (inl (textResult ("Error: Unknown operation " ++ s)))).

(** [`Result: ${a} ${operation} ${b} = ${result}`] *)
Definition resultText (operation a b result : value) : Result string :=
  rbind (toStr numberToString a) (fun sa =>
  rbind (toStr numberToString operation) (fun so =>
  rbind (toStr numberToString b) (fun sb =>
  rbind (toStr numberToString result) (fun sr =>
  Val ("Result: " ++ sa ++ " " ++ so ++ " " ++ sb ++ " = " ++ sr))))).

(** The case [calculate], after the destructuring of its arguments. *)
Definition calculate (fields : list (string * value)) : Result ToolResult :=
  let operation := lookup "operation" fields in
  let a := lookup "a" fields in
  let b := lookup "b" fields in
  rbind (compute operation a b)
    (fun c =>
       match c with
       | inl early => Val early
       | inr result =>
           rbind (resultText operation a b result) (fun s => Val (textResult s))
       end).

(** [server.setRequestHandler(CallToolRequestSchema, ...)] *)
Definition callTool (params : Params) : Result ToolResult :=
  let name := p_name params in
  if (name =? "calculate")%string then
    rbind (destructured (p_arguments params)) calculate
  else if (name =? "get_weather")%string then
    rbind (destructured (p_arguments params))
      (fun fields => Val (textResult (mockWeatherText (lookup "location" fields))))
  else if (name =? "echo")%string then
    rbind (destructured (p_arguments params))
      (fun fields =>
         rbind (toStr numberToString (lookup "message" fields))
           (fun s => Val (textResult ("Echo: " ++ s))))
  else Val (textResult ("Error: Unknown tool " ++ name)).

End Handler.

End McpServer.

(** ** The collaborators: signers, the chain provider, HTTP and the SDK *)

Module Sdk.

(** [process.env] *)
Record Env : Type := {
  RPC_URL : option string;
  CHAIN_ID : option string;
  PRIVATE_KEY : option string;
  FEEDBACK_PRIVATE_KEY : option string;
  PINATA_JWT : option string;
  TEST_AGENT_ID : option string
}.

(** An optional string read in a condition or before [||]
    ([process.env.X], an optional field): the string when it is truthy,
    that is, present and not empty. *)
Definition envGet (o : option string) : option string :=
  match o with
  | Some s => if (s =? "")%string then None else Some s
  | None => None
  end.

(** [ethers.Wallet] *)
Record Wallet : Type := { address : string }.

(** The configuration object handed to [new FluidSDK(...)]. *)
Record SdkConfig : Type := {
  cfg_chainId : value;
  cfg_rpcUrl : string;
  cfg_signer : option Wallet;
  cfg_ipfs : option string;
  cfg_pinataJwt : option string
}.

(** The two properties of the SDK object that the scripts read. *)
Record FluidSDK : Type := {
  config : SdkConfig;
  isReadOnly : bool;
  ipfsClient : bool
}.

(** Modelled from the spec: the constructor of [FluidSDK], whose code
    ([../dist/index.js]) is not among the sources.  Construction without
    a signer is the supported read-only state ([isReadOnly] reports
    [true], nothing is thrown), and the content-storage client exists
    only when a pinning credential was configured. *)
Definition newFluidSDK (cfg : SdkConfig) : FluidSDK :=
  {| config := cfg;
     isReadOnly := match cfg_signer cfg with Some _ => false | None => true end;
     ipfsClient := match cfg_ipfs cfg with Some _ => true | None => false end |}.

(** [fetch]'s response: [ok], [status], and what [await response.json()]
    gives. *)
Record Response : Type := {
  ok : bool;
  status : Z;
  json : Result value
}.

Record AgentSummary : Type := {
  agentId : string;
  name : string;
  description : string;
  active : bool;
  mcp : bool;
  mcpTools : list string;
  mcpPrompts : list string;
  mcpResources : list string
}.

Record RegistrationFile : Type := {
  reg_agentId : option string;
  reg_agentURI : option string
}.

Record Feedback : Type := {
  fb_id : value;
  fb_reviewer : string;
  fb_score : Z;
  fb_tags : list string;
  fb_createdAt : Z
}.

Record ReputationSummary : Type := {
  rep_count : Z;
  rep_averageScore : value
}.

(** The world outside the script.  Every oracle receives the request
    and the history, so that the same request may be answered
    differently later (an agent that is not indexed yet, then is). *)
Record World : Type := {
  w_parseInt : string -> value;
  w_now : Trace -> Z;
  w_newWallet : string -> Result Wallet;
  w_getAddress : Request -> Trace -> Result string;
  w_fetch : Request -> Trace -> Result Response;
  w_getBalance : Request -> Trace -> Result Z;
  w_chainId : Request -> Trace -> Result Z;
  w_registries : Request -> Trace -> Result (list (string * string));
  w_searchAgents : Request -> Trace -> Result (list AgentSummary);
  w_searchAgentsByReputation : Request -> Trace -> Result (list AgentSummary);
  w_createAgent : Request -> Trace -> Result unit;
  w_setEndpoint : Request -> Trace -> Result unit;
  w_setMcpCapabilities : Request -> Trace -> Result unit;
  w_setActive : Request -> Trace -> Result unit;
  w_registerIPFS : Request -> Trace -> Result RegistrationFile;
  w_getAgent : Request -> Trace -> Result (option AgentSummary);
  w_loadAgent : Request -> Trace -> Result AgentSummary;
  w_prepareFeedback : Request -> Trace -> Result value;
  w_giveFeedback : Request -> Trace -> Result Feedback;
  w_searchFeedback : Request -> Trace -> Result (list Feedback);
  w_getReputationSummary : Request -> Trace -> Result ReputationSummary;
  w_getFeedback : Request -> Trace -> Result Feedback
}.

Definition ask {A} (oracle : Request -> Trace -> Result A) (req : Request) : M A :=
  call req (oracle req).

(** Modelled from the spec: the score validation of [prepareFeedback],
    which lives in the SDK.  The documented range of a score is 1 to 5;
    a score outside it is rejected, never clamped. *)
Definition validScore (score : Z) : bool := (1 <=? score) && (score <=? 5).

(** The rejection; the spec does not give its text. *)
Definition scoreRejected : exn := JsError "Score must be between 1 and 5" "Error".

(** Modelled from the spec: [sdk.prepareFeedback(agentId, score, tags,
    ...)], whose code is in the SDK.  The score is validated first (see
    [validScore]); for a valid score the SDK does whatever it does, as an
    oracle of the world. *)
Definition prepareFeedback (w : World) (agent : string) (score : Z) (tags : list string)
  : M value :=
  call (SdkPrepareFeedback agent score tags)
       (fun h => if validScore score
                 then w_prepareFeedback w (SdkPrepareFeedback agent score tags) h
                 else Err scoreRejected).

(** [new Date(seconds * 1000).toISOString()], which throws a
    [RangeError] outside the representable dates. *)
Definition toISOString (seconds : Z) : Result unit :=
  if Z.abs (seconds * 1000) <=? 8640000000000000 then Val tt
  else Err (JsError "Invalid time value" "RangeError").

(** [s.replace(pat, rep)] with a string pattern: the first occurrence. *)
Definition replaceFirst (pat rep s : string) : string :=
  match String.index 0 pat s with
  | Some i =>
      substring 0 i s ++ rep
        ++ substring (i + String.length pat) (String.length s - (i + String.length pat)) s
  | None => s
  end.

Definition len {A} (l : list A) : Z := Z.of_nat (length l).

(** [Date.now()] *)
Definition dateNow (w : World) : M Z := fun h => (Ok (w_now w h), []).

End Sdk.

Export Sdk.

(** ** scripts/fullflow-mcp-subgraph.js *)

Module FullFlowMcp.

Definition MCP_SERVER_URL : string := "https://fluidmcpserver.vercel.app/".
Definition MCP_PROTOCOL_VERSION : string := "2024-11-05".

(** [Array.isArray(feedback.id) && feedback.id.length === 3
     ? feedback.id[2] : 0] *)
Definition feedbackIndex (id : value) : value :=
  match id with
  | Arr items =>
      if (length items =? 3)%nat then nth 2 items Undefined else Num 0%float
  | _ => Num 0%float
  end.

Section Scripts.

Variable w : World.

(** [${data?.k || 'unknown'}], for what it can throw. *)
Definition orUnknown (data : value) (k : string) : Result unit :=
  v <~ getPropOpt data k ;; if truthy v then template v else Val tt.

(** [testMCPConnectivity(url)] *)
Definition testMCPConnectivity (url : string) : M bool :=
  tryCatch
    (log ("Testing MCP server connectivity: " ++ url) ;;;
     response <- ask (w_fetch w) (HttpGet (url ++ "/info")) ;;
     (if negb (ok response)
      then log ("MCP server returned status: " ++ showZ (status response)) ;;;
           ret false
      else data <- lift (json response) ;;
           log "MCP server is accessible" ;;;
           lift (orUnknown data "version") ;;;
           lift (orUnknown data "protocol") ;;;
           ret true))
    (fun error =>
       log ("MCP server connectivity test failed: " ++ describe error) ;;;
       ret false).

(** [queryAgentFromSubgraph(sdk, agentId)] *)
Definition queryAgentFromSubgraph (agentId : string) : M (option AgentSummary) :=
  tryCatch
    (log ("Querying subgraph for agent: " ++ agentId) ;;;
     agent <- ask (w_getAgent w) (SdkGetAgent agentId) ;;
     match agent with
     | Some a =>
         log "Agent found in subgraph" ;;;
         when (mcp a)
           (log ("MCP Tools: " ++ showZ (len (mcpTools a))) ;;;
            log ("MCP Prompts: " ++ showZ (len (mcpPrompts a))) ;;;
            log ("MCP Resources: " ++ showZ (len (mcpResources a)))) ;;;
         ret (Some a)
     | None =>
         log "Agent not found in subgraph (may need time to index)" ;;;
         ret None
     end)
    (fun error =>
       log ("Subgraph query failed: " ++ describe error) ;;;
       ret None).

(** [searchAgentsInSubgraph(sdk, filters)] *)
Definition searchAgentsInSubgraph : M (list AgentSummary) :=
  tryCatch
    (log "Searching agents in subgraph..." ;;;
     items <- ask (w_searchAgents w) SdkSearchAgents ;;
     log ("Found " ++ showZ (len items) ++ " agent(s) in subgraph") ;;;
     ret items)
    (fun error =>
       log ("Agent search failed: " ++ describe error) ;;;
       ret []).

(** [queryFeedbackFromSubgraph(sdk, agentId)]: the filtered search and
    the reputation summary, under one [try]. *)
Definition queryFeedbackFromSubgraph (agentId : string) : M unit :=
  tryCatch
    (log ("Querying feedback from subgraph for agent: " ++ agentId) ;;;
     feedbacks <- ask (w_searchFeedback w) (SdkSearchFeedback agentId None) ;;
     log ("Found " ++ showZ (len feedbacks) ++ " feedback(s) in subgraph") ;;;
     reputation <- ask (w_getReputationSummary w) (SdkGetReputationSummary agentId None) ;;
     log "Reputation Summary (via subgraph):" ;;;
     log ("Total Feedback: " ++ showZ (rep_count reputation)))
    (fun error =>
       log ("Feedback query failed: " ++ describe error)).

(** [data.result?.<kind>] *)
Definition listedIn (data : value) (kind : string) : Result value :=
  result <~ getProp data "result" ;; getPropOpt result kind.

(** The request of a probe. *)
Definition probeRequest (kind : string) (id : Z) : Request :=
  JsonRpc (MCP_SERVER_URL ++ "mcp") (kind ++ "/list") id.

(** The [catch] of a probe. *)
Definition couldNotFetch (kind : string) (e : exn) : M unit :=
  log ("Could not fetch " ++ kind ++ ": " ++ describe e).

(** The decoding of the body of a probe's response, from
    [await response.json()] to the [map]: [Some] is the list that is
    assigned to the list variable, [None] a body whose
    [result?.<kind>] is falsy. *)
Definition decode (kind : string) (pick : value -> Result value) (response : Response)
  : Result (option (list value)) :=
  data <~ json response ;;
  listed <~ listedIn data kind ;;
  if truthy listed
  then names <~ arrayMap pick listed ;; Val (Some names)
  else Val None.

(** The [try] block of a probe up to the assignment of the list
    variable: [Some] is the list assigned, [None] a block that ends
    without reaching the assignment. *)
Definition probeAssign (kind : string) (id : Z) (pick : value -> Result value)
  : M (option (list value)) :=
  response <- ask (w_fetch w) (probeRequest kind id) ;;
  if ok response then lift (decode kind pick response) else ret None.

(** The console line that follows the assignment, whose [join] can
    throw. *)
Definition probeFound (noun : string) (names : list value) : M unit :=
  lift (joinValues names) ;;;
  log ("Found " ++ showZ (len names) ++ " " ++ noun ++ "(s)").

(** One capability probe of step 4: the [try] block that fetches
    [<kind>/list], and its [catch].  [noun] is the word of the console
    line and [pick] the callback given to [map]; the result is the new
    content of the list variable, which stays [[]] unless the
    assignment is reached.  The block is split at the assignment: the
    console line after it runs under the same [catch], and an exception
    there leaves the variable assigned. *)
Definition probe (kind noun : string) (id : Z) (pick : value -> Result value)
  : M (list value) :=
  assigned <- tryCatch (probeAssign kind id pick)
                       (fun e => couldNotFetch kind e ;;; ret None) ;;
  match assigned with
  | Some names =>
      tryCatch (probeFound noun names) (couldNotFetch kind) ;;;
      ret names
  | None => ret []
  end.

(** [(t) => t.name], [(p) => p.name] *)
Definition pickName (t : value) : Result value := getProp t "name".

(** [(r) => r.uri || r.name] *)
Definition pickUriOrName (r : value) : Result value :=
  uri <~ getProp r "uri" ;; orElse uri (getProp r "name").

Definition fetchTools : M (list value) := probe "tools" "tool" 1 pickName.
Definition fetchPrompts : M (list value) := probe "prompts" "prompt" 2 pickName.
Definition fetchResources : M (list value) :=
  probe "resources" "resource" 3 pickUriOrName.

(** The three probes in the order of the source (lines 250 to 322). *)
Definition fetchCapabilities : M (list value * list value * list value) :=
  log "Fetching MCP capabilities..." ;;;
  mcpTools <- fetchTools ;;
  mcpPrompts <- fetchPrompts ;;
  mcpResources <- fetchResources ;;
  ret (mcpTools, mcpPrompts, mcpResources).

(** Lines 246 to 344: configuration of the MCP endpoint. *)
Definition configureMcp : M unit :=
  log "Configuring MCP endpoint..." ;;;
  tryCatch
    (caps <- fetchCapabilities ;;
     let '(mcpTools, mcpPrompts, mcpResources) := caps in
     ask (w_setEndpoint w) (AgentSetMCP MCP_SERVER_URL MCP_PROTOCOL_VERSION false) ;;;
     log "MCP endpoint configured" ;;;
     when ((0 <? len mcpTools) || (0 <? len mcpPrompts) || (0 <? len mcpResources))
       (log "Adding MCP capabilities to agent..." ;;;
        ask (w_setMcpCapabilities w)
            (AgentSetMcpCapabilities mcpTools mcpPrompts mcpResources) ;;;
        log "MCP capabilities added:" ;;;
        lift (joinValues mcpTools) ;;;
        lift (joinValues mcpPrompts) ;;;
        lift (joinValues mcpResources)) ;;;
     ask (w_setActive w) (AgentSetActive true) ;;;
     log "Agent set as active")
    (fun error =>
       log ("Error configuring MCP: " ++ describe error) ;;;
       throw error).

(** Lines 359 to 389: the pinned registration file is fetched back and
    inspected, all under one [try]. *)
Definition showIpfsContent (registrationFile : RegistrationFile) : M unit :=
  match envGet (option_map (replaceFirst "ipfs://" "") (reg_agentURI registrationFile)) with
  | Some ipfsCid =>
      tryCatch
        (log "Fetching IPFS content to verify tools/prompts/resources..." ;;;
         ipfsResponse <- ask (w_fetch w)
           (HttpGet ("https://salmon-quiet-marten-958.mypinata.cloud/ipfs/" ++ ipfsCid)) ;;
         when (ok ipfsResponse)
           (ipfsContent <- lift (json ipfsResponse) ;;
            log "IPFS Content:" ;;;
            mcpEndpoint <- lift
              (endpoints <~ getProp ipfsContent "endpoints" ;;
               arrayFindOpt
                 (fun e => n <~ getProp e "name" ;; Val (isStr n "MCP" || isStr n "mcp"))
                 endpoints) ;;
            (if truthy mcpEndpoint
             then log "MCP Endpoint in IPFS:" ;;;
                  lift (lengthOrZero (own "mcpTools" mcpEndpoint)) ;;;
                  lift (lengthOrZero (own "mcpPrompts" mcpEndpoint)) ;;;
                  lift (lengthOrZero (own "mcpResources" mcpEndpoint)) ;;;
                  tools <- lift (getProp mcpEndpoint "mcpTools") ;;
                  when (truthy tools)
                    (lift (match tools with
                           | Arr items => joinValues items
                           | _ => Err (typeError "join is not a function")
                           end))
             else log "No MCP endpoint found in IPFS content")))
        (fun error => log ("Could not fetch IPFS content: " ++ describe error))
  | None => ret tt
  end.

Variable env : Env.

(** Lines 132 to 141. *)
Definition banner : M unit :=
  log "FluidSDK Full Flow Test - MCP Integration + Subgraph Verification" ;;;
  log "This test will:" ;;;
  log "1. Verify MCP server connectivity" ;;;
  log "2. Create and register an agent with MCP endpoint" ;;;
  log "3. Query and verify data via subgraph" ;;;
  log "4. Perform feedback operations" ;;;
  log "5. Validate all changes via subgraph queries" ;;;
  log "This test requires ETH for gas fees!".

(** Lines 142 to 173: the environment and the signers.  The result is
    the RPC URL, the owner's signer and the reviewer's signer, if one
    is configured. *)
Definition configure : M (string * Wallet * option Wallet) :=
  match envGet (RPC_URL env) with
  | None => throwError "RPC_URL not set in .env file"
  | Some rpcUrl =>
      match envGet (PRIVATE_KEY env) with
      | None =>
          throwError "PRIVATE_KEY not set in .env file - write operations require a signer"
      | Some key =>
          signer <- lift (w_newWallet w key) ;;
          feedbackSigner <-
            match envGet (FEEDBACK_PRIVATE_KEY env) with
            | Some feedbackKey =>
                fs <- lift (w_newWallet w feedbackKey) ;;
                log "Configuration:" ;;;
                ret (Some fs)
            | None =>
                log "WARNING: FEEDBACK_PRIVATE_KEY not set in .env" ;;;
                log "Feedback operations will use the same wallet as agent owner" ;;;
                log "This will cause 'Self-feedback not allowed' error!" ;;;
                log "Add FEEDBACK_PRIVATE_KEY to .env with a different wallet" ;;;
                log "Get a second wallet's private key and add it to .env" ;;;
                ret None
            end ;;
          ret (rpcUrl, signer, feedbackSigner)
      end
  end.

Definition step1 : M unit :=
  log "STEP 1: Verify MCP Server Connectivity" ;;;
  mcpConnected <- testMCPConnectivity MCP_SERVER_URL ;;
  when (negb mcpConnected)
    (log "WARNING: MCP server is not accessible" ;;;
     log "Test will continue but MCP functionality may be limited").

(** [parseInt(process.env.CHAIN_ID || "11155111")] *)
Definition chainIdOfEnv : value :=
  w_parseInt w (match envGet (CHAIN_ID env) with Some c => c | None => "11155111" end).

(** Lines 219 to 223: the balance precheck, [if (balance === 0n)]. *)
Definition balanceGuard (balance : Z) : M unit :=
  when (balance =? 0)
    (log "WARNING: Your wallet has 0 ETH. You need ETH for gas fees." ;;;
     log "Get testnet ETH from: https://sepoliafaucet.com/" ;;;
     throwError "Insufficient balance for testing").

(** Lines 350 to 352: the content-storage guard. *)
Definition ipfsGuard (sdk : FluidSDK) : M unit :=
  when (negb (ipfsClient sdk))
    (throwError "IPFS client not configured - cannot register agent").

(** Lines 183 to 229: the SDK, the chain, the balance precheck and the
    registries. *)
Definition step2 (rpcUrl : string) (signer : Wallet) (feedbackSigner : option Wallet)
  : M (FluidSDK * Z) :=
  log "STEP 2: Initialize FluidSDK" ;;;
  sdkConfig <-
    match envGet (PINATA_JWT env) with
    | Some jwt =>
        log "IPFS (Pinata) configured" ;;;
        ret {| cfg_chainId := chainIdOfEnv; cfg_rpcUrl := rpcUrl;
               cfg_signer := Some signer;
               cfg_ipfs := Some "pinata"; cfg_pinataJwt := Some jwt |}
    | None =>
        log "No IPFS configuration - some features will be limited" ;;;
        ret {| cfg_chainId := chainIdOfEnv; cfg_rpcUrl := rpcUrl;
               cfg_signer := Some signer;
               cfg_ipfs := None; cfg_pinataJwt := None |}
    end ;;
  let sdk := newFluidSDK sdkConfig in
  log "SDK initialized" ;;;
  chainId <- ask (w_chainId w) SdkChainId ;;
  balance <- ask (w_getBalance w) (ProviderGetBalance (address signer)) ;;
  match feedbackSigner with
  | Some fs =>
      feedbackBalance <- ask (w_getBalance w) (ProviderGetBalance (address fs)) ;;
      when (feedbackBalance =? 0)
        (log "WARNING: Feedback wallet has 0 ETH. You need ETH for gas fees." ;;;
         log "Get testnet ETH from: https://sepoliafaucet.com/" ;;;
         throwError "Insufficient balance in feedback wallet")
  | None => ret tt
  end ;;;
  balanceGuard balance ;;;
  registries <- ask (w_registries w) SdkRegistries ;;
  when (len registries =? 0)
    (throwError ("No registry addresses configured for chain " ++ showZ chainId)) ;;;
  ret (sdk, chainId).

Definition step3 : M unit :=
  log "STEP 3: Query Existing Agents from Subgraph" ;;;
  searchAgentsInSubgraph ;;;
  ret tt.

(** Lines 235 to 344; the result is the agent's name. *)
Definition step4 : M string :=
  log "STEP 4: Create Agent with MCP Endpoint" ;;;
  timestamp <- dateNow w ;;
  let agentName := "MCP Agent " ++ showZ timestamp in
  ask (w_createAgent w)
      (SdkCreateAgent agentName
         "Test agent with MCP server integration for full flow testing"
         "ipfs://QmTestMCPAgentImage") ;;;
  log "Agent object created" ;;;
  configureMcp ;;;
  ret agentName.

(** Lines 345 to 393: the content-storage guard, the registration and
    the new agent's identifier. *)
Definition step5 (sdk : FluidSDK) : M string :=
  log "STEP 5: Register Agent On-Chain" ;;;
  log "This will cost gas!" ;;;
  ipfsGuard sdk ;;;
  log "Registering agent..." ;;;
  registrationFile <- ask (w_registerIPFS w) AgentRegisterIPFS ;;
  log "Agent registered on-chain!" ;;;
  showIpfsContent registrationFile ;;;
  match envGet (reg_agentId registrationFile) with
  | None => throwError "Registration failed - no agent ID returned"
  | Some newAgentId => ret newAgentId
  end.

(** Lines 394 to 396. *)
Definition waitForIndexing : M unit :=
  log "Waiting for transaction confirmation and subgraph indexing..." ;;;
  sleep 10000.

(** The loop [for (let i = 0; i < 3; i++)] of lines 405 to 411, by the
    number of iterations left ([3 - i]); [Some] is the [break]. *)
Fixpoint retryLookup (left : nat) (i : Z) (newAgentId : string)
  : M (option AgentSummary) :=
  match left with
  | O => ret None
  | S left' =>
      sleep 10000 ;;;
      log ("Retry " ++ showZ (i + 1) ++ "/3...") ;;;
      agentData <- queryAgentFromSubgraph newAgentId ;;
      match agentData with
      | Some a => ret (Some a)
      | None => retryLookup left' (i + 1) newAgentId
      end
  end.

(** Lines 397 to 420. *)
Definition step6 (newAgentId : string) : M (option AgentSummary) :=
  log "STEP 6: Verify Agent Registration via Subgraph" ;;;
  first <- queryAgentFromSubgraph newAgentId ;;
  agentData <-
    match first with
    | Some a => ret (Some a)
    | None =>
        log "Agent not found yet, waiting for subgraph to index..." ;;;
        retryLookup 3 0 newAgentId
    end ;;
  match agentData with
  | None =>
      log "WARNING: Agent not found in subgraph after multiple retries" ;;;
      log "This is likely due to subgraph indexing delay" ;;;
      log "Continuing with test..."
  | Some _ => log "Agent successfully verified in subgraph!"
  end ;;;
  ret agentData.

Definition step7 (newAgentId : string) : M unit :=
  log "STEP 7: Load Agent via SDK" ;;;
  tryCatch
    (ask (w_loadAgent w) (SdkLoadAgent newAgentId) ;;;
     log "Agent loaded from blockchain/subgraph")
    (fun error => log ("Error loading agent: " ++ describe error)).

(** Lines 490 to 504, with the index computed at line 489. *)
Definition step10 (newAgentId : string) (feedbackSigner : Wallet) (feedback : Feedback)
  : M unit :=
  let index := feedbackIndex (fb_id feedback) in
  log "STEP 10: Retrieve Specific Feedback" ;;;
  tryCatch
    (reviewer <- ask (w_getAddress w) (SignerGetAddress (address feedbackSigner)) ;;
     retrievedFeedback <- ask (w_getFeedback w) (SdkGetFeedback newAgentId reviewer index) ;;
     log "Feedback retrieved directly" ;;;
     lift (toISOString (fb_createdAt retrievedFeedback)))
    (fun error => log ("Error retrieving feedback: " ++ describe error)).

(** Lines 444 to 511, the [else] branch of step 8, with the score of
    line 446 (the literal [5]) as a parameter. *)
Definition feedbackFlow (score : Z) (newAgentId : string) (feedbackSigner : Wallet)
  : M unit :=
  log "This will cost gas!" ;;;
  tryCatch
    (ask (w_getAddress w) (SignerGetAddress (address feedbackSigner)) ;;;
     feedbackFile <- prepareFeedback w newAgentId score ["mcp"; "integration"; "test"] ;;
     log "Feedback prepared" ;;;
     ask (w_getAddress w) (SignerGetAddress (address feedbackSigner)) ;;;
     log "Submitting feedback on-chain with separate signer..." ;;;
     feedback <- ask (w_giveFeedback w)
                     (SdkGiveFeedback newAgentId (Some (address feedbackSigner))) ;;
     log "Feedback submitted!" ;;;
     log "Waiting for feedback to be indexed..." ;;;
     sleep 10000 ;;;
     log "STEP 9: Verify Feedback via Subgraph" ;;;
     queryFeedbackFromSubgraph newAgentId ;;;
     step10 newAgentId feedbackSigner feedback)
    (fun error =>
       log ("Error in feedback flow: " ++ describe error) ;;;
       match stackOf error with
       | Some st => log ("Stack trace: " ++ st)
       | None => ret tt
       end).

(** Lines 435 to 512. *)
Definition step8 (newAgentId : string) (feedbackSigner : option Wallet) : M unit :=
  log "STEP 8: Submit Feedback" ;;;
  match feedbackSigner with
  | None =>
      log "Skipping feedback - FEEDBACK_PRIVATE_KEY not configured" ;;;
      log "Add FEEDBACK_PRIVATE_KEY to .env to test feedback functionality"
  | Some fs => feedbackFlow 5 newAgentId fs
  end.

(** Lines 513 to 546. *)
Definition step11 (newAgentId : string) (feedbackSigner : option Wallet) : M unit :=
  log "STEP 11: Search Agents with Filters (Subgraph)" ;;;
  searchResults <- searchAgentsInSubgraph ;;
  when (existsb (fun a => (agentId a =? newAgentId)%string) searchResults)
    (log "Successfully found our newly registered agent in search results!") ;;;
  log "FULL FLOW TEST COMPLETED SUCCESSFULLY!" ;;;
  log "Test Summary:" ;;;
  match feedbackSigner with
  | Some fs => ask (w_getAddress w) (SignerGetAddress (address fs)) ;;; ret tt
  | None => ret tt
  end ;;;
  log "You can use this agent ID for future tests:" ;;;
  match feedbackSigner with
  | Some _ => ret tt
  | None =>
      log "To test feedback functionality:" ;;;
      log "1. Generate a new wallet: node -e 'console.log(require('ethers').Wallet.createRandom().privateKey)'" ;;;
      log "2. Add to .env: FEEDBACK_PRIVATE_KEY='<new-private-key>'" ;;;
      log "3. Get testnet ETH for the new wallet from https://sepoliafaucet.com/" ;;;
      log "4. Run the test again"
  end.

(** The body of [main]'s [try] block. *)
Definition mainBody : M unit :=
  banner ;;;
  cfg <- configure ;;
  let '(rpcUrl, signer, feedbackSigner) := cfg in
  step1 ;;;
  session <- step2 rpcUrl signer feedbackSigner ;;
  let '(sdk, chainId) := session in
  step3 ;;;
  agentName <- step4 ;;
  newAgentId <- step5 sdk ;;
  waitForIndexing ;;;
  step6 newAgentId ;;;
  step7 newAgentId ;;;
  step8 newAgentId feedbackSigner ;;;
  step11 newAgentId feedbackSigner.

(** [main]: any exception of the body is fatal. *)
Definition main : M unit :=
  tryCatch mainBody
    (fun error =>
       logError "FATAL ERROR" ;;;
       logError (describe error) ;;;
       match stackOf error with
       | Some st => logError ("Stack trace: " ++ st)
       | None => ret tt
       end ;;;
       exit 1).

(** Lines 559 to 570: the process. *)
Definition program : M unit :=
  log "Starting test in 3 seconds..." ;;;
  log "Press Ctrl+C to cancel" ;;;
  sleep 3000 ;;;
  tryCatch
    (main ;;;
     log "All tests completed successfully" ;;;
     exit 0)
    (fun error =>
       logError ("Test execution failed: " ++ describe error) ;;;
       exit 1).

End Scripts.

End FullFlowMcp.

(** ** The sibling full-flow script (single signer): preparation,
       submission and the three read queries of its steps 6 to 9 *)

Module FullFlow.

(** [Array.isArray(feedback.id) && feedback.id.length === 3
     ? feedback.id[2] : 0] *)
Definition feedbackIndex (id : value) : value :=
  match id with
  | Arr items =>
      if (length items =? 3)%nat then nth 2 items Undefined else Num 0%float
  | _ => Num 0%float
  end.

Section Scripts.

Variable w : World.

(** Step 7: direct lookup by (agent, reviewer, index). *)
Definition retrieveFeedback (newAgentId : string) (signer : Wallet) (feedback : Feedback)
  : M unit :=
  let index := feedbackIndex (fb_id feedback) in
  log "--- Step 7: Retrieve Feedback ---" ;;;
  tryCatch
    (ask (w_getFeedback w) (SdkGetFeedback newAgentId (address signer) index) ;;;
     log "Feedback retrieved")
    (fun error => log ("Error retrieving feedback: " ++ describe error)).

(** Step 8: filtered search. *)
Definition searchAgentFeedback (newAgentId : string) : M unit :=
  log "--- Step 8: Search Agent Feedback ---" ;;;
  tryCatch
    (allFeedback <- ask (w_searchFeedback w)
                        (SdkSearchFeedback newAgentId (Some ["test"])) ;;
     log ("Found " ++ showZ (len allFeedback) ++ " feedback(s)"))
    (fun error => log ("Error searching feedback: " ++ describe error)).

(** Step 9: aggregate reputation. *)
Definition reputationSummary (newAgentId : string) : M unit :=
  log "--- Step 9: Get Reputation Summary ---" ;;;
  tryCatch
    (ask (w_getReputationSummary w)
         (SdkGetReputationSummary newAgentId (Some "test")) ;;;
     log "Reputation summary:")
    (fun error => log ("Error getting reputation: " ++ describe error)).

(** The three read queries, in the order of the source. *)
Definition verifyFeedback (newAgentId : string) (signer : Wallet) (feedback : Feedback)
  : M unit :=
  retrieveFeedback newAgentId signer feedback ;;;
  searchAgentFeedback newAgentId ;;;
  reputationSummary newAgentId.

(** Step 6 with the steps it encloses. *)
Definition feedbackFlow (newAgentId : string) (signer : Wallet) : M unit :=
  log "--- Step 6: Give Feedback to Agent ---" ;;;
  log "This will cost gas!" ;;;
  tryCatch
    (prepareFeedback w newAgentId 5 ["test"; "positive"; "automated"] ;;;
     log "Feedback prepared" ;;;
     log "Submitting feedback..." ;;;
     feedback <- ask (w_giveFeedback w) (SdkGiveFeedback newAgentId None) ;;
     log "Feedback submitted!" ;;;
     sleep 5000 ;;;
     verifyFeedback newAgentId signer feedback)
    (fun error =>
       log ("Error in feedback flow: " ++ describe error) ;;;
       match stackOf error with
       | Some st => log ("Stack trace: " ++ st)
       | None => ret tt
       end).

End Scripts.

End FullFlow.

(** ** The basic SDK test (read operations, then write operations when a
       signer exists) *)

Module IndexTest.

Definition showBool (b : bool) : string := if b then "true" else "false".

Section Scripts.

Variable w : World.
Variable env : Env.

(** A test that needs [TEST_AGENT_ID]: run under its own [try], or
    skipped. *)
Definition withTestAgent {A} (query : string -> M A) (found : A -> string)
    (failed : string) : M unit :=
  match envGet (TEST_AGENT_ID env) with
  | Some testAgentId =>
      tryCatch (result <- query testAgentId ;; log (found result))
               (fun error => log (failed ++ " " ++ describe error))
  | None => log "No TEST_AGENT_ID provided, skipping"
  end.

Definition mainBody : M unit :=
  log "=== FluidSDK Test Suite ===" ;;;
  let rpcUrl := match envGet (RPC_URL env) with
                | Some u => u
                | None => "https://ethereum-sepolia-rpc.publicnode.com"
                end in
  let chain := w_parseInt w (match envGet (CHAIN_ID env) with
                             | Some c => c
                             | None => "11155111"
                             end) in
  signer <-
    match envGet (PRIVATE_KEY env) with
    | Some key =>
        s <- lift (w_newWallet w key) ;;
        log ("Signer created: " ++ address s) ;;;
        ret (Some s)
    | None =>
        log "No PRIVATE_KEY provided - running in read-only mode" ;;;
        ret None
    end ;;
  log "--- Initializing SDK ---" ;;;
  let sdk := newFluidSDK {| cfg_chainId := chain; cfg_rpcUrl := rpcUrl;
                            cfg_signer := signer;
                            cfg_ipfs := None; cfg_pinataJwt := None |} in
  log "SDK initialized" ;;;
  ask (w_chainId w) SdkChainId ;;;
  log ("Read-only mode: " ++ showBool (isReadOnly sdk)) ;;;
  ask (w_registries w) SdkRegistries ;;;
  log "--- Test 1: Create Agent (off-chain) ---" ;;;
  ask (w_createAgent w)
      (SdkCreateAgent "Test Agent" "A test agent for FluidSDK" "ipfs://QmTestImageHash") ;;;
  log "Agent created:" ;;;
  log "--- Test 2: Search Agents ---" ;;;
  tryCatch
    (items <- ask (w_searchAgents w) SdkSearchAgents ;;
     log ("Found " ++ showZ (len items) ++ " agents"))
    (fun error => log ("Search failed: " ++ describe error)) ;;;
  log "--- Test 3: Get Agent by ID ---" ;;;
  withTestAgent (fun id => ask (w_getAgent w) (SdkGetAgent id))
                (fun _ => "Agent found:") "Get agent failed:" ;;;
  log "--- Test 4: Load Agent (full) ---" ;;;
  withTestAgent (fun id => ask (w_loadAgent w) (SdkLoadAgent id))
                (fun _ => "Agent loaded:") "Load agent failed:" ;;;
  log "--- Test 5: Search Agents by Reputation ---" ;;;
  tryCatch
    (items <- ask (w_searchAgentsByReputation w) SdkSearchAgentsByReputation ;;
     log ("Found " ++ showZ (len items) ++ " agents with reputation"))
    (fun error => log ("Reputation search failed: " ++ describe error)) ;;;
  log "--- Test 6: Search Feedback ---" ;;;
  withTestAgent (fun id => ask (w_searchFeedback w) (SdkSearchFeedback id None))
                (fun feedbacks => "Found " ++ showZ (len feedbacks) ++ " feedbacks")
                "Feedback search failed:" ;;;
  log "--- Test 7: Get Reputation Summary ---" ;;;
  withTestAgent (fun id => ask (w_getReputationSummary w) (SdkGetReputationSummary id None))
                (fun _ => "Reputation summary:") "Reputation summary failed:" ;;;
  when (negb (isReadOnly sdk))
    (log "--- Write Operations (with signer) ---" ;;;
     log "--- Test 8: Prepare Feedback ---" ;;;
     match envGet (TEST_AGENT_ID env) with
     | Some testAgentId =>
         prepareFeedback w testAgentId 5 ["test"; "positive"] ;;;
         log "Feedback prepared:"
     | None => log "No TEST_AGENT_ID provided, skipping"
     end ;;;
     log "Skipping actual write transactions to avoid gas costs" ;;;
     log "To test write operations, uncomment the code and provide valid parameters") ;;;
  log "=== Test Suite Completed ===".

(** [main], called at the end of the file: an exception of the body
    ends the process with status 1. *)
Definition main : M unit :=
  tryCatch mainBody
    (fun error =>
       logError ("Error: " ++ describe error) ;;;
       match stackOf error with
       | Some st => logError ("Stack trace: " ++ st)
       | None => ret tt
       end ;;;
       exit 1).

End Scripts.

End IndexTest.

(** ** Concrete worlds, for running the scripts *)

Module Worlds.

Definition sampleAgent : AgentSummary :=
  {| agentId := "11155111:7"; name := "MCP Agent 0"; description := "d";
     active := true; mcp := true;
     mcpTools := ["calculate"]; mcpPrompts := []; mcpResources := [] |}.

Definition sampleFeedback (id : value) : Feedback :=
  {| fb_id := id; fb_reviewer := "0xreviewer"; fb_score := 5;
     fb_tags := ["mcp"]; fb_createdAt := 1762853575 |}.

Definition okResponse (body : value) : Response :=
  {| ok := true; status := 200; json := Val body |}.

Definition serverError : Response :=
  {| ok := false; status := 500; json := Err (Thrown "no body") |}.

(** The answers of the local MCP server of scripts/mcp-server.ts. *)
Definition mcpAnswer (req : Request) : Result Response :=
  match req with
  | JsonRpc _ "tools/list" _ =>
      Val (okResponse (Obj [("result", Obj [("tools",
             Arr [Obj [("name", Str "calculate")];
                  Obj [("name", Str "get_weather")];
                  Obj [("name", Str "echo")]])])]))
  | JsonRpc _ "prompts/list" _ =>
      Val (okResponse (Obj [("result", Obj [("prompts",
             Arr [Obj [("name", Str "greeting")];
                  Obj [("name", Str "code_review")]])])]))
  | JsonRpc _ "resources/list" _ =>
      Val (okResponse (Obj [("result", Obj [("resources",
             Arr [Obj [("uri", Str "fluidsdk://config"); ("name", Str "SDK Configuration")];
                  Obj [("uri", Str "fluidsdk://status"); ("name", Str "Server Status")]])])]))
  | _ => Val (okResponse (Obj []))
  end.

(** A world with the given HTTP, balance, subgraph and feedback
    behaviour; everything else succeeds. *)
Definition world
    (http : Request -> Trace -> Result Response)
    (balance : Request -> Trace -> Result Z)
    (agent : Request -> Trace -> Result (option AgentSummary))
    (prepare : Request -> Trace -> Result value)
    (search : Request -> Trace -> Result (list Feedback))
    (given : value) : World :=
  {| w_parseInt := fun _ => Num 11155111%float;
     w_now := fun _ => 0;
     w_newWallet := fun key => Val {| address := "0x" ++ key |};
     w_getAddress := fun req _ =>
       match req with SignerGetAddress a => Val a | _ => Err (Thrown "bad request") end;
     w_fetch := http;
     w_getBalance := balance;
     w_chainId := fun _ _ => Val 11155111;
     w_registries := fun _ _ => Val [("IDENTITY", "0x8004")];
     w_searchAgents := fun _ _ => Val [sampleAgent];
     w_searchAgentsByReputation := fun _ _ => Val [];
     w_createAgent := fun _ _ => Val tt;
     w_setEndpoint := fun _ _ => Val tt;
     w_setMcpCapabilities := fun _ _ => Val tt;
     w_setActive := fun _ _ => Val tt;
     w_registerIPFS := fun _ _ =>
       Val {| reg_agentId := Some "11155111:7"; reg_agentURI := Some "ipfs://QmCid" |};
     w_getAgent := agent;
     w_loadAgent := fun _ _ => Val sampleAgent;
     w_prepareFeedback := prepare;
     w_giveFeedback := fun _ _ => Val (sampleFeedback given);
     w_searchFeedback := search;
     w_getReputationSummary := fun _ _ =>
       Val {| rep_count := 1; rep_averageScore := Num 5%float |};
     w_getFeedback := fun _ _ => Val (sampleFeedback given) |}.

Definition feedbackId : value := Arr [Str "11155111:7"; Str "0xreviewer"; Num 4%float].

(** Everything answers, the agent is indexed at once. *)
Definition happy : World :=
  world (fun req _ => mcpAnswer req) (fun _ _ => Val 1000)
        (fun _ _ => Val (Some sampleAgent))
        (fun _ _ => Val (Obj [("score", Num 5%float)]))
        (fun _ _ => Val [sampleFeedback feedbackId]) feedbackId.

(** The number of lookups of an agent already sent. *)
Definition lookups (h : Trace) : nat :=
  length (filter (isCall (fun r => match r with SdkGetAgent _ => true | _ => false end)) h).

(** The subgraph indexes the agent after [n] lookups have missed it. *)
Definition indexedAfter (n : nat) : World :=
  world (fun req _ => mcpAnswer req) (fun _ _ => Val 1000)
        (fun _ h => if (lookups h <? n)%nat then Val None else Val (Some sampleAgent))
        (fun _ _ => Val (Obj [("score", Num 5%float)]))
        (fun _ _ => Val [sampleFeedback feedbackId]) feedbackId.

(** The subgraph never shows the agent. *)
Definition neverIndexed : World :=
  world (fun req _ => mcpAnswer req) (fun _ _ => Val 1000)
        (fun _ _ => Val None)
        (fun _ _ => Val (Obj [("score", Num 5%float)]))
        (fun _ _ => Val [sampleFeedback feedbackId]) feedbackId.

(** The owner's wallet (the wallet of the key "a1") is empty, the
    reviewer's is not. *)
Definition broke : World :=
  world (fun req _ => mcpAnswer req)
        (fun req _ => match req with
                      | ProviderGetBalance "0xa1" => Val 0
                      | _ => Val 1000
                      end)
        (fun _ _ => Val (Some sampleAgent))
        (fun _ _ => Val (Obj [("score", Num 5%float)]))
        (fun _ _ => Val [sampleFeedback feedbackId]) feedbackId.

(** The filtered feedback search fails; the summary would answer. *)
Definition searchDown : World :=
  world (fun req _ => mcpAnswer req) (fun _ _ => Val 1000)
        (fun _ _ => Val (Some sampleAgent))
        (fun _ _ => Val (Obj [("score", Num 5%float)]))
        (fun _ _ => Err (JsError "subgraph unavailable" "Error")) feedbackId.

(** [tools/list] answers 500, the other two kinds answer. *)
Definition toolsDown : World :=
  world (fun req _ => match req with
                      | JsonRpc _ "tools/list" _ => Val serverError
                      | _ => mcpAnswer req
                      end)
        (fun _ _ => Val 1000)
        (fun _ _ => Val (Some sampleAgent))
        (fun _ _ => Val (Obj [("score", Num 5%float)]))
        (fun _ _ => Val [sampleFeedback feedbackId]) feedbackId.

(** A resource whose [uri] is the empty string. *)
Definition emptyUri : World :=
  world (fun req _ => match req with
                      | JsonRpc _ "resources/list" _ =>
                          Val (okResponse (Obj [("result", Obj [("resources",
                            Arr [Obj [("uri", Str ""); ("name", Str "SDK Configuration")]])])]))
                      | _ => mcpAnswer req
                      end)
        (fun _ _ => Val 1000)
        (fun _ _ => Val (Some sampleAgent))
        (fun _ _ => Val (Obj [("score", Num 5%float)]))
        (fun _ _ => Val [sampleFeedback feedbackId]) feedbackId.

Definition fullEnv : Env :=
  {| RPC_URL := Some "https://rpc.example"; CHAIN_ID := None;
     PRIVATE_KEY := Some "a1"; FEEDBACK_PRIVATE_KEY := Some "b2";
     PINATA_JWT := Some "jwt"; TEST_AGENT_ID := Some "11155111:7" |}.

(** No second signer. *)
Definition oneSignerEnv : Env :=
  {| RPC_URL := Some "https://rpc.example"; CHAIN_ID := None;
     PRIVATE_KEY := Some "a1"; FEEDBACK_PRIVATE_KEY := None;
     PINATA_JWT := Some "jwt"; TEST_AGENT_ID := None |}.

(** No pinning credential. *)
Definition noIpfsEnv : Env :=
  {| RPC_URL := Some "https://rpc.example"; CHAIN_ID := None;
     PRIVATE_KEY := Some "a1"; FEEDBACK_PRIVATE_KEY := Some "b2";
     PINATA_JWT := None; TEST_AGENT_ID := None |}.

(** An RPC endpoint, but no private key. *)
Definition noKeyEnv : Env :=
  {| RPC_URL := Some "https://rpc.example"; CHAIN_ID := None;
     PRIVATE_KEY := None; FEEDBACK_PRIVATE_KEY := None;
     PINATA_JWT := Some "jwt"; TEST_AGENT_ID := None |}.

(** No private key at all. *)
Definition readOnlyEnv : Env :=
  {| RPC_URL := None; CHAIN_ID := None;
     PRIVATE_KEY := None; FEEDBACK_PRIVATE_KEY := None;
     PINATA_JWT := None; TEST_AGENT_ID := Some "11155111:7" |}.

End Worlds.


(** ** Observations on runs, used to state the properties *)

Module Observe.

(** [spec P Q E m]: whatever the history, [m] adds only events accepted
    by [P], does not exit the process, every value it returns satisfies
    [Q] and every exception it throws satisfies [E]. *)
Definition spec {A} (P : Event -> bool) (Q : A -> Prop) (E : exn -> Prop) (m : M A)
  : Prop :=
  forall h,
    forallb P (snd (m h)) = true /\
    match fst (m h) with
    | Ok a => Q a
    | Throw e => E e
    | Exited _ => False
    end.

(** [tame P m]: [spec] without postconditions. *)
Definition tame {A} (P : Event -> bool) (m : M A) : Prop :=
  spec P (fun _ => True) (fun _ => True) m.

(** Events that are not a call to one of the requests [bad]. *)
Definition avoiding (bad : Request -> bool) (e : Event) : bool :=
  match e with
  | Call r => negb (bad r)
  | _ => true
  end.

(** The arguments of a call of the [calculate] tool on two numbers. *)
Definition calcArguments (operation : string) (x y : float) : list (string * value) :=
  [("operation", Str operation); ("a", Num x); ("b", Num y)].

(** A division request of the [calculate] tool. *)
Definition divideRequest (x y : float) : McpServer.Params :=
  {| McpServer.p_name := "calculate";
     McpServer.p_arguments := Some (calcArguments "divide" x y) |}.

(** The console line of a probe that threw. *)
Definition warning (kind : string) (e : exn) : Event :=
  Log ("Could not fetch " ++ kind ++ ": " ++ describe e).

(** [r.uri || r.name] on a resource: the [uri] when it is truthy, the
    [name] otherwise. *)
Definition uriOrName (r : value) : value :=
  if truthy (own "uri" r) then own "uri" r else own "name" r.

(** Whether a console line was written. *)
Definition hasLog (line : string) (t : Trace) : bool :=
  existsb (fun e => match e with Log s => (s =? line)%string | _ => false end) t.

(** The events of the polling policy: the lookups of the agent, the
    timed waits, and the console line of a lookup that found the agent. *)
Definition pollEvent (e : Event) : bool :=
  match e with
  | Call (SdkGetAgent _) => true
  | Sleep _ => true
  | Log s => (s =? "Agent found in subgraph")%string
  | _ => false
  end.

Definition timeline (t : Trace) : Trace := filter pollEvent t.

(** [n] retries: each a wait of 10 seconds, then a lookup. *)
Fixpoint retries (n : nat) (agentId : string) : Trace :=
  match n with
  | O => []
  | S k => Sleep 10000 :: Call (SdkGetAgent agentId) :: retries k agentId
  end.

(** The end of a polling timeline: the line of the hit, if any. *)
Definition hit {A} (found : option A) : Trace :=
  match found with
  | Some _ => [Log "Agent found in subgraph"]
  | None => []
  end.

Definition absent {A} (found : option A) : bool :=
  match found with
  | Some _ => false
  | None => true
  end.

Definition notFoundWarning : string :=
  "WARNING: Agent not found in subgraph after multiple retries".

(** The on-chain registration. *)
Definition isRegistration (r : Request) : bool :=
  match r with
  | AgentRegisterIPFS => true
  | _ => false
  end.

(** The preparation and the submission of a feedback. *)
Definition isFeedbackWrite (r : Request) : bool :=
  match r with
  | SdkPrepareFeedback _ _ _ | SdkGiveFeedback _ _ => true
  | _ => false
  end.

(** The submission of a feedback. *)
Definition isSubmission (r : Request) : bool :=
  match r with
  | SdkGiveFeedback _ _ => true
  | _ => false
  end.

(** Every operation of the write section of a script. *)
Definition isWriteOperation (r : Request) : bool :=
  isRegistration r || isFeedbackWrite r.

(** Every reading of the balance of the owner (the wallet of
    [PRIVATE_KEY]) gives zero. *)
Definition ownerHasNoFunds (w : World) (env : Env) : Prop :=
  forall key owner h balance,
    envGet (PRIVATE_KEY env) = Some key ->
    w_newWallet w key = Val owner ->
    w_getBalance w (ProviderGetBalance (address owner)) h = Val balance ->
    balance = 0.

(** What [main]'s [catch] adds to the trace. *)
Definition fatalReport (e : exn) : Trace :=
  ([LogError "FATAL ERROR"; LogError (describe e)]
     ++ match stackOf e with
        | Some st => [LogError ("Stack trace: " ++ st)]
        | None => []
        end
     ++ [Exit 1])%list.

(** The events of the process before [main] starts. *)
Definition preamble : Trace :=
  [Log "Starting test in 3 seconds..."; Log "Press Ctrl+C to cancel"; Sleep 3000].

(** The console lines that report the missing second signer. *)
Definition secondSignerWarning : string :=
  "WARNING: FEEDBACK_PRIVATE_KEY not set in .env".

Definition feedbackSkipped : string :=
  "Skipping feedback - FEEDBACK_PRIVATE_KEY not configured".

(** The console line of the feedback flow's [catch]. *)
Definition flowError (e : exn) : string := "Error in feedback flow: " ++ describe e.

(** The console line that announces the read-only mode. *)
Definition readOnlyNotice : string :=
  "No PRIVATE_KEY provided - running in read-only mode".

(** The first events of the basic test, up to the reading of the
    chain: without a private key, and with the signer [s]. *)
Definition readOnlyStart : Trace :=
  [Log "=== FluidSDK Test Suite ==="; Log readOnlyNotice;
   Log "--- Initializing SDK ---"; Log "SDK initialized"; Call SdkChainId].

Definition signedStart (s : Wallet) : Trace :=
  [Log "=== FluidSDK Test Suite ==="; Log ("Signer created: " ++ address s);
   Log "--- Initializing SDK ---"; Log "SDK initialized"; Call SdkChainId].

(** The lookups of the agent through the subgraph. *)
Definition isLookup (r : Request) : bool :=
  match r with
  | SdkGetAgent _ => true
  | _ => false
  end.



End Observe.

Export Observe.

(** ** scripts/mcp-server.ts: what the server advertises, and the
       handlers of prompts and resources *)

Module McpCatalog.

Import McpServer.

(** An entry of [inputSchema.properties]; [prop_enum] is empty where the
    schema gives no [enum]. *)
Record Property : Type := {
  prop_name : string;
  prop_type : string;
  prop_enum : list string;
  prop_description : string
}.

Record Tool : Type := {
  tool_name : string;
  tool_description : string;
  tool_properties : list Property;
  tool_required : list string
}.

(** [server.setRequestHandler(ListToolsRequestSchema, ...)] *)
Definition listTools : list Tool :=
  [ {| tool_name := "calculate";
       tool_description := "Perform basic mathematical calculations";
       tool_properties :=
         [ {| prop_name := "operation"; prop_type := "string";
              prop_enum := ["add"; "subtract"; "multiply"; "divide"];
              prop_description := "The mathematical operation to perform" |};
           {| prop_name := "a"; prop_type := "number"; prop_enum := [];
              prop_description := "First number" |};
           {| prop_name := "b"; prop_type := "number"; prop_enum := [];
              prop_description := "Second number" |} ];
       tool_required := ["operation"; "a"; "b"] |};
    {| tool_name := "get_weather";
       tool_description := "Get mock weather information for a location";
       tool_properties :=
         [ {| prop_name := "location"; prop_type := "string"; prop_enum := [];
              prop_description := "City name or coordinates" |} ];
       tool_required := ["location"] |};
    {| tool_name := "echo";
       tool_description := "Echo back the input message";
       tool_properties :=
         [ {| prop_name := "message"; prop_type := "string"; prop_enum := [];
              prop_description := "Message to echo back" |} ];
       tool_required := ["message"] |} ].

Record PromptArgument : Type := {
  arg_name : string;
  arg_description : string;
  arg_required : bool
}.

Record Prompt : Type := {
  prompt_name : string;
  prompt_description : string;
  prompt_arguments : list PromptArgument
}.

(** [server.setRequestHandler(ListPromptsRequestSchema, ...)] *)
Definition listPrompts : list Prompt :=
  [ {| prompt_name := "greeting";
       prompt_description := "Generate a friendly greeting";
       prompt_arguments :=
         [ {| arg_name := "name"; arg_description := "Name to greet";
              arg_required := true |} ] |};
    {| prompt_name := "code_review";
       prompt_description := "Template for code review requests";
       prompt_arguments :=
         [ {| arg_name := "language"; arg_description := "Programming language";
              arg_required := true |};
           {| arg_name := "complexity"; arg_description := "Code complexity level";
              arg_required := false |} ] |} ].

Record Message : Type := {
  role : string;
  message_content : Content
}.

Fixpoint assoc (k : string) (fields : list (string * string)) : option string :=
  match fields with
  | [] => None
  | (k', v) :: rest => if (k =? k')%string then Some v else assoc k rest
  end.

(** [args?.k], where [args] is the optional record of strings of a
    prompt request. *)
Definition argument (k : string) (args : option (list (string * string)))
  : option string :=
  match args with
  | Some fields => assoc k fields
  | None => None
  end.

(** [args?.k || fallback] *)
Definition argumentOr (k fallback : string) (args : option (list (string * string)))
  : string :=
  match envGet (argument k args) with
  | Some v => v
  | None => fallback
  end.

Definition userMessage (s : string) : list Message :=
  [ {| role := "user"; message_content := {| type := "text"; text := s |} |} ].

(** [server.setRequestHandler(GetPromptRequestSchema, ...)]; the result
    is the [messages] of the answer. *)
Definition getPrompt (name : string) (args : option (list (string * string)))
  : Result (list Message) :=
  if (name =? "greeting")%string then
    let userName := argumentOr "name" "User" args in
    Val (userMessage
           ("Hello " ++ userName
              ++ "! Welcome to the FluidSDK MCP Test Server. How can I assist you today?"))
  else if (name =? "code_review")%string then
    let language := argumentOr "language" "JavaScript" args in
    let complexity := argumentOr "complexity" "medium" args in
    Val (userMessage
           ("Please review the following " ++ language ++ " code with " ++ complexity
              ++ " complexity. Focus on:
1. Code quality and best practices
2. Potential bugs or security issues
3. Performance optimizations
4. Readability and maintainability"))
  else Err (JsError ("Unknown prompt: " ++ name) "Error").

Record Resource : Type := {
  res_uri : string;
  res_name : string;
  res_description : string;
  res_mimeType : string
}.

(** [server.setRequestHandler(ListResourcesRequestSchema, ...)] *)
Definition listResources : list Resource :=
  [ {| res_uri := "fluidsdk://config"; res_name := "SDK Configuration";
       res_description := "Current SDK configuration information";
       res_mimeType := "application/json" |};
    {| res_uri := "fluidsdk://status"; res_name := "Server Status";
       res_description := "MCP server status and metadata";
       res_mimeType := "application/json" |};
    {| res_uri := "fluidsdk://docs/quickstart"; res_name := "Quick Start Guide";
       res_description := "Getting started with FluidSDK";
       res_mimeType := "text/markdown" |} ].

Record ResourceContent : Type := {
  rc_uri : string;
  rc_mimeType : string;
  rc_text : string
}.

(** The double quote, for the texts that contain one. *)
Definition dq : string := String (Ascii.ascii_of_nat 34) EmptyString.

(** The text of the quick-start guide. *)
Definition quickstart : string :=
  "# FluidSDK Quick Start

## Installation
```bash
npm install fluidsdk
```

## Initialize SDK
```typescript
import { FluidSDK } from " ++ dq ++ "fluidsdk" ++ dq ++ ";

const sdk = new FluidSDK({
  chainId: 11155111,
  rpcUrl: " ++ dq ++ "https://rpc.url" ++ dq ++ ",
  signer: wallet,
});
```

## Create an Agent
```typescript
const agent = sdk.createAgent(" ++ dq ++ "My Agent" ++ dq ++ ", " ++ dq ++ "Description"
    ++ dq ++ ", " ++ dq ++ "ipfs://..." ++ dq ++ ");
await agent.registerIPFS();
```
".

Section Reader.

(** The two [JSON.stringify(...)] texts, which hold the clock, the
    uptime and the memory usage of the server process. *)
Variable configText statusText : string.

(** [server.setRequestHandler(ReadResourceRequestSchema, ...)]; the
    result is the [contents] of the answer. *)
Definition readResource (uri : string) : Result (list ResourceContent) :=
  if (uri =? "fluidsdk://config")%string then
    Val [ {| rc_uri := uri; rc_mimeType := "application/json"; rc_text := configText |} ]
  else if (uri =? "fluidsdk://status")%string then
    Val [ {| rc_uri := uri; rc_mimeType := "application/json"; rc_text := statusText |} ]
  else if (uri =? "fluidsdk://docs/quickstart")%string then
    Val [ {| rc_uri := uri; rc_mimeType := "text/markdown"; rc_text := quickstart |} ]
  else Err (JsError ("Unknown resource: " ++ uri) "Error").

End Reader.

(** The operations that the schema of [calculate] advertises: the
    [enum] of its property [operation]. *)
Definition advertisedOperations : list string :=
  flat_map
    (fun t =>
       if (tool_name t =? "calculate")%string
       then flat_map (fun p => if (prop_name p =? "operation")%string
                               then prop_enum p else [])
                     (tool_properties t)
       else [])
    listTools.

(** The mime type that the list of resources gives for a URI. *)
Definition advertisedMimeType (uri : string) : option string :=
  option_map res_mimeType
    (find (fun r => (res_uri r =? uri)%string) listResources).

(** The arguments of a listed prompt that are advertised as required. *)
Definition requiredArguments (name : string) : list string :=
  flat_map
    (fun p =>
       if (prompt_name p =? name)%string
       then map arg_name (filter arg_required (prompt_arguments p))
       else [])
    listPrompts.

End McpCatalog.

(** ** Measures on runs: kinds of requests and their numbers *)

Module Measures.

(** The number of requests of the kind [p] in a trace. *)
Definition sent (p : Request -> bool) (t : Trace) : nat :=
  length (filter p (requests t)).

(** [sendsAtMost p n m]: whatever the history, [m] sends at most [n]
    requests of the kind [p]. *)
Definition sendsAtMost {A} (p : Request -> bool) (n : nat) (m : M A) : Prop :=
  forall h, (sent p (snd (m h)) <= n)%nat.

(** [reaching p m]: whenever [m] sends a request of the kind [p], it
    returns normally. *)
Definition reaching {A} (p : Request -> bool) (m : M A) : Prop :=
  forall h, existsb (isCall p) (snd (m h)) = true -> exists a, fst (m h) = Ok a.

(** [safe m]: whatever the history, [m] returns normally: it neither
    throws nor exits the process. *)
Definition safe {A} (m : M A) : Prop :=
  spec (fun _ => true) (fun _ => True) (fun _ => False) m.

(** The creation of the agent object. *)
Definition isCreation (r : Request) : bool :=
  match r with
  | SdkCreateAgent _ _ _ => true
  | _ => false
  end.

(** The requests of steps 1 and 2 up to the balance prechecks: the
    connectivity check, the chain and the balances. *)
Definition isPrecheck (r : Request) : bool :=
  match r with
  | HttpGet _ | SdkChainId | ProviderGetBalance _ => true
  | _ => false
  end.

(** The requests of steps 1 and 2. *)
Definition isSession (r : Request) : bool :=
  match r with
  | SdkRegistries => true
  | _ => isPrecheck r
  end.

(** The requests of the steps that follow the registration (6 to 10). *)
Definition isVerification (r : Request) : bool :=
  match r with
  | SdkGetAgent _ | SdkLoadAgent _ | SdkPrepareFeedback _ _ _ | SdkGiveFeedback _ _
  | SdkSearchFeedback _ _ | SdkGetReputationSummary _ _ | SdkGetFeedback _ _ _ => true
  | _ => false
  end.

(** The requests on an agent of the subgraph or of the chain: what the
    basic test sends only when [TEST_AGENT_ID] is set. *)
Definition isAgentQuery (r : Request) : bool :=
  match r with
  | SdkGetAgent _ | SdkLoadAgent _ | SdkPrepareFeedback _ _ _
  | SdkSearchFeedback _ _ | SdkGetReputationSummary _ _ => true
  | _ => false
  end.

(** The queries on a submitted feedback (steps 9 and 10). *)
Definition isFeedbackRead (r : Request) : bool :=
  match r with
  | SdkSearchFeedback _ _ | SdkGetReputationSummary _ _ | SdkGetFeedback _ _ _ => true
  | _ => false
  end.

(** A write that the standalone feedback script is not written to send:
    a preparation, or a submission other than the one for [agent]
    without a separate signer. *)
Definition unexpectedWrite (agent : string) (r : Request) : bool :=
  match r with
  | SdkPrepareFeedback _ _ _ => true
  | SdkGiveFeedback a signer =>
      negb ((a =? agent)%string && match signer with None => true | Some _ => false end)
  | _ => false
  end.

(** A transaction: the registration or the submission of a feedback. *)
Definition isTransaction (r : Request) : bool := isRegistration r || isSubmission r.

(** The environment gives no usable configuration: a variable is
    missing (or empty), or a key is refused by [new ethers.Wallet]. *)
Definition misconfigured (w : World) (env : Env) : Prop :=
  envGet (RPC_URL env) = None
  \/ envGet (PRIVATE_KEY env) = None
  \/ (exists key e, envGet (PRIVATE_KEY env) = Some key /\ w_newWallet w key = Err e)
  \/ (exists key e, envGet (FEEDBACK_PRIVATE_KEY env) = Some key
                    /\ w_newWallet w key = Err e).

(** Every reading of the balance of the reviewer (the wallet of
    [FEEDBACK_PRIVATE_KEY]) gives zero. *)
Definition reviewerHasNoFunds (w : World) (env : Env) : Prop :=
  forall key reviewer h balance,
    envGet (FEEDBACK_PRIVATE_KEY env) = Some key ->
    w_newWallet w key = Val reviewer ->
    w_getBalance w (ProviderGetBalance (address reviewer)) h = Val balance ->
    balance = 0.

(** The SDK knows no registry on the chain. *)
Definition noRegistries (w : World) : Prop :=
  forall h registries, w_registries w SdkRegistries h = Val registries -> registries = [].

(** The endpoint of the agent cannot be set, or the agent cannot be
    made active. *)
Definition endpointRefused (w : World) : Prop :=
  (forall req h a, w_setEndpoint w req h <> Val a)
  \/ (forall req h a, w_setActive w req h <> Val a).

(** The registration never answers with an agent identifier. *)
Definition noAgentId (w : World) : Prop :=
  forall h file,
    w_registerIPFS w AgentRegisterIPFS h = Val file -> envGet (reg_agentId file) = None.

(** The signers always give their address. *)
Definition signersAnswer (w : World) : Prop :=
  forall address h e, w_getAddress w (SignerGetAddress address) h <> Err e.

(** The feedback script has no usable configuration. *)
Definition reviewerMisconfigured (w : World) (env : Env) : Prop :=
  envGet (RPC_URL env) = None
  \/ envGet (FEEDBACK_PRIVATE_KEY env) = None
  \/ (exists key e, envGet (FEEDBACK_PRIVATE_KEY env) = Some key
                    /\ w_newWallet w key = Err e).

(** The submission of a feedback is always refused. *)
Definition submissionRefused (w : World) : Prop :=
  forall req h feedback, w_giveFeedback w req h <> Val feedback.

(** The preparation of a feedback is always refused. *)
Definition preparationRefused (w : World) : Prop :=
  forall req h file, w_prepareFeedback w req h <> Val file.

(** The calls that the basic test makes outside any [try] of a test
    always answer: the wallet constructor (when a key is set), the
    chain, the registries, the creation of the agent object and the
    preparation of a feedback. *)
Definition unguardedAnswer (w : World) (env : Env) : Prop :=
  (forall key e, envGet (PRIVATE_KEY env) = Some key -> w_newWallet w key <> Err e)
  /\ (forall h e, w_chainId w SdkChainId h <> Err e)
  /\ (forall h e, w_registries w SdkRegistries h <> Err e)
  /\ (forall req h e, w_createAgent w req h <> Err e)
  /\ (forall req h e, w_prepareFeedback w req h <> Err e).

(** The steps of the single-signer full flow that come before its
    first [try] answer: the two variables are set, the wallet
    constructor accepts the key, and the chain, the balance, the
    registries and the creation of the agent object answer. *)
Definition setupAnswers (w : World) (env : Env) : Prop :=
  envGet (RPC_URL env) <> None
  /\ envGet (PRIVATE_KEY env) <> None
  /\ (forall key e, envGet (PRIVATE_KEY env) = Some key -> w_newWallet w key <> Err e)
  /\ (forall h e, w_chainId w SdkChainId h <> Err e)
  /\ (forall req h e, w_getBalance w req h <> Err e)
  /\ (forall h e, w_registries w SdkRegistries h <> Err e)
  /\ (forall req h e, w_createAgent w req h <> Err e).

(** Every answer to [tools/list] lists its tools under names that
    cannot be rendered as strings. *)
Definition unrenderableTools (w : World) : Prop :=
  forall h,
    exists response names,
      w_fetch w (FullFlowMcp.probeRequest "tools" 1) h = Val response
      /\ ok response = true
      /\ FullFlowMcp.decode "tools" FullFlowMcp.pickName response = Val (Some names)
      /\ joinValues names = Err notConvertible.

(** The console line of a finished full flow. *)
Definition completed : string := "FULL FLOW TEST COMPLETED SUCCESSFULLY!".

End Measures.

Export Measures.

(** ** More worlds *)

Module MoreWorlds.

Import Worlds.

(** The world [w] with other answers for the registries, the endpoint,
    the activation, the registration and the submission. *)
Definition tweak (w : World)
    (registries : Request -> Trace -> Result (list (string * string)))
    (setEndpoint setActive : Request -> Trace -> Result unit)
    (registerIPFS : Request -> Trace -> Result RegistrationFile)
    (giveFeedback : Request -> Trace -> Result Feedback) : World :=
  {| w_parseInt := w_parseInt w;
     w_now := w_now w;
     w_newWallet := w_newWallet w;
     w_getAddress := w_getAddress w;
     w_fetch := w_fetch w;
     w_getBalance := w_getBalance w;
     w_chainId := w_chainId w;
     w_registries := registries;
     w_searchAgents := w_searchAgents w;
     w_searchAgentsByReputation := w_searchAgentsByReputation w;
     w_createAgent := w_createAgent w;
     w_setEndpoint := setEndpoint;
     w_setMcpCapabilities := w_setMcpCapabilities w;
     w_setActive := setActive;
     w_registerIPFS := registerIPFS;
     w_getAgent := w_getAgent w;
     w_loadAgent := w_loadAgent w;
     w_prepareFeedback := w_prepareFeedback w;
     w_giveFeedback := giveFeedback;
     w_searchFeedback := w_searchFeedback w;
     w_getReputationSummary := w_getReputationSummary w;
     w_getFeedback := w_getFeedback w |}.

(** The reviewer's wallet (the wallet of the key "b2") is empty, the
    owner's is not. *)
Definition reviewerBroke : World :=
  world (fun req _ => mcpAnswer req)
        (fun req _ => match req with
                      | ProviderGetBalance "0xb2" => Val 0
                      | _ => Val 1000
                      end)
        (fun _ _ => Val (Some sampleAgent))
        (fun _ _ => Val (Obj [("score", Num 5%float)]))
        (fun _ _ => Val [sampleFeedback feedbackId]) feedbackId.

(** No registry is configured for the chain. *)
Definition noRegistry : World :=
  tweak happy (fun _ _ => Val []) (w_setEndpoint happy) (w_setActive happy)
        (w_registerIPFS happy) (w_giveFeedback happy).

(** The agent refuses its MCP endpoint. *)
Definition endpointDown : World :=
  tweak happy (w_registries happy)
        (fun _ _ => Err (JsError "invalid endpoint" "Error")) (w_setActive happy)
        (w_registerIPFS happy) (w_giveFeedback happy).

(** The registration answers without an agent identifier. *)
Definition anonymous : World :=
  tweak happy (w_registries happy) (w_setEndpoint happy) (w_setActive happy)
        (fun _ _ => Val {| reg_agentId := None; reg_agentURI := Some "ipfs://QmCid" |})
        (w_giveFeedback happy).

(** The submission of the feedback is reverted. *)
Definition reverted : World :=
  tweak happy (w_registries happy) (w_setEndpoint happy) (w_setActive happy)
        (w_registerIPFS happy)
        (fun _ _ => Err (JsError "execution reverted" "Error")).

(** The MCP server and the pinning gateway are unreachable. *)
Definition offline : World :=
  world (fun _ _ => Err (JsError "fetch failed" "TypeError")) (fun _ _ => Val 1000)
        (fun _ _ => Val (Some sampleAgent))
        (fun _ _ => Val (Obj [("score", Num 5%float)]))
        (fun _ _ => Val [sampleFeedback feedbackId]) feedbackId.

(** [tools/list] answers with a tool whose name is an object with an
    own [toString] property. *)
Definition oddNames : World :=
  world (fun req _ => match req with
                      | JsonRpc _ "tools/list" _ =>
                          Val (okResponse (Obj [("result", Obj [("tools",
                                 Arr [Obj [("name", Obj [("toString", Num 1%float)])]])])]))
                      | _ => mcpAnswer req
                      end)
        (fun _ _ => Val 1000)
        (fun _ _ => Val (Some sampleAgent))
        (fun _ _ => Val (Obj [("score", Num 5%float)]))
        (fun _ _ => Val [sampleFeedback feedbackId]) feedbackId.

(** No variable is set. *)
Definition emptyEnv : Env :=
  {| RPC_URL := None; CHAIN_ID := None;
     PRIVATE_KEY := None; FEEDBACK_PRIVATE_KEY := None;
     PINATA_JWT := None; TEST_AGENT_ID := None |}.

(** A signer, but no agent to test. *)
Definition signerOnlyEnv : Env :=
  {| RPC_URL := Some "https://rpc.example"; CHAIN_ID := None;
     PRIVATE_KEY := Some "a1"; FEEDBACK_PRIVATE_KEY := None;
     PINATA_JWT := None; TEST_AGENT_ID := None |}.

End MoreWorlds.

(** ** The standalone feedback script ([mainnam]): a feedback prepared
       beforehand is submitted and read back *)

Module TestFeedback.

(** [Array.isArray(feedback.id) && feedback.id.length === 3
     ? feedback.id[2] : 0] *)
Definition feedbackIndex (id : value) : value :=
  match id with
  | Arr items =>
      if (length items =? 3)%nat then nth 2 items Undefined else Num 0%float
  | _ => Num 0%float
  end.

(** [data.newAgentId] *)
Definition newAgentId : string := "11155111:1555".

Section Scripts.

Variable w : World.
Variable env : Env.

(** The script's own [queryFeedbackFromSubgraph(sdk, agentId)]. *)
Definition queryFeedbackFromSubgraph (agentId : string) : M unit :=
  tryCatch
    (log ("Querying feedback from subgraph for agent: " ++ agentId) ;;;
     feedbacks <- ask (w_searchFeedback w) (SdkSearchFeedback agentId None) ;;
     log ("Found " ++ showZ (len feedbacks) ++ " feedback(s) in subgraph") ;;;
     reputation <- ask (w_getReputationSummary w) (SdkGetReputationSummary agentId None) ;;
     log "Reputation Summary (via subgraph):" ;;;
     log ("Total Feedback: " ++ showZ (rep_count reputation)))
    (fun error =>
       log ("Feedback query failed: " ++ describe error)).

(** Step 10 of the script. *)
Definition retrieve (signer : Wallet) (feedback : Feedback) : M unit :=
  let index := feedbackIndex (fb_id feedback) in
  log "STEP 10: Retrieve Specific Feedback" ;;;
  tryCatch
    (reviewer <- ask (w_getAddress w) (SignerGetAddress (address signer)) ;;
     retrievedFeedback <- ask (w_getFeedback w) (SdkGetFeedback newAgentId reviewer index) ;;
     log "Feedback retrieved directly" ;;;
     lift (toISOString (fb_createdAt retrievedFeedback)))
    (fun error => log ("Error retrieving feedback: " ++ describe error)).

(** [mainnam] *)
Definition mainnam : M unit :=
  let chain := w_parseInt w (match envGet (CHAIN_ID env) with
                             | Some c => c
                             | None => "11155111"
                             end) in
  match envGet (RPC_URL env) with
  | None => throwError "RPC_URL not set in .env file"
  | Some rpcUrl =>
      match envGet (FEEDBACK_PRIVATE_KEY env) with
      | None =>
          throwError
            "FEEDBACK_PRIVATE_KEY not set in .env file - write operations require a signer"
      | Some key =>
          signer <- lift (w_newWallet w key) ;;
          sdkConfig <-
            match envGet (PINATA_JWT env) with
            | Some jwt =>
                log "IPFS (Pinata) configured" ;;;
                ret {| cfg_chainId := chain; cfg_rpcUrl := rpcUrl;
                       cfg_signer := Some signer;
                       cfg_ipfs := Some "pinata"; cfg_pinataJwt := Some jwt |}
            | None =>
                log "No IPFS configuration - some features will be limited" ;;;
                ret {| cfg_chainId := chain; cfg_rpcUrl := rpcUrl;
                       cfg_signer := Some signer;
                       cfg_ipfs := None; cfg_pinataJwt := None |}
            end ;;
          let sdk := newFluidSDK sdkConfig in
          log "SDK initialized" ;;;
          ask (w_chainId w) SdkChainId ;;;
          log "Submitting feedback on-chain with separate signer..." ;;;
          feedback <- ask (w_giveFeedback w) (SdkGiveFeedback newAgentId None) ;;
          log "Feedback submitted successfully!" ;;;
          log "Waiting for feedback to be indexed..." ;;;
          sleep 10000 ;;;
          log "STEP 9: Verify Feedback via Subgraph" ;;;
          queryFeedbackFromSubgraph newAgentId ;;;
          retrieve signer feedback
      end
  end.

(** [mainnam().catch(...)] at the end of the file. *)
Definition program : M unit :=
  tryCatch mainnam
    (fun error =>
       logError ("Error in testfeedback script: " ++ describe error) ;;;
       exit 1).

End Scripts.

End TestFeedback.

(** ** Scripts with more collaborators

    Three scripts talk to collaborators that the full-flow script does
    not use: the A2A endpoint of an agent, a child process, an MCP client
    and the MCP queries of the SDK.  Their events are the events of
    [Script] and the calls to these collaborators; a script of [Script]
    runs inside them unchanged, on the events it knows. *)

Module Wide.

Inductive Request : Type :=
| AgentSetA2A (url version : string) (autoFetch : bool)
| ExecSync (command : string)
| Spawn (command : string) (args : list string)
| Kill
| ClientConnect (command : string) (args : list string)
| ClientListTools
| ClientListPrompts
| ClientListResources
| ClientCallTool (name : string)
| ClientGetPrompt (name : string)
| ClientReadResource (uri : string)
| ClientClose
| SdkGetAllMcpTools
| SdkGetAllMcpPrompts
| SdkGetAllMcpResources
| SdkSearchAgentsByMcpCapabilities (toolNames promptNames : list string)
    (matchAll : option bool).

Inductive Event : Type :=
| Narrow (e : Script.Event)
| Call (req : Request).

Definition Trace := list Event.

Definition M (A : Type) : Type := Trace -> Outcome A * Trace.

Definition ret {A} (a : A) : M A := fun _ => (Ok a, []).

Definition bind {A B} (m : M A) (k : A -> M B) : M B :=
  fun h =>
    match m h with
    | (Ok a, t1) => let (o, t2) := k a (h ++ t1)%list in (o, (t1 ++ t2)%list)
    | (Throw e, t1) => (Throw e, t1)
    | (Exited c, t1) => (Exited c, t1)
    end.

(** The events of [Script] in a history. *)
Definition narrow (h : Trace) : Script.Trace :=
  flat_map (fun e => match e with Narrow e => [e] | Call _ => [] end) h.

(** A script of [Script], run on the events it knows. *)
Definition embed {A} (m : Script.M A) : M A :=
  fun h => let (o, t) := m (narrow h) in (o, map Narrow t).

Definition log (text : string) : M unit := embed (Script.log text).
Definition logError (text : string) : M unit := embed (Script.logError text).
Definition sleep (ms : Z) : M unit := embed (Script.sleep ms).
Definition throwError {A} (msg : string) : M A := embed (Script.throwError msg).
Definition exit {A} (code : Z) : M A := embed (Script.exit code).
Definition lift {A} (r : Result A) : M A := embed (Script.lift r).

(** A request to a collaborator of [Sdk.World]. *)
Definition askSdk {A} (oracle : Script.Request -> Script.Trace -> Result A)
    (req : Script.Request) : M A :=
  embed (Sdk.ask oracle req).

(** A call to one of the other collaborators. *)
Definition ask {A} (oracle : Request -> Trace -> Result A) (req : Request) : M A :=
  fun h => match oracle req h with
           | Val a => (Ok a, [Call req])
           | Err e => (Throw e, [Call req])
           end.

(** A call that gives no answer and cannot fail ([spawn] and [kill] of a
    child process report their errors later, as events). *)
Definition tell (req : Request) : M unit := fun _ => (Ok tt, [Call req]).

(** The history so far: what a script reads when it reads a variable
    that an earlier statement has set. *)
Definition history : M Trace := fun h => (Ok h, []).

(** [try { m } catch (e) { handler e }] *)
Definition tryCatch {A} (m : M A) (handler : exn -> M A) : M A :=
  fun h =>
    match m h with
    | (Throw e, t1) => let (o, t2) := handler e (h ++ t1)%list in (o, (t1 ++ t2)%list)
    | r => r
    end.

(** [try { m } catch (e) { handler e } finally { finalizer }]: the
    finalizer runs after the block, or after the handler; what it throws
    replaces the outcome.  An exited process runs nothing more. *)
Definition tryCatchFinally {A} (m : M A) (handler : exn -> M A) (finalizer : M unit)
  : M A :=
  fun h =>
    match tryCatch m handler h with
    | (Exited c, t1) => (Exited c, t1)
    | (o, t1) =>
        match finalizer (h ++ t1)%list with
        | (Ok _, t2) => (o, (t1 ++ t2)%list)
        | (Throw e, t2) => (Throw e, (t1 ++ t2)%list)
        | (Exited c, t2) => (Exited c, (t1 ++ t2)%list)
        end
    end.

Definition when (b : bool) (m : M unit) : M unit := if b then m else ret tt.

Definition run {A} (m : M A) : Outcome A * Trace := m [].

(** The collaborators: those of [Sdk.World], and the others. *)
Record World : Type := {
  base : Sdk.World;
  w_setA2A : Request -> Trace -> Result unit;
  w_execSync : Request -> Trace -> Result unit;
  w_connect : Request -> Trace -> Result unit;
  w_listTools : Request -> Trace -> Result (list McpCatalog.Tool);
  w_listPrompts : Request -> Trace -> Result (list McpCatalog.Prompt);
  w_listResources : Request -> Trace -> Result (list McpCatalog.Resource);
  w_callTool : Request -> Trace -> Result McpServer.ToolResult;
  w_getPrompt : Request -> Trace -> Result (list McpCatalog.Message);
  w_readResource : Request -> Trace -> Result (list McpCatalog.ResourceContent);
  w_close : Request -> Trace -> Result unit;
  w_getAllMcpTools : Request -> Trace -> Result (list string);
  w_getAllMcpPrompts : Request -> Trace -> Result (list string);
  w_getAllMcpResources : Request -> Trace -> Result (list string);
  w_searchAgentsByMcpCapabilities : Request -> Trace -> Result (list AgentSummary)
}.

(** The requests of [Script] in a trace, and the others. *)
Definition requests (t : Trace) : list Script.Request := Script.requests (narrow t).

Definition calls (t : Trace) : list Request :=
  flat_map (fun e => match e with Call r => [r] | Narrow _ => [] end) t.

(** [spec P Q E m], [tame P m] and [safe m], as for the scripts of
    [Script]. *)
Definition spec {A} (P : Event -> bool) (Q : A -> Prop) (E : exn -> Prop) (m : M A)
  : Prop :=
  forall h,
    forallb P (snd (m h)) = true /\
    match fst (m h) with
    | Ok a => Q a
    | Throw e => E e
    | Exited _ => False
    end.

Definition tame {A} (P : Event -> bool) (m : M A) : Prop :=
  spec P (fun _ => True) (fun _ => True) m.

Definition safe {A} (m : M A) : Prop :=
  spec (fun _ => true) (fun _ => True) (fun _ => False) m.

(** Events that are not a request of [Script] of the kind [bad]. *)
Definition avoiding (bad : Script.Request -> bool) (e : Event) : bool :=
  match e with
  | Narrow e => Observe.avoiding bad e
  | Call _ => true
  end.

(** Events that are not a call of the kind [bad]. *)
Definition avoidingCall (bad : Request -> bool) (e : Event) : bool :=
  match e with
  | Narrow _ => true
  | Call r => negb (bad r)
  end.

(** Events that are no request at all: console lines, waits and the
    exit of the process. *)
Definition silent (e : Event) : bool :=
  match e with
  | Narrow (Script.Call _) | Call _ => false
  | Narrow _ => true
  end.

Definition isKill (r : Request) : bool :=
  match r with
  | Kill => true
  | _ => false
  end.

(** The calls to the MCP client. *)
Definition isClientCall (r : Request) : bool :=
  match r with
  | ClientConnect _ _ | ClientListTools | ClientListPrompts | ClientListResources
  | ClientCallTool _ | ClientGetPrompt _ | ClientReadResource _ | ClientClose => true
  | _ => false
  end.

Definition isMcpQuery (r : Request) : bool :=
  match r with
  | SdkGetAllMcpTools | SdkGetAllMcpPrompts | SdkGetAllMcpResources
  | SdkSearchAgentsByMcpCapabilities _ _ _ => true
  | _ => false
  end.

End Wide.

Declare Scope wide_scope.
Delimit Scope wide_scope with wide.
Notation "x <- m ;; k" := (Wide.bind m (fun x => k))
  (at level 61, m at next level, right associativity) : wide_scope.
Notation "m ;;; k" := (Wide.bind m (fun _ => k))
  (at level 61, right associativity) : wide_scope.

(** ** The single-signer full-flow script, as a whole *)

Module FullFlowScript.

Import Wide.
Local Open Scope wide_scope.

Section Scripts.

Variable ww : World.
Variable env : Env.

Let w : Sdk.World := base ww.

(** Step 3: the endpoints, under one [try] that only reports. *)
Definition configureEndpoints : M unit :=
  log "--- Step 3: Configure Agent Endpoints ---" ;;;
  tryCatch
    (askSdk (w_setEndpoint w)
            (AgentSetMCP "https://api.example.com/mcp" "2025-06-18" false) ;;;
     log "Added MCP endpoint" ;;;
     ask (w_setA2A ww) (AgentSetA2A "https://api.example.com/a2a" "1.0" false) ;;;
     log "Added A2A endpoint" ;;;
     askSdk (w_setActive w) (AgentSetActive true) ;;;
     log "Agent set as active")
    (fun error => log ("Error configuring agent: " ++ describe error)).

(** Step 5 *)
Definition loadRegistered (newAgentId : string) : M unit :=
  log "--- Step 5: Load Registered Agent ---" ;;;
  tryCatch
    (askSdk (w_loadAgent w) (SdkLoadAgent newAgentId) ;;;
     log "Agent loaded from blockchain")
    (fun error => log ("Error loading agent: " ++ describe error)).

(** Step 10 *)
Definition searchForAgent (newAgentId : string) : M unit :=
  log "--- Step 10: Search for Agent ---" ;;;
  tryCatch
    (items <- askSdk (w_searchAgents w) SdkSearchAgents ;;
     log ("Found " ++ showZ (len items) ++ " agent(s)") ;;;
     when (existsb (fun a => (agentId a =? newAgentId)%string) items)
       (log "Found our registered agent in search results!"))
    (fun error => log ("Search failed: " ++ describe error)).

(** Step 11 *)
Definition getAgentById (newAgentId : string) : M unit :=
  log "--- Step 11: Get Agent by ID ---" ;;;
  tryCatch
    (agentSummary <- askSdk (w_getAgent w) (SdkGetAgent newAgentId) ;;
     match agentSummary with
     | Some _ => log "Agent retrieved by ID"
     | None => log "Agent not found (might need time for subgraph indexing)"
     end)
    (fun error => log ("Error getting agent: " ++ describe error)).

(** Lines 403 to 595: the registration and everything that follows it,
    under one [try] that only reports.  The two [return]s of the block
    end it. *)
Definition register (sdk : FluidSDK) (signer : Wallet) : M unit :=
  tryCatch
    (log "Registering agent..." ;;;
     if negb (ipfsClient sdk)
     then log "Cannot register - IPFS client not configured" ;;;
          log "Add PINATA_JWT to .env file or use registerHTTP() with a URI"
     else
       registrationFile <- askSdk (w_registerIPFS w) AgentRegisterIPFS ;;
       log "Agent registered!" ;;;
       match envGet (reg_agentId registrationFile) with
       | None => log "Registration failed - no agent ID returned"
       | Some newAgentId =>
           log "Waiting for transaction confirmation..." ;;;
           sleep 5000 ;;;
           loadRegistered newAgentId ;;;
           embed (FullFlow.feedbackFlow w newAgentId signer) ;;;
           searchForAgent newAgentId ;;;
           getAgentById newAgentId ;;;
           log "--- Step 12: Update Agent ---" ;;;
           log "Skipping update to save gas (uncomment to test)" ;;;
           log "FULL FLOW TEST COMPLETED SUCCESSFULLY!" ;;;
           log ("Your agent ID: " ++ newAgentId) ;;;
           log "You can use this ID for future tests in TEST_AGENT_ID env variable"
       end)
    (fun error =>
       log ("Registration failed: " ++ describe error) ;;;
       match stackOf error with
       | Some st => log ("Stack trace: " ++ st)
       | None => ret tt
       end).

(** The example of the notice on missing registries. *)
Definition overridesExample (chainId : Z) : string :=
  "registryOverrides: {
  " ++ showZ chainId ++ ": {
    IDENTITY: '0xYourIdentityRegistryAddress',
    REPUTATION: '0xYourReputationRegistryAddress',
    VALIDATION: '0xYourValidationRegistryAddress',
  }
}".

(** The body of [main]'s [try] block. *)
Definition mainBody : M unit :=
  log "=== FluidSDK Full Flow Test ===" ;;;
  log "This test will perform actual blockchain transactions!" ;;;
  log "Make sure you have enough ETH for gas fees." ;;;
  let chain := w_parseInt w (match envGet (CHAIN_ID env) with
                             | Some c => c
                             | None => "11155111"
                             end) in
  match envGet (RPC_URL env) with
  | None => throwError "RPC_URL not set in .env file"
  | Some rpcUrl =>
      match envGet (PRIVATE_KEY env) with
      | None =>
          throwError "PRIVATE_KEY not set in .env file - write operations require a signer"
      | Some key =>
          signer <- lift (w_newWallet w key) ;;
          log "--- Step 1: Initialize SDK ---" ;;;
          sdkConfig <-
            match envGet (PINATA_JWT env) with
            | Some jwt =>
                log "IPFS (Pinata) configured" ;;;
                ret {| cfg_chainId := chain; cfg_rpcUrl := rpcUrl;
                       cfg_signer := Some signer;
                       cfg_ipfs := Some "pinata"; cfg_pinataJwt := Some jwt |}
            | None =>
                log "No IPFS configuration - some features will be limited" ;;;
                ret {| cfg_chainId := chain; cfg_rpcUrl := rpcUrl;
                       cfg_signer := Some signer;
                       cfg_ipfs := None; cfg_pinataJwt := None |}
            end ;;
          let sdk := newFluidSDK sdkConfig in
          log "SDK initialized" ;;;
          chainId <- askSdk (w_chainId w) SdkChainId ;;
          balance <- askSdk (w_getBalance w) (ProviderGetBalance (address signer)) ;;
          when (balance =? 0)
            (log "WARNING: Your wallet has 0 ETH. You need ETH for gas fees." ;;;
             log "Get testnet ETH from: https://sepoliafaucet.com/" ;;;
             log "Continuing with read-only tests...") ;;;
          registries <- askSdk (w_registries w) SdkRegistries ;;
          if len registries =? 0
          then log "You need to deploy contracts or add registryOverrides to SDK config." ;;;
               log "Example:" ;;;
               log (overridesExample chainId) ;;;
               log "Skipping write operations..."
          else
            log "STARTING FULL AGENT LIFECYCLE TEST" ;;;
            log "--- Step 2: Create Agent (off-chain) ---" ;;;
            timestamp <- embed (dateNow w) ;;
            let agentName := "Test Agent " ++ showZ timestamp in
            askSdk (w_createAgent w)
                   (SdkCreateAgent agentName
                      "A comprehensive test agent for FluidSDK full flow testing"
                      "ipfs://QmTestImageHash123") ;;;
            log "Agent object created" ;;;
            configureEndpoints ;;;
            log "--- Step 4: Register Agent On-Chain ---" ;;;
            log "This will cost gas!" ;;;
            if balance =? 0
            then log "Cannot register - insufficient balance"
            else register sdk signer
      end
  end.

(** [main]: an exception of the body is fatal. *)
Definition main : M unit :=
  tryCatch mainBody
    (fun error =>
       logError ("FATAL ERROR: " ++ describe error) ;;;
       match stackOf error with
       | Some st => logError ("Stack trace: " ++ st)
       | None => ret tt
       end ;;;
       exit 1).

(** Lines 607 to 619: the process. *)
Definition program : M unit :=
  log "Starting in 2 seconds..." ;;;
  log "Press Ctrl+C to cancel" ;;;
  sleep 2000 ;;;
  tryCatch
    (main ;;;
     log "Test completed" ;;;
     exit 0)
    (fun error =>
       logError ("Test failed: " ++ describe error) ;;;
       exit 1).

End Scripts.

End FullFlowScript.

(** ** The MCP integration test: a local MCP server is compiled, started
       and probed, then an agent is registered with an MCP endpoint *)

Module McpIntegration.

Import Wide.
Local Open Scope wide_scope.

(** What [testMCPConnection] returns when the connection worked. *)
Record Capabilities : Type := {
  tools : list string;
  prompts : list string;
  resources : list string
}.

(** [items.forEach(f)] *)
Fixpoint forEach {A} (items : list A) (f : A -> M unit) : M unit :=
  match items with
  | [] => ret tt
  | x :: rest => f x ;;; forEach rest f
  end.

(** [mcpServerProcess] is set: [startMCPServer] has been called. *)
Definition serverStarted (h : Trace) : bool :=
  existsb (fun e => match e with Call (Spawn _ _) => true | _ => false end) h.

Definition compileCommand : string :=
  "npx tsc scripts/mcp-server.ts --outDir scripts --module nodenext --target esnext --moduleResolution nodenext".

Section Scripts.

Variable ww : World.
Variable env : Env.

Let w : Sdk.World := base ww.

(** [startMCPServer()] *)
Definition startMCPServer : M string :=
  log "Starting MCP server..." ;;;
  tell (Spawn "node" ["scripts/mcp-server.js"]) ;;;
  sleep 2000 ;;;
  ret "stdio://fluidsdk-test-mcp".

(** [testMCPConnection(mcpUrl)]; [None] is [null]. *)
Definition testMCPConnection (mcpUrl : string) : M (option Capabilities) :=
  log "--- Testing MCP Connection ---" ;;;
  tryCatch
    (ask (w_connect ww) (ClientConnect "node" ["scripts/mcp-server.js"]) ;;;
     log "Connected to MCP server" ;;;
     listedTools <- ask (w_listTools ww) ClientListTools ;;
     log ("Found " ++ showZ (len listedTools) ++ " tools:") ;;;
     forEach listedTools
       (fun tool =>
          log ("- " ++ McpCatalog.tool_name tool ++ ": "
                 ++ McpCatalog.tool_description tool)) ;;;
     listedPrompts <- ask (w_listPrompts ww) ClientListPrompts ;;
     log ("Found " ++ showZ (len listedPrompts) ++ " prompts:") ;;;
     forEach listedPrompts
       (fun prompt =>
          log ("- " ++ McpCatalog.prompt_name prompt ++ ": "
                 ++ McpCatalog.prompt_description prompt)) ;;;
     listedResources <- ask (w_listResources ww) ClientListResources ;;
     log ("Found " ++ showZ (len listedResources) ++ " resources:") ;;;
     forEach listedResources
       (fun resource =>
          log ("- " ++ McpCatalog.res_name resource ++ ": "
                 ++ McpCatalog.res_uri resource)) ;;;
     log "--- Testing MCP Tool: calculate ---" ;;;
     ask (w_callTool ww) (ClientCallTool "calculate") ;;;
     log "--- Testing MCP Prompt: greeting ---" ;;;
     ask (w_getPrompt ww) (ClientGetPrompt "greeting") ;;;
     log "--- Testing MCP Resource: status ---" ;;;
     statusResource <- ask (w_readResource ww) (ClientReadResource "fluidsdk://status") ;;
     lift (match statusResource with
           | [] => Err (typeError "Cannot read properties of undefined (reading 'text')")
           | _ :: _ => Val tt
           end) ;;;
     ask (w_close ww) ClientClose ;;;
     log "MCP client closed" ;;;
     ret (Some {| tools := map McpCatalog.tool_name listedTools;
                  prompts := map McpCatalog.prompt_name listedPrompts;
                  resources := map McpCatalog.res_uri listedResources |}))
    (fun error =>
       log ("MCP connection failed: " ++ describe error) ;;;
       ret None).

(** Lines 202 to 251: the registration and its verification; the two
    [return]s end the block. *)
Definition registerAgent (sdk : FluidSDK) (signer : Wallet) : M unit :=
  log "--- Step 4: Register Agent ---" ;;;
  if negb (ipfsClient sdk)
  then log "No IPFS client configured" ;;;
       log "Agent created with MCP endpoint but not registered on-chain"
  else
    balance <- askSdk (w_getBalance w) (ProviderGetBalance (address signer)) ;;
    if balance =? 0
    then log "No balance for gas fees" ;;;
         log "Agent created with MCP endpoint but not registered on-chain"
    else
      log "Registering agent with MCP capabilities..." ;;;
      registrationFile <- askSdk (w_registerIPFS w) AgentRegisterIPFS ;;
      log "Agent registered!" ;;;
      log "--- Step 5: Verify MCP Agent ---" ;;;
      match envGet (reg_agentId registrationFile) with
      | Some newAgentId =>
          askSdk (w_loadAgent w) (SdkLoadAgent newAgentId) ;;;
          log "Agent loaded from blockchain"
      | None => ret tt
      end ;;;
      log "MCP INTEGRATION TEST COMPLETED!" ;;;
      log "Summary:" ;;;
      log "- MCP server running with tools, prompts, and resources" ;;;
      log "- Agent registered with MCP endpoint" ;;;
      log "- MCP capabilities discoverable by clients" ;;;
      log "Next Steps:" ;;;
      log "- Expose MCP server via HTTP/SSE for production use" ;;;
      log "- Implement MCP endpoint crawler for auto-discovery" ;;;
      log "- Add authentication for MCP server access".

(** Lines 149 to 251: what follows a successful compilation. *)
Definition integration (rpcUrl : string) (signer : Wallet) : M unit :=
  mcpUrl <- startMCPServer ;;
  mcpCapabilities <- testMCPConnection mcpUrl ;;
  when (match mcpCapabilities with None => true | Some _ => false end)
    (log "MCP server not responding, continuing with SDK test...") ;;;
  log "--- Step 2: Initialize FluidSDK ---" ;;;
  let chain := w_parseInt w (match envGet (CHAIN_ID env) with
                             | Some c => c
                             | None => "11155111"
                             end) in
  let sdk := newFluidSDK
               {| cfg_chainId := chain; cfg_rpcUrl := rpcUrl;
                  cfg_signer := Some signer;
                  cfg_ipfs := match envGet (PINATA_JWT env) with
                              | Some _ => Some "pinata"
                              | None => None
                              end;
                  cfg_pinataJwt := PINATA_JWT env |} in
  askSdk (w_chainId w) SdkChainId ;;;
  registries <- askSdk (w_registries w) SdkRegistries ;;
  if len registries =? 0
  then log "No registries configured, skipping agent registration"
  else
    log "--- Step 3: Create Agent with MCP Endpoint ---" ;;;
    timestamp <- embed (dateNow w) ;;
    askSdk (w_createAgent w)
           (SdkCreateAgent ("MCP Agent " ++ showZ timestamp)
              "An agent with MCP server capabilities for testing"
              "ipfs://QmMCPTestAgent") ;;;
    askSdk (w_setEndpoint w) (AgentSetMCP "http://localhost:3000/mcp" "2025-06-18" false) ;;;
    log "Agent configured with MCP endpoint: http://localhost:3000/mcp" ;;;
    when (match mcpCapabilities with Some _ => true | None => false end)
      (log "MCP Capabilities discovered:") ;;;
    askSdk (w_setActive w) (AgentSetActive true) ;;;
    registerAgent sdk signer.

(** The body of [main]'s [try] block; the [return] after a failed
    compilation ends it. *)
Definition mainBody : M unit :=
  log "=== FluidSDK + MCP Integration Test ===" ;;;
  match envGet (RPC_URL env), envGet (PRIVATE_KEY env) with
  | Some rpcUrl, Some key =>
      signer <- lift (w_newWallet w key) ;;
      log "--- Step 1: Compile MCP Server ---" ;;;
      compiled <-
        tryCatch
          (ask (w_execSync ww) (ExecSync compileCommand) ;;;
           log "MCP server compiled" ;;;
           ret true)
          (fun _ =>
             log "Failed to compile MCP server" ;;;
             ret false) ;;
      if compiled then integration rpcUrl signer else ret tt
  | _, _ => throwError "RPC_URL and PRIVATE_KEY required in .env"
  end.

(** The [finally] block of [main]. *)
Definition cleanup : M unit :=
  h <- history ;;
  when (serverStarted h)
    (log "Stopping MCP server..." ;;;
     tell Kill).

(** The [catch] block of [main]. *)
Definition report (error : exn) : M unit :=
  logError ("Error: " ++ describe error) ;;;
  match stackOf error with
  | Some st => logError ("Stack: " ++ st)
  | None => ret tt
  end.

(** [main]: the [catch] reports, the [finally] stops the server. *)
Definition main : M unit := tryCatchFinally mainBody report cleanup.

(** Lines 267 to 273: the process. *)
Definition program : M unit :=
  tryCatch
    (main ;;;
     log "Test completed" ;;;
     exit 0)
    (fun error =>
       logError ("Test failed: " ++ describe error) ;;;
       exit 1).

End Scripts.

End McpIntegration.

(** ** scripts/test-mcp-tools.ts: the MCP queries of the SDK *)

Module McpToolsQuery.

Import Wide.
Local Open Scope wide_scope.

(** [items.forEach((item, idx) => f(item, idx))], from the index [idx]. *)
Fixpoint forEachFrom {A} (idx : Z) (items : list A) (f : A -> Z -> M unit) : M unit :=
  match items with
  | [] => ret tt
  | x :: rest => f x idx ;;; forEachFrom (idx + 1) rest f
  end.

Definition forEach {A} (items : list A) (f : A -> Z -> M unit) : M unit :=
  forEachFrom 0 items f.

(** [names.join(', ')] *)
Definition join (names : list string) : string := String.concat ", " names.

(** [items[0]] of a list that is not empty. *)
Definition first (items : list string) : string := hd "" items.

Section Scripts.

Variable ww : World.
Variable env : Env.

Let w : Sdk.World := base ww.

(** The numbered list of test 1, 2 and 3. *)
Definition showNames (names : list string) : M unit :=
  forEach names (fun name idx => log (showZ (idx + 1) ++ ". " ++ name)).

(** One of the tests 1 to 3. *)
Definition listAll (title : string) (oracle : Request -> Trace -> Result (list string))
    (req : Request) (noun : string) : M unit :=
  log title ;;;
  tryCatch
    (all <- ask oracle req ;;
     log ("Found " ++ showZ (len all) ++ " unique MCP " ++ noun ++ "(s):") ;;;
     showNames all)
    (fun error => log ("Error: " ++ describe error)).

(** Test 4 *)
Definition searchAny : M unit :=
  log "TEST 4: Search Agents with Any MCP Capabilities" ;;;
  tryCatch
    (mcpAgents <- ask (w_searchAgentsByMcpCapabilities ww)
                      (SdkSearchAgentsByMcpCapabilities [] [] None) ;;
     log ("Found " ++ showZ (len mcpAgents) ++ " agent(s) with MCP capabilities:") ;;;
     forEach mcpAgents
       (fun agent idx =>
          log (showZ (idx + 1) ++ ". " ++ name agent ++ " (ID: " ++ agentId agent ++ ")") ;;;
          log ("MCP Enabled: " ++ IndexTest.showBool (mcp agent)) ;;;
          log ("Tools: " ++ showZ (len (mcpTools agent))) ;;;
          log ("Prompts: " ++ showZ (len (mcpPrompts agent))) ;;;
          log ("Resources: " ++ showZ (len (mcpResources agent))) ;;;
          when (0 <? len (mcpTools agent))
            (log ("Tool List: " ++ join (mcpTools agent))) ;;;
          when (0 <? len (mcpPrompts agent))
            (log ("Prompt List: " ++ join (mcpPrompts agent))) ;;;
          when (0 <? len (mcpResources agent))
            (log ("Resource List: " ++ join (mcpResources agent)))))
    (fun error => log ("Error: " ++ describe error)).

(** Test 5 *)
Definition searchByTool : M unit :=
  log "TEST 5: Search Agents by Specific MCP Tools" ;;;
  tryCatch
    (availableTools <- ask (w_getAllMcpTools ww) SdkGetAllMcpTools ;;
     if 0 <? len availableTools
     then
       let searchTool := first availableTools in
       log ("Searching for agents with tool: " ++ McpCatalog.dq ++ searchTool
              ++ McpCatalog.dq) ;;;
       agentsWithTool <- ask (w_searchAgentsByMcpCapabilities ww)
                             (SdkSearchAgentsByMcpCapabilities [searchTool] [] None) ;;
       log ("Found " ++ showZ (len agentsWithTool) ++ " agent(s) with tool "
              ++ McpCatalog.dq ++ searchTool ++ McpCatalog.dq ++ ":") ;;;
       forEach agentsWithTool
         (fun agent idx =>
            log (showZ (idx + 1) ++ ". " ++ name agent ++ " (ID: " ++ agentId agent ++ ")") ;;;
            log ("All Tools: " ++ join (mcpTools agent)))
     else log "No MCP tools found in the system yet")
    (fun error => log ("Error: " ++ describe error)).

(** Test 6 *)
Definition searchByPrompt : M unit :=
  log "TEST 6: Search Agents by Specific MCP Prompts" ;;;
  tryCatch
    (availablePrompts <- ask (w_getAllMcpPrompts ww) SdkGetAllMcpPrompts ;;
     if 0 <? len availablePrompts
     then
       let searchPrompt := first availablePrompts in
       log ("Searching for agents with prompt: " ++ McpCatalog.dq ++ searchPrompt
              ++ McpCatalog.dq) ;;;
       agentsWithPrompt <- ask (w_searchAgentsByMcpCapabilities ww)
                               (SdkSearchAgentsByMcpCapabilities [] [searchPrompt] None) ;;
       log ("Found " ++ showZ (len agentsWithPrompt) ++ " agent(s) with prompt "
              ++ McpCatalog.dq ++ searchPrompt ++ McpCatalog.dq ++ ":") ;;;
       forEach agentsWithPrompt
         (fun agent idx =>
            log (showZ (idx + 1) ++ ". " ++ name agent ++ " (ID: " ++ agentId agent ++ ")") ;;;
            log ("All Prompts: " ++ join (mcpPrompts agent)))
     else log "No MCP prompts found in the system yet")
    (fun error => log ("Error: " ++ describe error)).

(** Test 7 *)
Definition searchByBoth : M unit :=
  log "TEST 7: Search Agents by Multiple MCP Capabilities" ;;;
  tryCatch
    (availableTools <- ask (w_getAllMcpTools ww) SdkGetAllMcpTools ;;
     availablePrompts <- ask (w_getAllMcpPrompts ww) SdkGetAllMcpPrompts ;;
     if (0 <? len availableTools) && (0 <? len availablePrompts)
     then
       log "Searching for agents with tool OR prompt" ;;;
       agents <- ask (w_searchAgentsByMcpCapabilities ww)
                     (SdkSearchAgentsByMcpCapabilities
                        [first availableTools] [first availablePrompts] (Some false)) ;;
       log ("Found " ++ showZ (len agents) ++ " agent(s):") ;;;
       forEach agents
         (fun agent idx =>
            log (showZ (idx + 1) ++ ". " ++ name agent ++ " (ID: " ++ agentId agent ++ ")"))
     else log "Not enough MCP capabilities in the system for this test")
    (fun error => log ("Error: " ++ describe error)).

(** The body of [main]'s [try] block. *)
Definition mainBody : M unit :=
  log "=== MCP Capabilities Query Test ===" ;;;
  log "Configuration:" ;;;
  log "--- Initializing SDK ---" ;;;
  askSdk (w_chainId w) SdkChainId ;;;
  listAll "TEST 1: Get All Unique MCP Tools" (w_getAllMcpTools ww) SdkGetAllMcpTools
          "tool" ;;;
  listAll "TEST 2: Get All Unique MCP Prompts" (w_getAllMcpPrompts ww) SdkGetAllMcpPrompts
          "prompt" ;;;
  listAll "TEST 3: Get All Unique MCP Resources" (w_getAllMcpResources ww)
          SdkGetAllMcpResources "resource" ;;;
  searchAny ;;;
  searchByTool ;;;
  searchByPrompt ;;;
  searchByBoth ;;;
  log "ALL TESTS COMPLETED".

(** [main]: an exception of the body is fatal. *)
Definition main : M unit :=
  tryCatch mainBody
    (fun error =>
       logError ("FATAL ERROR: " ++ describe error) ;;;
       match stackOf error with
       | Some st => logError ("Stack trace: " ++ st)
       | None => ret tt
       end ;;;
       exit 1).

(** Lines 212 to 224: the process. *)
Definition program : M unit :=
  log "Starting test in 2 seconds..." ;;;
  log "Press Ctrl+C to cancel" ;;;
  sleep 2000 ;;;
  tryCatch
    (main ;;;
     log "Test completed successfully" ;;;
     exit 0)
    (fun error =>
       logError ("Test failed: " ++ describe error) ;;;
       exit 1).

End Scripts.

End McpToolsQuery.

(** ** Measures on the runs of these scripts *)

Module WideMeasures.

Import Wide.

(** The events of a process before its [main] starts, for the two
    scripts that wait 2 seconds. *)
Definition preamble (line : string) : Trace :=
  [Narrow (Log line); Narrow (Log "Press Ctrl+C to cancel"); Narrow (Sleep 2000)].

(** What the [finally] of the integration test adds after the trace
    [t]. *)
Definition cleanupOf (t : Trace) : Trace :=
  if McpIntegration.serverStarted t
  then [Narrow (Log "Stopping MCP server..."); Call Kill]
  else [].

(** Every call but the compilation of the server. *)
Definition beyondCompilation (r : Request) : bool :=
  match r with
  | ExecSync _ => false
  | _ => true
  end.

(** The compilation of the server always fails. *)
Definition compilationFails (ww : World) : Prop :=
  forall req h a, w_execSync ww req h <> Val a.

(** Every request of [Script] but the reading of the chain. *)
Definition beyondChain (r : Script.Request) : bool :=
  match r with
  | SdkChainId => false
  | _ => true
  end.

(** Whether a console line was written. *)
Definition hasLog (line : string) (t : Trace) : bool := Observe.hasLog line (narrow t).

(** The chain never answers. *)
Definition chainDown (w : Sdk.World) : Prop :=
  forall h chainId, w_chainId w SdkChainId h <> Val chainId.

(** The chain always answers. *)
Definition chainUp (w : Sdk.World) : Prop :=
  forall h e, w_chainId w SdkChainId h <> Err e.

(** Events that are not a search, or a search that names only the
    tools of [knownTool] and the prompts of [knownPrompt]. *)
Definition searchesWithin (knownTool knownPrompt : string -> bool) (e : Event) : bool :=
  match e with
  | Call (SdkSearchAgentsByMcpCapabilities toolNames promptNames _) =>
      forallb knownTool toolNames && forallb knownPrompt promptNames
  | _ => true
  end.

(** The query [req] of the SDK lists only names of [known]. *)
Definition listsOnly (oracle : Request -> Trace -> Result (list string)) (req : Request)
    (known : string -> bool) : Prop :=
  forall h names, oracle req h = Val names -> forallb known names = true.

(** A world whose other collaborators all answer. *)
Definition plain (w : Sdk.World) : World :=
  {| base := w;
     w_setA2A := fun _ _ => Val tt;
     w_execSync := fun _ _ => Val tt;
     w_connect := fun _ _ => Val tt;
     w_listTools := fun _ _ => Val McpCatalog.listTools;
     w_listPrompts := fun _ _ => Val McpCatalog.listPrompts;
     w_listResources := fun _ _ => Val McpCatalog.listResources;
     w_callTool := fun _ _ => Val (McpServer.textResult "Result: 42 add 58 = 100");
     w_getPrompt := fun _ _ => Val [];
     w_readResource := fun _ _ =>
       Val [ {| McpCatalog.rc_uri := "fluidsdk://status";
                McpCatalog.rc_mimeType := "application/json";
                McpCatalog.rc_text := "{}" |} ];
     w_close := fun _ _ => Val tt;
     w_getAllMcpTools := fun _ _ => Val ["calculate"; "echo"];
     w_getAllMcpPrompts := fun _ _ => Val ["greeting"];
     w_getAllMcpResources := fun _ _ => Val [];
     w_searchAgentsByMcpCapabilities := fun _ _ => Val [Worlds.sampleAgent] |}.

(** The TypeScript compiler is missing. *)
Definition noCompiler (w : Sdk.World) : World :=
  {| base := w;
     w_setA2A := fun _ _ => Val tt;
     w_execSync := fun _ _ => Err (JsError "Command failed: npx tsc" "Error");
     w_connect := fun _ _ => Val tt;
     w_listTools := fun _ _ => Val [];
     w_listPrompts := fun _ _ => Val [];
     w_listResources := fun _ _ => Val [];
     w_callTool := fun _ _ => Val (McpServer.textResult "");
     w_getPrompt := fun _ _ => Val [];
     w_readResource := fun _ _ => Val [];
     w_close := fun _ _ => Val tt;
     w_getAllMcpTools := fun _ _ => Val [];
     w_getAllMcpPrompts := fun _ _ => Val [];
     w_getAllMcpResources := fun _ _ => Val [];
     w_searchAgentsByMcpCapabilities := fun _ _ => Val [] |}.

End WideMeasures.

(* ================================================================== *)
(** * Part II: properties *)
(* ================================================================== *)

(** ** A small program logic for scripts *)

Module Logic.

Section Rules.

Context {A B : Type}.
Variable P : Event -> bool.
Variable E : exn -> Prop.

Lemma spec_ret (Q : A -> Prop) (a : A) : Q a -> spec P Q E (ret a).
Proof. intros Ha h; cbn; auto. Qed.

Lemma spec_bind (Q : A -> Prop) (R : B -> Prop) (m : M A) (k : A -> M B) :
  spec P Q E m -> (forall a, Q a -> spec P R E (k a)) -> spec P R E (bind m k).
Proof.
  intros Hm Hk h. unfold bind.
  destruct (Hm h) as [Ht Ho].
  destruct (m h) as [[a | e | c] t1]; cbn in *; try tauto.
  destruct (Hk a Ho (h ++ t1)%list) as [Ht2 Ho2].
  destruct (k a (h ++ t1)%list) as [o t2]; cbn in *.
  rewrite forallb_app, Ht, Ht2. auto.
Qed.

(** Sequencing when nothing is needed from the first script. *)
Lemma spec_seq (R : B -> Prop) (m : M A) (k : A -> M B) :
  spec P (fun _ => True) E m -> (forall a, spec P R E (k a)) -> spec P R E (bind m k).
Proof. intros Hm Hk. eapply spec_bind; [exact Hm | intros; apply Hk]. Qed.

Lemma spec_weaken (Q Q' : A -> Prop) (E' : exn -> Prop) (m : M A) :
  spec P Q E' m -> (forall a, Q a -> Q' a) -> (forall e, E' e -> E e) ->
  spec P Q' E m.
Proof.
  intros Hm HQ HE h. destruct (Hm h) as [Ht Ho]. split; [exact Ht |].
  destruct (fst (m h)); auto.
Qed.

Lemma spec_tryCatch (Q : A -> Prop) (E' : exn -> Prop) (m : M A) (handler : exn -> M A) :
  spec P Q E' m -> (forall e, E' e -> spec P Q E (handler e)) ->
  spec P Q E (tryCatch m handler).
Proof.
  intros Hm Hh h. unfold tryCatch.
  destruct (Hm h) as [Ht Ho].
  destruct (m h) as [[a | e | c] t1]; cbn in *; try tauto.
  destruct (Hh e Ho (h ++ t1)%list) as [Ht2 Ho2].
  destruct (handler e (h ++ t1)%list) as [o t2]; cbn in *.
  rewrite forallb_app, Ht, Ht2. auto.
Qed.

(** A [try] whose block may throw anything. *)
Lemma spec_tryCatch_any (Q : A -> Prop) (m : M A) (handler : exn -> M A) :
  spec P Q (fun _ => True) m -> (forall e, spec P Q E (handler e)) ->
  spec P Q E (tryCatch m handler).
Proof. intros Hm Hh. eapply spec_tryCatch; [exact Hm | intros; apply Hh]. Qed.

Lemma spec_throw (Q : A -> Prop) (e : exn) : E e -> spec P Q E (throw e).
Proof. intros He h; cbn; auto. Qed.

Lemma spec_throwError (Q : A -> Prop) (msg : string) :
  E (JsError msg "Error") -> spec P Q E (throwError msg).
Proof. apply spec_throw. Qed.

Lemma spec_lift (Q : A -> Prop) (r : Result A) :
  (forall a, r = Val a -> Q a) -> (forall e, r = Err e -> E e) -> spec P Q E (lift r).
Proof. intros HQ HE h. unfold lift. destruct r; cbn; auto. Qed.

Lemma spec_call (Q : A -> Prop) (req : Request) (oracle : Trace -> Result A) :
  P (Call req) = true ->
  (forall h a, oracle h = Val a -> Q a) ->
  (forall h e, oracle h = Err e -> E e) ->
  spec P Q E (call req oracle).
Proof.
  intros HP HQ HE h. unfold call.
  destruct (oracle h) eqn:Eo; cbn; rewrite HP; split; eauto.
Qed.

Lemma spec_ask (Q : A -> Prop) (req : Request) (oracle : Request -> Trace -> Result A) :
  P (Call req) = true ->
  (forall h a, oracle req h = Val a -> Q a) ->
  (forall h e, oracle req h = Err e -> E e) ->
  spec P Q E (ask oracle req).
Proof. intros; apply spec_call; auto. Qed.

End Rules.

Section UnitRules.

Variable P : Event -> bool.
Variable E : exn -> Prop.

Lemma spec_emit (Q : unit -> Prop) (e : Event) :
  P e = true -> Q tt -> spec P Q E (emit e).
Proof. intros HP HQ h; cbn. rewrite HP. auto. Qed.

Lemma spec_log (Q : unit -> Prop) (text : string) :
  P (Log text) = true -> Q tt -> spec P Q E (log text).
Proof. apply spec_emit. Qed.

Lemma spec_sleep (Q : unit -> Prop) (ms : Z) :
  P (Sleep ms) = true -> Q tt -> spec P Q E (sleep ms).
Proof. apply spec_emit. Qed.

Lemma spec_dateNow (w : World) : spec P (fun _ => True) E (dateNow w).
Proof. intros h; cbn; auto. Qed.

(** A script that never returns satisfies every postcondition. *)
Lemma spec_absurd {A} (Q : A -> Prop) (m : M A) :
  spec P (fun _ => False) E m -> spec P Q E m.
Proof. intros H; eapply spec_weaken; [exact H | intros a [] | auto]. Qed.

End UnitRules.

End Logic.

Import Logic.

(** One step of the syntax-directed proof of a [spec]: the rule of the
    script's head, its side conditions closed by [auto] where they are
    immediate, and left to the caller otherwise. *)
Ltac head_of t :=
  lazymatch t with
  | ?f _ => head_of f
  | _ => t
  end.

Ltac side := try solve [ reflexivity | exact I | intros; exact I | intros; eauto ].

Ltac spec_step :=
  lazymatch goal with
  | |- tame _ _ => unfold tame
  | |- spec _ _ _ (bind _ _) => apply spec_seq; [ | intros ]
  | |- spec _ _ _ (tryCatch _ _) => apply spec_tryCatch_any; [ | intros ]
  | |- spec _ _ _ (ret _) => apply spec_ret; side
  | |- spec _ _ _ (log _) => apply spec_log; side
  | |- spec _ _ _ (sleep _) => apply spec_sleep; side
  | |- spec _ _ _ (throw _) => apply spec_throw; side
  | |- spec _ _ _ (throwError _) => apply spec_throwError; side
  | |- spec _ _ _ (lift _) => apply spec_lift; side
  | |- spec _ _ _ (dateNow _) => apply spec_dateNow
  | |- spec _ _ _ (ask _ _) => apply spec_ask; side
  | |- spec _ _ _ (call _ _) => apply spec_call; side
  | |- spec _ _ _ (when ?b _) => destruct b eqn:?; cbn [when]
  | |- spec _ _ _ (match ?x with _ => _ end) => destruct x eqn:?
  | |- spec _ _ _ ?m => let f := head_of m in progress unfold f
  end.

Ltac spec_auto := repeat (first [ solve [ auto with tame ] | spec_step ]).

Create HintDb tame.

(** ** The local MCP server: the guarded division *)

Module McpServerProps.

Import McpServer.

(** C9. In the [calculate] tool, a division whose divisor is zero
    ([b === 0], which holds for [0] and for [-0]) returns the normal
    result whose only content is the text "Error: Division by zero";
    for every other divisor the handler returns the result line built
    with the quotient [a / b]. *)
Theorem calculate_divide_guarded
    (numberToString : float -> string) (mockWeatherText : value -> string)
    (coerced : string -> value -> value -> Result value)
    (x y : float) :
  (PrimFloat.eqb y 0%float = true ->
     callTool numberToString mockWeatherText coerced (divideRequest x y)
     = Val {| content := [ {| type := "text"; text := "Error: Division by zero" |} ] |})
  /\
  (PrimFloat.eqb y 0%float = false ->
     callTool numberToString mockWeatherText coerced (divideRequest x y)
     = Val {| content := [ {| type := "text";
                              text := "Result: " ++ numberToString x ++ " divide "
                                        ++ numberToString y ++ " = "
                                        ++ numberToString (x / y)%float |} ] |}).
Proof.
  unfold callTool, calculate, compute, divideRequest, calcArguments, resultText, textResult,
    arith, isZero; cbn.
  split; intros Hy; rewrite Hy; reflexivity.
Qed.

(** The theorem at the divisors [0], [-0] and [2]. *)
Lemma calculate_divide_guarded_witness :
  callTool (fun _ => "n") (fun _ => "") (fun _ _ _ => Val Undefined) (divideRequest 6 0)
    = Val (textResult "Error: Division by zero")
  /\ callTool (fun _ => "n") (fun _ => "") (fun _ _ _ => Val Undefined) (divideRequest 6 (-0))
    = Val (textResult "Error: Division by zero")
  /\ callTool (fun _ => "n") (fun _ => "") (fun _ _ _ => Val Undefined) (divideRequest 6 2)
    = Val (textResult "Result: n divide n = n").
Proof.
  split; [| split].
  - apply (proj1 (calculate_divide_guarded (fun _ => "n") (fun _ => "")
                    (fun _ _ _ => Val Undefined) 6 0)); reflexivity.
  - apply (proj1 (calculate_divide_guarded (fun _ => "n") (fun _ => "")
                    (fun _ _ _ => Val Undefined) 6 (-0))); reflexivity.
  - apply (proj2 (calculate_divide_guarded (fun _ => "n") (fun _ => "")
                    (fun _ _ _ => Val Undefined) 6 2)); reflexivity.
Defined.

End McpServerProps.

(** ** Symbolic execution of scripts *)

(** Unfolds the sequencing primitives, so that a script applied to a
    history computes up to the next oracle. *)
Ltac exec :=
  unfold run, when, ask, call, tryCatch, bind, log, logError, sleep,
    emit, lift, throwError, throw, exit, ret, dateNow in *;
  cbn in *.

(** The sequencing primitives unfolded, without computing on strings. *)
Ltac exec_lazy :=
  unfold run, when, ask, call, tryCatch, bind, log, logError, sleep,
    emit, lift, throwError, throw, exit, ret, dateNow;
  cbv beta iota zeta.

(** Case analysis on the answer of the next oracle. *)
Ltac oracle :=
  match goal with
  | |- context [match ?f ?w ?r ?h with Val _ => _ | Err _ => _ end] =>
      let E := fresh "E" in destruct (f w r h) eqn:E; cbn in *
  end.

(** ** Retrieval of the submitted feedback *)

Module FeedbackIndexProps.



End FeedbackIndexProps.

(** ** Running sequences *)

Module Run.

(** Sequencing is a monad: the history a script reads is the history at
    its place in the sequence, however the sequence is bracketed. *)
Lemma bind_ret_l {A B} (a : A) (k : A -> M B) (h : Trace) : bind (ret a) k h = k a h.
Proof.
  unfold bind, ret. rewrite app_nil_r. destruct (k a h); reflexivity.
Qed.

Lemma bind_ret_r {A} (m : M A) (h : Trace) : bind m ret h = m h.
Proof.
  unfold bind, ret. destruct (m h) as [[a | e | c] t]; try reflexivity.
  rewrite app_nil_r. reflexivity.
Qed.

Lemma bind_assoc {A B C} (m : M A) (f : A -> M B) (g : B -> M C) (h : Trace) :
  bind (bind m f) g h = bind m (fun a => bind (f a) g) h.
Proof.
  unfold bind. destruct (m h) as [[a | e | c] t1]; try reflexivity.
  destruct (f a (h ++ t1)%list) as [[b | e | c] t2]; try reflexivity.
  rewrite <- app_assoc.
  destruct (g b (h ++ t1 ++ t2)%list) as [o t3].
  rewrite app_assoc. reflexivity.
Qed.

Lemma bind_ok {A B} (m : M A) (k : A -> M B) (h t1 t2 : Trace) (a : A) (o : Outcome B) :
  m h = (Ok a, t1) -> k a (h ++ t1)%list = (o, t2) ->
  bind m k h = (o, (t1 ++ t2)%list).
Proof. intros Hm Hk. unfold bind. rewrite Hm, Hk. reflexivity. Qed.

Lemma bind_throw {A B} (m : M A) (k : A -> M B) (h t1 : Trace) (e : exn) :
  m h = (Throw e, t1) -> bind m k h = (Throw e, t1).
Proof. intros Hm. unfold bind. rewrite Hm. reflexivity. Qed.

Lemma bind_exited {A B} (m : M A) (k : A -> M B) (h t1 : Trace) (c : Z) :
  m h = (Exited c, t1) -> bind m k h = (Exited c, t1).
Proof. intros Hm. unfold bind. rewrite Hm. reflexivity. Qed.

Lemma tryCatch_ok {A} (m : M A) (handler : exn -> M A) (h t : Trace) (a : A) :
  m h = (Ok a, t) -> tryCatch m handler h = (Ok a, t).
Proof. intros Hm. unfold tryCatch. rewrite Hm. reflexivity. Qed.

Lemma tryCatch_exited {A} (m : M A) (handler : exn -> M A) (h t : Trace) (c : Z) :
  m h = (Exited c, t) -> tryCatch m handler h = (Exited c, t).
Proof. intros Hm. unfold tryCatch. rewrite Hm. reflexivity. Qed.

Lemma tryCatch_caught {A} (m : M A) (handler : exn -> M A) (h t1 t2 : Trace)
    (e : exn) (o : Outcome A) :
  m h = (Throw e, t1) -> handler e (h ++ t1)%list = (o, t2) ->
  tryCatch m handler h = (o, (t1 ++ t2)%list).
Proof. intros Hm Hh. unfold tryCatch. rewrite Hm, Hh. reflexivity. Qed.

Lemma bind_inv_ok {A B} (m : M A) (k : A -> M B) (h t : Trace) (b : B) :
  bind m k h = (Ok b, t) ->
  exists a t1 t2,
    m h = (Ok a, t1) /\ k a (h ++ t1)%list = (Ok b, t2) /\ t = (t1 ++ t2)%list.
Proof.
  unfold bind. destruct (m h) as [[a | e | c] t1]; intros H; try discriminate H.
  destruct (k a (h ++ t1)%list) as [o t2] eqn:Ek.
  injection H as -> <-. exists a, t1, t2. auto.
Qed.

Lemma trace_bind_ok {A B} (m : M A) (k : A -> M B) (h t1 : Trace) (a : A) :
  m h = (Ok a, t1) -> snd (bind m k h) = (t1 ++ snd (k a (h ++ t1)%list))%list.
Proof.
  intros Hm. unfold bind. rewrite Hm.
  destruct (k a (h ++ t1)%list); reflexivity.
Qed.

Lemma trace_tryCatch {A} (m : M A) (handler : exn -> M A) (h : Trace) :
  exists t, snd (tryCatch m handler h) = (snd (m h) ++ t)%list.
Proof.
  unfold tryCatch. destruct (m h) as [[a | e | c] t1]; cbn.
  - exists []. rewrite app_nil_r. reflexivity.
  - destruct (handler e (h ++ t1)%list) as [o t2]. exists t2. reflexivity.
  - exists []. rewrite app_nil_r. reflexivity.
Qed.

Lemma timeline_app (t1 t2 : Trace) :
  timeline (t1 ++ t2)%list = (timeline t1 ++ timeline t2)%list.
Proof. apply filter_app. Qed.

Lemma hasLog_app (line : string) (t1 t2 : Trace) :
  hasLog line (t1 ++ t2)%list = hasLog line t1 || hasLog line t2.
Proof. apply existsb_app. Qed.

Lemma requests_app (t1 t2 : Trace) :
  requests (t1 ++ t2)%list = (requests t1 ++ requests t2)%list.
Proof. unfold requests. apply flat_map_app. Qed.

(** The two views of ToString agree: a value has a rendering exactly
    when it is convertible. *)
Lemma toStr_convertible (numberToString : float -> string) :
  forall v, (exists s, toStr numberToString v = Val s) <-> convertible v = true.
Proof.
  fix IH 1. intros v.
  destruct v as [| | b | n | s | items | fields]; cbn [toStr convertible];
    try (split; [reflexivity | eauto]).
  - revert items. fix IHl 1. intros [| x rest]; cbn [forallb].
    + split; [reflexivity | eauto].
    + specialize (IHl rest). specialize (IH x).
      destruct (nullish x) eqn:Hx.
      * assert (Hc : convertible x = true) by (destruct x; try discriminate Hx; reflexivity).
        rewrite Hc. cbn [rbind andb].
        destruct rest as [| y rest']; [split; [reflexivity | eauto] |].
        rewrite <- IHl.
        match goal with |- context [rbind ?m _] => destruct m as [r | e] end; cbn [rbind];
          split; intros [s Hs]; try discriminate Hs; eauto.
      * destruct (toStr numberToString x) as [sx | e] eqn:Ex; cbn [rbind].
        -- assert (Hc : convertible x = true) by (apply IH; eauto).
           rewrite Hc. cbn [andb].
           destruct rest as [| y rest']; [split; [reflexivity | eauto] |].
           rewrite <- IHl.
           match goal with |- context [rbind ?m _] => destruct m as [r | e] end; cbn [rbind];
             split; intros [s Hs]; try discriminate Hs; eauto.
        -- assert (Hc : convertible x = false).
           { destruct (convertible x); [| reflexivity].
             destruct (proj2 IH eq_refl) as [s Hs]. discriminate Hs. }
           rewrite Hc. cbn [andb]. split; [intros [s Hs]; discriminate Hs | discriminate].
  - destruct (hasOwn "toString" fields); cbn [negb];
      split; try discriminate; eauto. intros [s Hs]. discriminate Hs.
Qed.

End Run.

(** ** The MCP capability prober *)

Module ProbeProps.

Import FullFlowMcp.

(** What a probe does, by the answer it gets. *)
Lemma probe_run (w : World) (kind noun : string) (id : Z)
    (pick : value -> Result value) (h : Trace) :
  probe w kind noun id pick h =
  match w_fetch w (probeRequest kind id) h with
  | Err e => (Ok [], [Call (probeRequest kind id); warning kind e])
  | Val response =>
      if ok response then
        match decode kind pick response with
        | Err e => (Ok [], [Call (probeRequest kind id); warning kind e])
        | Val None => (Ok [], [Call (probeRequest kind id)])
        | Val (Some names) =>
            match joinValues names with
            | Val _ =>
                (Ok names,
                 [Call (probeRequest kind id);
                  Log ("Found " ++ showZ (len names) ++ " " ++ noun ++ "(s)")])
            | Err e => (Ok names, [Call (probeRequest kind id); warning kind e])
            end
        end
      else (Ok [], [Call (probeRequest kind id)])
  end.
Proof.
  unfold probe, probeAssign, probeFound, couldNotFetch, warning. exec.
  destruct (w_fetch w (probeRequest kind id) h) as [response | e]; cbn; [| reflexivity].
  destruct (ok response); cbn; [| reflexivity].
  destruct (decode kind pick response) as [[names |] | e]; cbn; try reflexivity.
  destruct (joinValues names) as [[] | e]; reflexivity.
Qed.

(** A probe always returns a list, and always sends exactly its own
    request. *)
Lemma probe_total (w : World) (kind noun : string) (id : Z)
    (pick : value -> Result value) (h : Trace) :
  exists names t,
    probe w kind noun id pick h = (Ok names, t)
    /\ requests t = [probeRequest kind id].
Proof.
  rewrite probe_run.
  destruct (w_fetch w (probeRequest kind id) h) as [response | e]; [| eauto].
  destruct (ok response); [| eauto].
  destruct (decode kind pick response) as [[names |] | e]; eauto.
  destruct (joinValues names) as [[] | e]; eauto.
Qed.

Lemma mapR_defined (pick : value -> Result value) (f : value -> value) (items : list value) :
  (forall v, nullish v = false -> pick v = Val (f v)) ->
  existsb nullish items = false ->
  mapR pick items = Val (map f items).
Proof.
  intros Hpick. induction items as [| v items IH]; cbn; [reflexivity |].
  intros H. apply orb_false_iff in H. destruct H as [Hv Hrest].
  rewrite (Hpick v Hv), (IH Hrest). reflexivity.
Qed.

(** The callback throws on [null] and on [undefined], and [map] with
    it. *)
Lemma mapR_throws (pick : value -> Result value) (items : list value) :
  (forall v, nullish v = true -> exists e, pick v = Err e) ->
  existsb nullish items = true ->
  exists e, mapR pick items = Err e.
Proof.
  intros Hpick. induction items as [| v items IH]; cbn; [discriminate |].
  intros H. destruct (nullish v) eqn:Hv.
  - destruct (Hpick v Hv) as [e He]. rewrite He. cbn. eauto.
  - cbn in H. destruct (pick v) as [y | e]; cbn; [| eauto].
    destruct (IH H) as [e He]. rewrite He. cbn. eauto.
Qed.

Lemma pickName_defined (v : value) : nullish v = false -> pickName v = Val (own "name" v).
Proof. destruct v; cbn; intros H; try discriminate H; reflexivity. Qed.

Lemma pickName_throws (v : value) : nullish v = true -> exists e, pickName v = Err e.
Proof. destruct v; cbn; intros H; try discriminate H; eauto. Qed.

Lemma pickUriOrName_defined (v : value) :
  nullish v = false -> pickUriOrName v = Val (uriOrName v).
Proof.
  unfold pickUriOrName, uriOrName, orElse.
  destruct v; cbn; intros H; try discriminate H; try reflexivity.
  destruct (truthy (lookup "uri" fields)); reflexivity.
Qed.

Lemma pickUriOrName_throws (v : value) :
  nullish v = true -> exists e, pickUriOrName v = Err e.
Proof. destruct v; cbn; intros H; try discriminate H; eauto. Qed.

(** The decoding of a body that lists its items in an array: the image
    of the items, unless one of them is [null]. *)
Lemma decode_lists (kind : string) (pick : value -> Result value) (f : value -> value)
    (response : Response) (data : value) (items : list value) :
  (forall v, nullish v = false -> pick v = Val (f v)) ->
  json response = Val data ->
  listedIn data kind = Val (Arr items) ->
  existsb nullish items = false ->
  decode kind pick response = Val (Some (map f items)).
Proof.
  intros Hpick Hjson Hlisted Hitems. unfold decode.
  rewrite Hjson. cbn [rbind]. rewrite Hlisted. cbn [rbind truthy arrayMap].
  rewrite (mapR_defined pick f items Hpick Hitems). reflexivity.
Qed.

Lemma decode_null_item (kind : string) (pick : value -> Result value)
    (response : Response) (data : value) (items : list value) :
  (forall v, nullish v = true -> exists e, pick v = Err e) ->
  json response = Val data ->
  listedIn data kind = Val (Arr items) ->
  existsb nullish items = true ->
  exists e, decode kind pick response = Err e.
Proof.
  intros Hpick Hjson Hlisted Hitems. unfold decode.
  rewrite Hjson. cbn [rbind]. rewrite Hlisted. cbn [rbind truthy arrayMap].
  destruct (mapR_throws pick items Hpick Hitems) as [e He].
  rewrite He. cbn [rbind]. eauto.
Qed.





(** A probe whose response lists the items. *)
Lemma probe_lists (w : World) (kind noun : string) (id : Z)
    (pick : value -> Result value) (f : value -> value) (h : Trace)
    (response : Response) (data : value) (items : list value) :
  (forall v, nullish v = false -> pick v = Val (f v)) ->
  (forall v, nullish v = true -> exists e, pick v = Err e) ->
  w_fetch w (probeRequest kind id) h = Val response ->
  ok response = true ->
  json response = Val data ->
  listedIn data kind = Val (Arr items) ->
  fst (probe w kind noun id pick h)
  = Ok (if existsb nullish items then [] else map f items).
Proof.
  intros Hpick Hthrows Hfetch Hok Hjson Hlisted.
  rewrite probe_run, Hfetch, Hok.
  destruct (existsb nullish items) eqn:Hitems.
  - destruct (decode_null_item kind pick response data items Hthrows Hjson Hlisted Hitems)
      as [e He].
    rewrite He. reflexivity.
  - rewrite (decode_lists kind pick f response data items Hpick Hjson Hlisted Hitems).
    destruct (joinValues (map f items)) as [[] | e]; reflexivity.
Qed.

(** The three probes are always sent, in the order tools, prompts,
    resources, and the step returns the three lists. *)
Lemma fetchCapabilities_total (w : World) (h : Trace) :
  exists tools prompts resources t,
    fetchCapabilities w h = (Ok (tools, prompts, resources), t)
    /\ requests t = [probeRequest "tools" 1; probeRequest "prompts" 2;
                     probeRequest "resources" 3].
Proof.
  unfold fetchCapabilities, fetchTools, fetchPrompts, fetchResources.
  destruct (probe_total w "tools" "tool" 1 pickName
              (h ++ [Log "Fetching MCP capabilities..."])%list)
    as (tools & t1 & E1 & R1).
  destruct (probe_total w "prompts" "prompt" 2 pickName
              ((h ++ [Log "Fetching MCP capabilities..."]) ++ t1)%list)
    as (prompts & t2 & E2 & R2).
  destruct (probe_total w "resources" "resource" 3 pickUriOrName
              (((h ++ [Log "Fetching MCP capabilities..."]) ++ t1) ++ t2)%list)
    as (resources & t3 & E3 & R3).
  exists tools, prompts, resources. eexists.
  split.
  { eapply Run.bind_ok; [reflexivity |].
    eapply Run.bind_ok; [exact E1 |].
    eapply Run.bind_ok; [exact E2 |].
    eapply Run.bind_ok; [exact E3 |].
    reflexivity. }
  rewrite !Run.requests_app, R1, R2, R3. reflexivity.
Qed.






(** Scenario C of the spec: a 500 on [tools/list] and 200 on the other
    two gives no tool and the prompts and resources of the server. *)
Example scenario_C :
  fst (run (fetchCapabilities Worlds.toolsDown))
  = Ok ([],
        [Str "greeting"; Str "code_review"],
        [Str "fluidsdk://config"; Str "fluidsdk://status"]).
Proof. reflexivity. Qed.

(** C8 (amended). When a probe is answered with a list of items, the
    list of names is: the [name] of every tool; the [name] of every
    prompt; for every resource its [uri] when that is truthy, and its
    [name] when the [uri] is absent or otherwise falsy (the empty
    string, [null], [0], [false]).  A list that holds a [null] item is
    the exception: reading the field of [null] throws, and the list of
    that kind stays empty. *)
Theorem probe_reduces_to_names
    (w : World) (h : Trace) (response : Response) (data : value) (items : list value) :
  ok response = true ->
  json response = Val data ->
  (w_fetch w (probeRequest "tools" 1) h = Val response ->
   listedIn data "tools" = Val (Arr items) ->
   fst (fetchTools w h)
   = Ok (if existsb nullish items then [] else map (own "name") items))
  /\ (w_fetch w (probeRequest "prompts" 2) h = Val response ->
      listedIn data "prompts" = Val (Arr items) ->
      fst (fetchPrompts w h)
      = Ok (if existsb nullish items then [] else map (own "name") items))
  /\ (w_fetch w (probeRequest "resources" 3) h = Val response ->
      listedIn data "resources" = Val (Arr items) ->
      fst (fetchResources w h)
      = Ok (if existsb nullish items then [] else map uriOrName items))
  /\ (forall r, truthy (own "uri" r) = true -> uriOrName r = own "uri" r)
  /\ (forall r, truthy (own "uri" r) = false -> uriOrName r = own "name" r)
  /\ (forall r, own "uri" r = Undefined -> uriOrName r = own "name" r).
Proof.
  intros Hok Hjson.
  split; [intros Hf Hl; eapply probe_lists;
          eauto using pickName_defined, pickName_throws |].
  split; [intros Hf Hl; eapply probe_lists;
          eauto using pickName_defined, pickName_throws |].
  split; [intros Hf Hl; eapply probe_lists;
          eauto using pickUriOrName_defined, pickUriOrName_throws |].
  unfold uriOrName.
  split; [intros r Hr; rewrite Hr; reflexivity |].
  split; [intros r Hr; rewrite Hr; reflexivity |].
  intros r Hr; rewrite Hr; reflexivity.
Qed.

(** The theorem on the answers of the local MCP server. *)
Lemma probe_reduces_to_names_witness :
  fst (fetchResources Worlds.happy [])
  = Ok [Str "fluidsdk://config"; Str "fluidsdk://status"].
Proof.
  apply (proj1 (proj2 (proj2
    (probe_reduces_to_names Worlds.happy []
       (Worlds.okResponse (Obj [("result", Obj [("resources",
          Arr [Obj [("uri", Str "fluidsdk://config"); ("name", Str "SDK Configuration")];
               Obj [("uri", Str "fluidsdk://status"); ("name", Str "Server Status")]])])]))
       (Obj [("result", Obj [("resources",
          Arr [Obj [("uri", Str "fluidsdk://config"); ("name", Str "SDK Configuration")];
               Obj [("uri", Str "fluidsdk://status"); ("name", Str "Server Status")]])])])
       [Obj [("uri", Str "fluidsdk://config"); ("name", Str "SDK Configuration")];
        Obj [("uri", Str "fluidsdk://status"); ("name", Str "Server Status")]]
       eq_refl eq_refl)))); reflexivity.
Defined.

(** C8, as stated, fails on a resource whose [uri] is present but is the
    empty string: its [name] is taken, not its [uri]. *)
Lemma empty_uri_resource_takes_name :
  own "uri" (Obj [("uri", Str ""); ("name", Str "SDK Configuration")]) = Str ""
  /\ fst (run (fetchResources Worlds.emptyUri)) = Ok [Str "SDK Configuration"].
Proof. split; reflexivity. Qed.

End ProbeProps.




(** ** Polling the subgraph for the new agent *)

Module PollingProps.

Import FullFlowMcp.

(** One lookup: it never throws, it sends one request, and it reports a
    hit exactly when it returns the agent. *)
Lemma query_run (w : World) (agentId : string) (h : Trace) :
  exists found t,
    queryAgentFromSubgraph w agentId h = (Ok found, t)
    /\ timeline t = (Call (SdkGetAgent agentId) :: hit found)
    /\ requests t = [SdkGetAgent agentId]
    /\ hasLog notFoundWarning t = false.
Proof.
  unfold queryAgentFromSubgraph. exec.
  oracle.
  - destruct a as [agent |]; cbn.
    + destruct (mcp agent); cbn; exists (Some agent); eexists; repeat split.
    + exists None; eexists; repeat split.
  - exists None; eexists; repeat split.
Qed.

(** The retry loop with [left] iterations to go. *)
Lemma retry_run (w : World) (agentId : string) (left : nat) :
  forall (i : Z) (h : Trace),
  exists n found t,
    retryLookup w left i agentId h = (Ok found, t)
    /\ timeline t = (retries n agentId ++ hit found)%list
    /\ requests t = repeat (SdkGetAgent agentId) n
    /\ hasLog notFoundWarning t = false
    /\ (n <= left)%nat
    /\ (found = None -> n = left).
Proof.
  induction left as [| left IH]; intros i h.
  - exists 0%nat, None, []. repeat split; auto.
  - cbn [retryLookup].
    destruct (query_run w agentId
                ((h ++ [Sleep 10000]) ++ [Log ("Retry " ++ showZ (i + 1) ++ "/3...")])%list)
      as (found & tq & Eq & Tq & Rq & Wq).
    destruct found as [agent |].
    + exists 1%nat, (Some agent). eexists.
      split.
      { eapply Run.bind_ok; [reflexivity |].
        eapply Run.bind_ok; [reflexivity |].
        eapply Run.bind_ok; [exact Eq |].
        reflexivity. }
      rewrite !Run.timeline_app, !Run.requests_app, !Run.hasLog_app, Tq, Rq, Wq.
      repeat split; cbn; auto; try lia; try discriminate.
    + destruct (IH (i + 1)
                  (((h ++ [Sleep 10000]) ++ [Log ("Retry " ++ showZ (i + 1) ++ "/3...")]) ++ tq)%list)
        as (n & found & tr & Er & Tr & Rr & Wr & Hn & Hnone).
      exists (S n), found. eexists.
      split.
      { eapply Run.bind_ok; [reflexivity |].
        eapply Run.bind_ok; [reflexivity |].
        eapply Run.bind_ok; [exact Eq |].
        exact Er. }
      rewrite !Run.timeline_app, !Run.requests_app, !Run.hasLog_app, Tq, Rq, Wq, Tr, Rr, Wr.
      repeat split; cbn; auto; try lia.
Qed.

(** The verification step, on every world and history. *)
Lemma step6_run (w : World) (newAgentId : string) (h : Trace) :
  exists (n : nat) (found : option AgentSummary),
    fst (step6 w newAgentId h) = Ok found
    /\ timeline (snd (step6 w newAgentId h))
       = (Call (SdkGetAgent newAgentId) :: retries n newAgentId ++ hit found)%list
    /\ requests (snd (step6 w newAgentId h)) = repeat (SdkGetAgent newAgentId) (S n)
    /\ (n <= 3)%nat
    /\ (length (requests (snd (step6 w newAgentId h))) <= 4)%nat
    /\ (found = None -> n = 3%nat)
    /\ hasLog notFoundWarning (snd (step6 w newAgentId h)) = absent found.
Proof.
  unfold step6.
  destruct (query_run w newAgentId
              (h ++ [Log "STEP 6: Verify Agent Registration via Subgraph"])%list)
    as (first & tq & Eq & Tq & Rq & Wq).
  destruct first as [agent |].
  - exists 0%nat, (Some agent).
    erewrite Run.bind_ok;
      [ | reflexivity
        | eapply Run.bind_ok;
          [ exact Eq
          | eapply Run.bind_ok; [ reflexivity | eapply Run.bind_ok; reflexivity ] ] ].
    cbn [fst snd].
    rewrite !Run.timeline_app, !Run.requests_app, !Run.hasLog_app, Tq, Rq, Wq.
    cbn. repeat split; auto; try lia; discriminate.
  - destruct (retry_run w newAgentId 3 0
                (((h ++ [Log "STEP 6: Verify Agent Registration via Subgraph"]) ++ tq)
                   ++ [Log "Agent not found yet, waiting for subgraph to index..."])%list)
      as (n & found & tr & Er & Tr & Rr & Wr & Hn & Hnone).
    exists n, found.
    destruct found as [agent |];
      (erewrite Run.bind_ok;
       [ | reflexivity
         | eapply Run.bind_ok;
           [ exact Eq
           | eapply Run.bind_ok;
             [ eapply Run.bind_ok; [ reflexivity | exact Er ]
             | eapply Run.bind_ok; reflexivity ] ] ]);
      cbn [fst snd];
      rewrite !Run.timeline_app, !Run.requests_app, !Run.hasLog_app, Tq, Rq, Wq, Tr, Rr, Wr;
      cbn; rewrite ?app_nil_r, ?repeat_length;
      repeat split; auto; try lia; try discriminate.
Qed.

(** Three runs of the step: the agent is indexed at once (1 lookup, no
    wait); it is indexed after two misses (3 lookups); it is never
    indexed (4 lookups, then the warning, and the step still returns: the
    whole run then exits with status 0). *)
Example polling_runs :
  timeline (snd (run (step6 Worlds.happy "11155111:7")))
  = [Call (SdkGetAgent "11155111:7"); Log "Agent found in subgraph"]
  /\ timeline (snd (run (step6 (Worlds.indexedAfter 2) "11155111:7")))
     = [Call (SdkGetAgent "11155111:7");
        Sleep 10000; Call (SdkGetAgent "11155111:7");
        Sleep 10000; Call (SdkGetAgent "11155111:7");
        Log "Agent found in subgraph"]
  /\ timeline (snd (run (step6 Worlds.neverIndexed "11155111:7")))
     = [Call (SdkGetAgent "11155111:7");
        Sleep 10000; Call (SdkGetAgent "11155111:7");
        Sleep 10000; Call (SdkGetAgent "11155111:7");
        Sleep 10000; Call (SdkGetAgent "11155111:7")]
  /\ fst (run (step6 Worlds.neverIndexed "11155111:7")) = Ok None
  /\ hasLog notFoundWarning (snd (run (step6 Worlds.neverIndexed "11155111:7"))) = true
  /\ fst (run (program Worlds.neverIndexed Worlds.fullEnv)) = Exited 0.
Proof. repeat split; reflexivity. Qed.

End PollingProps.

(** ** The lifecycle as a whole *)

Module LifecycleProps.

Import FullFlowMcp.

(** Scripts only add the events they are written to add: under the
    assumption that [P] accepts the console lines, the waits and the
    requests a script sends, the script is tame for [P]. *)
Section Tame.

Variable w : World.
Variable env : Env.
Variable P : Event -> bool.
Hypothesis P_log : forall s, P (Log s) = true.
Hypothesis P_sleep : forall ms, P (Sleep ms) = true.
Hypothesis P_http : forall url, P (Call (HttpGet url)) = true.
Hypothesis P_rpc : forall url m id, P (Call (JsonRpc url m id)) = true.
Hypothesis P_address : forall a, P (Call (SignerGetAddress a)) = true.
Hypothesis P_balance : forall a, P (Call (ProviderGetBalance a)) = true.
Hypothesis P_chainId : P (Call SdkChainId) = true.
Hypothesis P_registries : P (Call SdkRegistries) = true.
Hypothesis P_search : P (Call SdkSearchAgents) = true.
Hypothesis P_create : forall n d i, P (Call (SdkCreateAgent n d i)) = true.
Hypothesis P_setMCP : forall u v a, P (Call (AgentSetMCP u v a)) = true.
Hypothesis P_caps : forall t p r, P (Call (AgentSetMcpCapabilities t p r)) = true.
Hypothesis P_active : forall b, P (Call (AgentSetActive b)) = true.
Hypothesis P_register : P (Call AgentRegisterIPFS) = true.
Hypothesis P_getAgent : forall id, P (Call (SdkGetAgent id)) = true.
Hypothesis P_loadAgent : forall id, P (Call (SdkLoadAgent id)) = true.
Hypothesis P_prepare : forall id sc tags, P (Call (SdkPrepareFeedback id sc tags)) = true.
Hypothesis P_give : forall id s, P (Call (SdkGiveFeedback id s)) = true.
Hypothesis P_searchFeedback : forall id t, P (Call (SdkSearchFeedback id t)) = true.
Hypothesis P_reputation : forall id t, P (Call (SdkGetReputationSummary id t)) = true.
Hypothesis P_getFeedback : forall id r i, P (Call (SdkGetFeedback id r i)) = true.

Lemma tame_testMCPConnectivity url : tame P (testMCPConnectivity w url).
Proof. spec_auto. Qed.

Lemma tame_queryAgentFromSubgraph id : tame P (queryAgentFromSubgraph w id).
Proof. spec_auto. Qed.

Lemma tame_searchAgentsInSubgraph : tame P (searchAgentsInSubgraph w).
Proof. spec_auto. Qed.

Lemma tame_queryFeedbackFromSubgraph id : tame P (queryFeedbackFromSubgraph w id).
Proof. spec_auto. Qed.

Lemma tame_probe kind noun id pick : tame P (probe w kind noun id pick).
Proof. spec_auto. Qed.

Hint Resolve tame_testMCPConnectivity tame_queryAgentFromSubgraph
  tame_searchAgentsInSubgraph tame_queryFeedbackFromSubgraph tame_probe : tame.

Lemma tame_configureMcp : tame P (configureMcp w).
Proof. spec_auto. Qed.

Lemma tame_showIpfsContent file : tame P (showIpfsContent w file).
Proof. spec_auto. Qed.

Lemma tame_banner : tame P banner.
Proof. spec_auto. Qed.

Lemma tame_configure : tame P (configure w env).
Proof. spec_auto. Qed.

Lemma tame_step1 : tame P (step1 w).
Proof. spec_auto. Qed.

Lemma tame_step2 rpcUrl signer feedbackSigner :
  tame P (step2 w env rpcUrl signer feedbackSigner).
Proof. spec_auto. Qed.

Lemma tame_step3 : tame P (step3 w).
Proof. spec_auto. Qed.

Lemma tame_step4 : tame P (step4 w).
Proof. pose proof tame_configureMcp. spec_auto. Qed.

Lemma tame_step5 sdk : tame P (step5 w sdk).
Proof. pose proof tame_showIpfsContent. spec_auto. Qed.

Lemma tame_waitForIndexing : tame P waitForIndexing.
Proof. spec_auto. Qed.

Lemma tame_retryLookup left : forall i id, tame P (retryLookup w left i id).
Proof.
  induction left as [| left IH]; intros i id; cbn [retryLookup]; spec_auto.
  apply IH.
Qed.

Hint Resolve tame_retryLookup : tame.

Lemma tame_step6 id : tame P (step6 w id).
Proof. spec_auto. Qed.

Lemma tame_step7 id : tame P (step7 w id).
Proof. spec_auto. Qed.

Lemma tame_step8_skipped id : tame P (step8 w id None).
Proof. spec_auto. Qed.

Lemma tame_step10 id fs feedback : tame P (step10 w id fs feedback).
Proof. spec_auto. Qed.

Lemma tame_feedbackFlow score id fs : tame P (feedbackFlow w score id fs).
Proof. pose proof tame_step10. spec_auto. Qed.

Lemma tame_step8 id feedbackSigner : tame P (step8 w id feedbackSigner).
Proof. pose proof tame_feedbackFlow. spec_auto. Qed.

Lemma tame_step11 id feedbackSigner : tame P (step11 w id feedbackSigner).
Proof. spec_auto. Qed.

End Tame.

(** What [main] and the process make of the outcome of [main]'s body. *)

Lemma main_returns w env h t :
  mainBody w env h = (Ok tt, t) -> main w env h = (Ok tt, t).
Proof. intros H. unfold main. apply Run.tryCatch_ok. exact H. Qed.

Lemma main_fatal w env h t e :
  mainBody w env h = (Throw e, t) ->
  main w env h = (Exited 1, (t ++ fatalReport e)%list).
Proof.
  intros H. unfold main. eapply Run.tryCatch_caught; [exact H |].
  unfold fatalReport.
  destruct (stackOf e); reflexivity.
Qed.

Lemma program_completes w env t :
  mainBody w env preamble = (Ok tt, t) ->
  run (program w env)
  = (Exited 0, (preamble ++ t ++ [Log "All tests completed successfully"; Exit 0])%list).
Proof.
  intros H. apply main_returns in H. unfold preamble in *.
  cbv [run program bind log sleep emit tryCatch exit app].
  rewrite H. reflexivity.
Qed.

Lemma program_fails w env t e :
  mainBody w env preamble = (Throw e, t) ->
  run (program w env) = (Exited 1, (preamble ++ t ++ fatalReport e)%list).
Proof.
  intros H. apply main_fatal in H. unfold preamble in *.
  cbv [run program bind log sleep emit tryCatch exit app].
  rewrite H. reflexivity.
Qed.

Lemma avoiding_fatalReport bad e : forallb (avoiding bad) (fatalReport e) = true.
Proof. unfold fatalReport. destruct (stackOf e); reflexivity. Qed.

(** A body that is tame: the whole run is, and the process exits with
    status 0 or 1. *)
Lemma program_of_tame_body w env bad :
  tame (avoiding bad) (mainBody w env) ->
  forallb (avoiding bad) (snd (run (program w env))) = true
  /\ (fst (run (program w env)) = Exited 0 \/ fst (run (program w env)) = Exited 1).
Proof.
  intros H. destruct (H preamble) as [Ht Ho].
  destruct (mainBody w env preamble) as [[[] | e | c] t] eqn:Eb;
    cbn [fst snd] in Ht, Ho; [| | contradiction].
  - rewrite (program_completes w env t Eb). cbn [fst snd].
    rewrite !forallb_app, Ht. auto.
  - rewrite (program_fails w env t e Eb). cbn [fst snd].
    rewrite !forallb_app, Ht, avoiding_fatalReport. auto.
Qed.

(** A body that never returns: the process exits with status 1. *)
Lemma program_of_failing_body w env bad :
  spec (avoiding bad) (fun _ => False) (fun _ => True) (mainBody w env) ->
  fst (run (program w env)) = Exited 1
  /\ forallb (avoiding bad) (snd (run (program w env))) = true.
Proof.
  intros H. destruct (H preamble) as [Ht Ho].
  destruct (mainBody w env preamble) as [[[] | e | c] t] eqn:Eb;
    cbn [fst snd] in Ht, Ho; try contradiction.
  rewrite (program_fails w env t e Eb). cbn [fst snd].
  rewrite !forallb_app, Ht, avoiding_fatalReport. auto.
Qed.

(** Uses of the tameness lemmas at a predicate that computes. *)
Ltac tame_by lemma := apply lemma; intros; reflexivity.

Section Guards.

Variable w : World.
Variable env : Env.

Let P := avoiding isRegistration.

(** Without a pinning credential the body stops at the content-storage
    guard, at the latest. *)
Lemma body_fails_without_ipfs :
  envGet (PINATA_JWT env) = None ->
  spec P (fun _ => False) (fun _ => True) (mainBody w env).
Proof.
  intros Hjwt. unfold mainBody.
  apply spec_seq; [tame_by tame_banner | intros _].
  apply spec_seq; [tame_by tame_configure | intros [[rpcUrl signer] feedbackSigner]].
  apply spec_seq; [tame_by tame_step1 | intros _].
  apply spec_bind with (Q := fun s : FluidSDK * Z => ipfsClient (fst s) = false).
  { unfold step2. rewrite Hjwt.
    apply spec_seq; [spec_auto | intros _].
    apply spec_bind with (Q := fun c : SdkConfig => cfg_ipfs c = None);
      [spec_auto | intros sdkConfig Hc].
    spec_auto. cbn. rewrite Hc. reflexivity. }
  intros [sdk chainId] Hsdk. cbn in Hsdk.
  apply spec_seq; [tame_by tame_step3 | intros _].
  apply spec_seq; [tame_by tame_step4 | intros agentName].
  apply spec_bind with (Q := fun _ : string => False); [| intros a []].
  unfold step5.
  apply spec_seq; [spec_auto | intros _].
  apply spec_seq; [spec_auto | intros _].
  apply spec_bind with (Q := fun _ : unit => False); [| intros a []].
  unfold ipfsGuard. rewrite Hsdk. cbn. spec_auto.
Qed.

(** With an empty owner wallet the body stops at the balance precheck,
    at the latest. *)
Lemma body_fails_without_funds :
  ownerHasNoFunds w env ->
  spec P (fun _ => False) (fun _ => True) (mainBody w env).
Proof.
  intros Hfunds. unfold mainBody.
  apply spec_seq; [tame_by tame_banner | intros _].
  apply spec_bind with
    (Q := fun cfg : string * Wallet * option Wallet =>
            exists key, envGet (PRIVATE_KEY env) = Some key
                        /\ w_newWallet w key = Val (snd (fst cfg))).
  { unfold configure.
    destruct (envGet (RPC_URL env)) as [rpcUrl |]; [| spec_auto].
    destruct (envGet (PRIVATE_KEY env)) as [key |] eqn:Hkey; [| spec_auto].
    apply spec_bind with (Q := fun s => w_newWallet w key = Val s);
      [spec_auto | intros signer Hsigner].
    spec_auto; cbn; eauto. }
  intros [[rpcUrl signer] feedbackSigner] (key & Hkey & Hsigner). cbn in Hsigner.
  apply spec_seq; [tame_by tame_step1 | intros _].
  apply spec_bind with (Q := fun _ : FluidSDK * Z => False); [| intros a []].
  unfold step2.
  apply spec_seq; [spec_auto | intros _].
  apply spec_seq; [spec_auto | intros sdkConfig].
  apply spec_seq; [spec_auto | intros _].
  apply spec_seq; [spec_auto | intros chainId].
  apply spec_bind with (Q := fun balance : Z => balance = 0).
  { apply spec_ask; [reflexivity | | auto].
    intros h balance Hb. exact (Hfunds key signer h balance Hkey Hsigner Hb). }
  intros balance ->.
  apply spec_seq; [spec_auto | intros _].
  apply spec_bind with (Q := fun _ : unit => False); [| intros a []].
  unfold balanceGuard. cbn. spec_auto.
Qed.

End Guards.

(** C6. Whenever no pinning credential is configured, or the owner's
    balance reads zero (the threshold of the precheck), the run ends
    with exit status 1 and never sends the registration; the
    content-storage guard and the balance precheck each throw whenever
    they are reached in that state. *)
Theorem registration_guards (w : World) (env : Env) :
  envGet (PINATA_JWT env) = None \/ ownerHasNoFunds w env ->
  fst (run (program w env)) = Exited 1
  /\ forallb (avoiding isRegistration) (snd (run (program w env))) = true
  /\ (forall sdk h,
        ipfsClient sdk = false ->
        ipfsGuard sdk h
        = (Throw (JsError "IPFS client not configured - cannot register agent" "Error"), []))
  /\ (forall h,
        fst (balanceGuard 0 h)
        = Throw (JsError "Insufficient balance for testing" "Error")).
Proof.
  intros H.
  assert (Hbody : spec (avoiding isRegistration) (fun _ => False) (fun _ => True)
                       (mainBody w env)).
  { destruct H as [H | H];
      [apply body_fails_without_ipfs | apply body_fails_without_funds]; exact H. }
  destruct (program_of_failing_body w env isRegistration Hbody) as [Hexit Htrace].
  split; [exact Hexit |].
  split; [exact Htrace |].
  split.
  - intros sdk h Hsdk. unfold ipfsGuard. rewrite Hsdk. reflexivity.
  - intros h. reflexivity.
Qed.

(** The theorem without a pinning credential, and with an empty owner
    wallet: both runs are fatal, on the error of the guard, and send no
    registration. *)
Lemma registration_guards_witness :
  (fst (run (program Worlds.happy Worlds.noIpfsEnv)) = Exited 1
   /\ forallb (avoiding isRegistration) (snd (run (program Worlds.happy Worlds.noIpfsEnv)))
      = true
   /\ In (LogError "IPFS client not configured - cannot register agent")
         (snd (run (program Worlds.happy Worlds.noIpfsEnv))))
  /\ (fst (run (program Worlds.broke Worlds.fullEnv)) = Exited 1
      /\ forallb (avoiding isRegistration) (snd (run (program Worlds.broke Worlds.fullEnv)))
         = true
      /\ In (LogError "Insufficient balance for testing")
            (snd (run (program Worlds.broke Worlds.fullEnv)))).
Proof.
  split.
  - pose proof (registration_guards Worlds.happy Worlds.noIpfsEnv (or_introl eq_refl))
      as (H1 & H2 & _).
    split; [exact H1 |]. split; [exact H2 |].
    vm_compute. tauto.
  - assert (Hfunds : ownerHasNoFunds Worlds.broke Worlds.fullEnv).
    { intros key owner h balance Hkey Howner Hb.
      injection Hkey as <-. injection Howner as <-.
      cbn in Hb. injection Hb as <-. reflexivity. }
    pose proof (registration_guards Worlds.broke Worlds.fullEnv (or_intror Hfunds))
      as (H1 & H2 & _).
    split; [exact H1 |]. split; [exact H2 |].
    vm_compute. tauto.
Defined.

Section OneSigner.

Variable w : World.
Variable env : Env.
Hypothesis no_second_signer : envGet (FEEDBACK_PRIVATE_KEY env) = None.

(** The configuration detects the missing second signer: it returns no
    reviewer's signer, and it has written the warning. *)
Lemma configure_reports h cfg t :
  configure w env h = (Ok cfg, t) ->
  snd cfg = None /\ hasLog secondSignerWarning t = true.
Proof.
  unfold configure. rewrite no_second_signer.
  destruct (envGet (RPC_URL env)) as [rpcUrl |]; [| discriminate].
  destruct (envGet (PRIVATE_KEY env)) as [key |]; [| discriminate].
  exec. destruct (w_newWallet w key) as [signer | e]; cbn; [| discriminate].
  intros H. injection H as <- <-. split; reflexivity.
Qed.

Lemma configure_no_reviewer :
  spec (avoiding isFeedbackWrite) (fun cfg => snd cfg = None) (fun _ => True)
       (configure w env).
Proof.
  unfold configure. rewrite no_second_signer.
  destruct (envGet (RPC_URL env)) as [rpcUrl |]; [| spec_auto].
  destruct (envGet (PRIVATE_KEY env)) as [key |]; [| spec_auto].
  apply spec_seq; [spec_auto | intros signer].
  apply spec_bind with (Q := fun fs : option Wallet => fs = None);
    [spec_auto | intros fs ->; spec_auto].
Qed.

(** With one signer the body never prepares nor submits a feedback. *)
Lemma body_without_second_signer : tame (avoiding isFeedbackWrite) (mainBody w env).
Proof.
  unfold tame, mainBody.
  apply spec_seq; [tame_by tame_banner | intros _].
  eapply spec_bind; [apply configure_no_reviewer |].
  intros [[rpcUrl signer] feedbackSigner] Hfs. cbn in Hfs. subst feedbackSigner.
  apply spec_seq; [tame_by tame_step1 | intros _].
  apply spec_seq; [tame_by tame_step2 | intros [sdk chainId]].
  apply spec_seq; [tame_by tame_step3 | intros _].
  apply spec_seq; [tame_by tame_step4 | intros agentName].
  apply spec_seq; [tame_by tame_step5 | intros newAgentId].
  apply spec_seq; [tame_by tame_waitForIndexing | intros _].
  apply spec_seq; [tame_by tame_step6 | intros _].
  apply spec_seq; [tame_by tame_step7 | intros _].
  apply spec_seq; [tame_by tame_step8_skipped | intros _].
  tame_by tame_step11.
Qed.

(** A body that returns has written both reports. *)
Lemma body_reports h t :
  mainBody w env h = (Ok tt, t) ->
  hasLog secondSignerWarning t = true /\ hasLog feedbackSkipped t = true.
Proof.
  unfold mainBody. intros H.
  apply Run.bind_inv_ok in H. destruct H as (_ & tb & t1 & _ & H & ->).
  apply Run.bind_inv_ok in H. destruct H as ([[rpcUrl signer] fs] & tc & t2 & Hc & H & ->).
  apply configure_reports in Hc. destruct Hc as [Hfs Hwarn]. cbn in Hfs. subst fs.
  apply Run.bind_inv_ok in H. destruct H as (_ & ts1 & t3 & _ & H & ->).
  apply Run.bind_inv_ok in H. destruct H as ([sdk chainId] & ts2 & t4 & _ & H & ->).
  apply Run.bind_inv_ok in H. destruct H as (_ & ts3 & t5 & _ & H & ->).
  apply Run.bind_inv_ok in H. destruct H as (agentName & ts4 & t6 & _ & H & ->).
  apply Run.bind_inv_ok in H. destruct H as (newAgentId & ts5 & t7 & _ & H & ->).
  apply Run.bind_inv_ok in H. destruct H as (_ & tw & t8 & _ & H & ->).
  apply Run.bind_inv_ok in H. destruct H as (_ & ts6 & t9 & _ & H & ->).
  apply Run.bind_inv_ok in H. destruct H as (_ & ts7 & t10 & _ & H & ->).
  apply Run.bind_inv_ok in H. destruct H as ([] & ts8 & t11 & H8 & H & ->).
  injection H8 as <-.
  rewrite !Run.hasLog_app, Hwarn.
  split; [apply orb_true_r |].
  cbn. rewrite !orb_true_r. reflexivity.
Qed.

End OneSigner.

(** ** The feedback flow *)

(** C7. A score outside 1..5 is rejected by the SDK's validation
    (modelled from the spec), never clamped; the feedback flow catches
    the rejection, writes it to the console and returns normally, so the
    run goes on with the next step; nothing is submitted. *)
Theorem out_of_range_score_is_reported
    (w : World) (score : Z) (newAgentId : string) (feedbackSigner : Wallet) (h : Trace) :
  score < 1 \/ 5 < score ->
  (forall tags h', fst (prepareFeedback w newAgentId score tags h') = Throw scoreRejected)
  /\ fst (feedbackFlow w score newAgentId feedbackSigner h) = Ok tt
  /\ forallb (avoiding isSubmission) (snd (feedbackFlow w score newAgentId feedbackSigner h))
     = true
  /\ (exists e,
        hasLog (flowError e) (snd (feedbackFlow w score newAgentId feedbackSigner h)) = true)
  /\ (forall reviewer,
        w_getAddress w (SignerGetAddress (address feedbackSigner))
          (h ++ [Log "This will cost gas!"])%list = Val reviewer ->
        snd (feedbackFlow w score newAgentId feedbackSigner h)
        = [Log "This will cost gas!";
           Call (SignerGetAddress (address feedbackSigner));
           Call (SdkPrepareFeedback newAgentId score ["mcp"; "integration"; "test"]);
           Log (flowError scoreRejected);
           Log "Stack trace: Error"]).
Proof.
  intros Hscore.
  assert (Hinvalid : validScore score = false).
  { unfold validScore. apply andb_false_iff.
    destruct Hscore; [left; apply Z.leb_gt | right; apply Z.leb_gt]; lia. }
  split.
  { intros tags h'. unfold prepareFeedback, call. rewrite Hinvalid. reflexivity. }
  unfold feedbackFlow, prepareFeedback. exec. rewrite Hinvalid.
  destruct (w_getAddress w (SignerGetAddress (address feedbackSigner))
              (h ++ [Log "This will cost gas!"])%list) as [reviewer | e] eqn:Ea; cbn.
  - repeat split; try reflexivity.
    + exists scoreRejected. reflexivity.
  - destruct (stackOf e); cbn; repeat split; try reflexivity;
      try (exists e; unfold flowError; cbn; rewrite String.eqb_refl; reflexivity);
      intros reviewer Hr; discriminate Hr.
Qed.

(** The theorem at the score 6. *)
Lemma out_of_range_score_is_reported_witness :
  fst (feedbackFlow Worlds.happy 6 "11155111:7" {| address := "0xb2" |} []) = Ok tt
  /\ snd (feedbackFlow Worlds.happy 6 "11155111:7" {| address := "0xb2" |} [])
     = [Log "This will cost gas!";
        Call (SignerGetAddress "0xb2");
        Call (SdkPrepareFeedback "11155111:7" 6 ["mcp"; "integration"; "test"]);
        Log "Error in feedback flow: Score must be between 1 and 5";
        Log "Stack trace: Error"].
Proof.
  pose proof (out_of_range_score_is_reported Worlds.happy 6 "11155111:7"
                {| address := "0xb2" |} [] (or_intror eq_refl))
    as (_ & H2 & _ & _ & H5).
  split; [exact H2 |].
  apply (H5 "0xb2"). reflexivity.
Defined.

(** ** The three read queries on a feedback *)

(** The sibling script puts each query under its own [try]: the three
    requests are always sent, and the step returns. *)
Lemma sibling_queries_are_independent
    (w : World) (agentId : string) (signer : Wallet) (feedback : Feedback) (h : Trace) :
  fst (FullFlow.verifyFeedback w agentId signer feedback h) = Ok tt
  /\ requests (snd (FullFlow.verifyFeedback w agentId signer feedback h))
     = [SdkGetFeedback agentId (address signer) (FullFlow.feedbackIndex (fb_id feedback));
        SdkSearchFeedback agentId (Some ["test"]);
        SdkGetReputationSummary agentId (Some "test")].
Proof.
  unfold FullFlow.verifyFeedback, FullFlow.retrieveFeedback, FullFlow.searchAgentFeedback,
    FullFlow.reputationSummary.
  exec. repeat oracle; split; reflexivity.
Qed.

(** C3: what the code does where the claim fails.  In
    [queryFeedbackFromSubgraph] the filtered search and the reputation
    summary share one [try]: whenever the search throws, the summary is
    not requested and nothing is reported for it; the only console line
    is the one of the failed search. *)
Theorem search_failure_suppresses_summary
    (w : World) (agentId : string) (h : Trace) (e : exn) :
  w_searchFeedback w (SdkSearchFeedback agentId None)
    (h ++ [Log ("Querying feedback from subgraph for agent: " ++ agentId)])%list = Err e ->
  queryFeedbackFromSubgraph w agentId h
  = (Ok tt, [Log ("Querying feedback from subgraph for agent: " ++ agentId);
             Call (SdkSearchFeedback agentId None);
             Log ("Feedback query failed: " ++ describe e)])
  /\ requests (snd (queryFeedbackFromSubgraph w agentId h))
     = [SdkSearchFeedback agentId None].
Proof.
  intros He.
  assert (Hrun : queryFeedbackFromSubgraph w agentId h
                 = (Ok tt, [Log ("Querying feedback from subgraph for agent: " ++ agentId);
                            Call (SdkSearchFeedback agentId None);
                            Log ("Feedback query failed: " ++ describe e)])).
  { unfold queryFeedbackFromSubgraph. exec. rewrite He. reflexivity. }
  split; [exact Hrun |].
  rewrite Hrun. reflexivity.
Qed.

(** The theorem where the subgraph's search is down and its summary
    would answer. *)
Lemma search_failure_suppresses_summary_witness :
  requests (snd (run (queryFeedbackFromSubgraph Worlds.searchDown "11155111:7")))
  = [SdkSearchFeedback "11155111:7" None].
Proof.
  apply (proj2 (search_failure_suppresses_summary Worlds.searchDown "11155111:7" []
                  (JsError "subgraph unavailable" "Error") eq_refl)).
Defined.

(** The same failing input through the whole run and through the
    sibling script: the summary would have answered; the run of the
    script never requests it, and still makes the direct lookup; the
    sibling script sends its three requests. *)
Example search_down_runs :
  logged (snd (run (queryFeedbackFromSubgraph Worlds.searchDown "11155111:7")))
  = ["Querying feedback from subgraph for agent: 11155111:7";
     "Feedback query failed: subgraph unavailable"]
  /\ (forall h,
        w_getReputationSummary Worlds.searchDown
          (SdkGetReputationSummary "11155111:7" None) h
        = Val {| rep_count := 1; rep_averageScore := Num 5%float |})
  /\ existsb (isCall (fun r => match r with SdkGetFeedback _ _ _ => true | _ => false end))
             (snd (run (program Worlds.searchDown Worlds.fullEnv))) = true
  /\ existsb (isCall (fun r => match r with
                                | SdkGetReputationSummary _ _ => true
                                | _ => false
                                end))
             (snd (run (program Worlds.searchDown Worlds.fullEnv))) = false
  /\ requests (snd (run (FullFlow.verifyFeedback Worlds.searchDown "11155111:7"
                           {| address := "0xa1" |}
                           (Worlds.sampleFeedback Worlds.feedbackId))))
     = [SdkGetFeedback "11155111:7" "0xa1" (Num 4%float);
        SdkSearchFeedback "11155111:7" (Some ["test"]);
        SdkGetReputationSummary "11155111:7" (Some "test")].
Proof. repeat split; reflexivity. Qed.

(** ** The number of lookups of a whole run *)

Section Lookups.







(** The body never exits the process by itself. *)
Lemma mainBody_does_not_exit (w : World) (env : Env) :
  tame (fun _ => true) (mainBody w env).
Proof.
  unfold tame, mainBody.
  apply spec_seq; [tame_by tame_banner | intros _].
  apply spec_seq; [tame_by tame_configure | intros [[rpcUrl signer] feedbackSigner]].
  apply spec_seq; [tame_by tame_step1 | intros _].
  apply spec_seq; [tame_by tame_step2 | intros [sdk chainId]].
  apply spec_seq; [tame_by tame_step3 | intros _].
  apply spec_seq; [tame_by tame_step4 | intros agentName].
  apply spec_seq; [tame_by tame_step5 | intros newAgentId].
  apply spec_seq; [tame_by tame_waitForIndexing | intros _].
  apply spec_seq; [tame_by tame_step6 | intros _].
  apply spec_seq; [tame_by tame_step7 | intros _].
  apply spec_seq; [tame_by tame_step8 | intros _].
  tame_by tame_step11.
Qed.



End Lookups.


End LifecycleProps.

(** ** The read-only mode *)

Module ReadOnlyProps.

Import IndexTest.

Section NoSigner.

Variable w : World.
Variable env : Env.
Hypothesis no_key : envGet (PRIVATE_KEY env) = None.

Lemma tame_withTestAgent {A} (P : Event -> bool) (query : string -> M A)
    (found : A -> string) (failed : string) E :
  (forall s, P (Log s) = true) ->
  (forall id, tame P (query id)) ->
  spec P (fun _ => True) E (withTestAgent env query found failed).
Proof. intros Hlog Hq. unfold withTestAgent. spec_auto. apply Hq. Qed.

(** Without a private key the body sends no write operation and does
    not enter the write section; and it throws only what the chain, the
    registries or the creation of the agent object throw. *)
Lemma body_read_only (E : exn -> Prop) :
  (forall h e, w_chainId w SdkChainId h = Err e -> E e) ->
  (forall h e, w_registries w SdkRegistries h = Err e -> E e) ->
  (forall req h e, w_createAgent w req h = Err e -> E e) ->
  spec (avoiding isWriteOperation) (fun _ => True) E (mainBody w env).
Proof.
  intros Hchain Hreg Hcreate.
  unfold mainBody. rewrite no_key.
  apply spec_seq; [spec_auto | intros _].
  apply spec_bind with (Q := fun signer : option Wallet => signer = None);
    [spec_auto | intros signer ->].
  cbn [newFluidSDK cfg_signer isReadOnly negb when].
  repeat (apply spec_seq; [ | intros ? ]);
    try (apply tame_withTestAgent; [reflexivity | intros; spec_auto]);
    spec_auto.
Qed.

(** The run starts in read-only mode, and reads the chain. *)
Lemma body_starts_read_only (h : Trace) :
  exists rest, snd (mainBody w env h) = (readOnlyStart ++ rest)%list.
Proof.
  unfold mainBody. rewrite no_key.
  erewrite Run.trace_bind_ok by reflexivity.
  erewrite Run.trace_bind_ok by reflexivity.
  erewrite Run.trace_bind_ok by reflexivity.
  erewrite Run.trace_bind_ok by reflexivity.
  match goal with
  | |- context [bind (ask (w_chainId w) SdkChainId) ?k ?hh] =>
      destruct (w_chainId w SdkChainId hh) as [chain | e] eqn:Ec;
        [ erewrite (Run.trace_bind_ok (ask (w_chainId w) SdkChainId) k hh)
            by (unfold ask, call; rewrite Ec; reflexivity)
        | replace (snd (bind (ask (w_chainId w) SdkChainId) k hh)) with [Call SdkChainId]
            by (unfold bind, ask, call; rewrite Ec; reflexivity) ]
  end.
  - eexists. reflexivity.
  - exists []. reflexivity.
Qed.

(** Once the chain has answered, the flag is printed as [true] and the
    registries are read. *)
Lemma body_reports_flag (h : Trace) :
  (forall h' e, w_chainId w SdkChainId h' <> Err e) ->
  exists rest,
    snd (mainBody w env h)
    = (readOnlyStart ++ [Log "Read-only mode: true"; Call SdkRegistries] ++ rest)%list.
Proof.
  intros Hchain.
  unfold mainBody. rewrite no_key.
  erewrite Run.trace_bind_ok by reflexivity.
  erewrite Run.trace_bind_ok by reflexivity.
  erewrite Run.trace_bind_ok by reflexivity.
  erewrite Run.trace_bind_ok by reflexivity.
  match goal with
  | |- context [bind (ask (w_chainId w) SdkChainId) ?k ?hh] =>
      destruct (w_chainId w SdkChainId hh) as [chain | e] eqn:Ec;
        [ erewrite (Run.trace_bind_ok (ask (w_chainId w) SdkChainId) k hh)
            by (unfold ask, call; rewrite Ec; reflexivity)
        | exfalso; exact (Hchain _ e Ec) ]
  end.
  erewrite Run.trace_bind_ok by reflexivity.
  match goal with
  | |- context [bind (ask (w_registries w) SdkRegistries) ?k ?hh] =>
      destruct (w_registries w SdkRegistries hh) as [regs | e] eqn:Er;
        [ erewrite (Run.trace_bind_ok (ask (w_registries w) SdkRegistries) k hh)
            by (unfold ask, call; rewrite Er; reflexivity)
        | replace (snd (bind (ask (w_registries w) SdkRegistries) k hh))
            with [Call SdkRegistries]
            by (unfold bind, ask, call; rewrite Er; reflexivity) ]
  end.
  - eexists. reflexivity.
  - exists []. reflexivity.
Qed.

End NoSigner.

(** With a private key the flag is printed as [false]. *)
Lemma body_reports_signer (w : World) (env : Env) (key : string) (s : Wallet) (h : Trace) :
  envGet (PRIVATE_KEY env) = Some key ->
  w_newWallet w key = Val s ->
  (forall h' e, w_chainId w SdkChainId h' <> Err e) ->
  exists rest,
    snd (mainBody w env h)
    = (signedStart s ++ [Log "Read-only mode: false"] ++ rest)%list.
Proof.
  intros Hkey Hwallet Hchain.
  unfold mainBody. rewrite Hkey.
  erewrite Run.trace_bind_ok by reflexivity.
  erewrite Run.trace_bind_ok
    by (unfold bind, lift; rewrite Hwallet; reflexivity).
  erewrite Run.trace_bind_ok by reflexivity.
  erewrite Run.trace_bind_ok by reflexivity.
  match goal with
  | |- context [bind (ask (w_chainId w) SdkChainId) ?k ?hh] =>
      destruct (w_chainId w SdkChainId hh) as [chain | e] eqn:Ec;
        [ erewrite (Run.trace_bind_ok (ask (w_chainId w) SdkChainId) k hh)
            by (unfold ask, call; rewrite Ec; reflexivity)
        | exfalso; exact (Hchain _ e Ec) ]
  end.
  erewrite Run.trace_bind_ok by reflexivity.
  eexists. reflexivity.
Qed.

Lemma main_extends_body (w : World) (env : Env) (h : Trace) :
  exists t, snd (main w env h) = (snd (mainBody w env h) ++ t)%list.
Proof. unfold main. apply Run.trace_tryCatch. Qed.

(** A prefix of the body's trace is a prefix of the run's. *)
Ltac extend_body Hbody :=
  let rest := fresh "rest" in
  let Hrest := fresh "Hrest" in
  let t := fresh "t" in
  let Ht := fresh "Ht" in
  destruct Hbody as [rest Hrest];
  match type of Hrest with
  | snd (mainBody ?w ?env ?h) = _ =>
      destruct (main_extends_body w env h) as [t Ht];
      exists (rest ++ t)%list; unfold run; rewrite Ht, Hrest;
      rewrite <- ?app_assoc; reflexivity
  end.

(** Without the key the full-flow script stops at its configuration. *)
Lemma full_flow_stops_without_key (w : World) (env : Env) :
  envGet (PRIVATE_KEY env) = None ->
  fst (run (FullFlowMcp.program w env)) = Exited 1
  /\ requests (snd (run (FullFlowMcp.program w env))) = [].
Proof.
  intros Hkey.
  assert (Hbody : exists e,
             FullFlowMcp.mainBody w env preamble
             = (Throw e, snd (FullFlowMcp.banner preamble))).
  { unfold FullFlowMcp.mainBody, FullFlowMcp.configure. rewrite Hkey.
    destruct (envGet (RPC_URL env)); eexists; reflexivity. }
  destruct Hbody as [e Hbody].
  rewrite (LifecycleProps.program_fails w env _ e Hbody). cbn [fst snd].
  split; [reflexivity |].
  rewrite !Run.requests_app. unfold fatalReport.
  destruct (stackOf e); reflexivity.
Qed.

(** C5 (amended). Without any private key the basic test runs in
    read-only mode: it says so, builds the SDK without a signer (a
    construction that cannot fail, with [isReadOnly] reporting [true]:
    modelled from the spec), reads the chain, prints the flag as [true]
    once the chain has answered, sends no write operation, and completes
    normally whenever the chain, the registries and the creation of the
    agent object answer: the absent key is not an error.  The flag
    follows the key: with a key that the wallet constructor accepts it
    is printed as [false].  The full-flow script is a write flow: there
    the absent key is fatal, before any request is sent. *)
Theorem read_only_mode_supported (w : World) (env : Env) :
  envGet (PRIVATE_KEY env) = None ->
  (forall cfg, cfg_signer cfg = None -> isReadOnly (newFluidSDK cfg) = true)
  /\ (exists rest, snd (run (main w env)) = (readOnlyStart ++ rest)%list)
  /\ forallb (avoiding isWriteOperation) (snd (run (main w env))) = true
  /\ ((forall h e, w_chainId w SdkChainId h <> Err e) ->
      exists rest,
        snd (run (main w env))
        = (readOnlyStart ++ [Log "Read-only mode: true"; Call SdkRegistries] ++ rest)%list)
  /\ ((forall h e, w_chainId w SdkChainId h <> Err e) ->
      (forall h e, w_registries w SdkRegistries h <> Err e) ->
      (forall req h e, w_createAgent w req h <> Err e) ->
      fst (run (main w env)) = Ok tt)
  /\ (forall env' key s,
        envGet (PRIVATE_KEY env') = Some key ->
        w_newWallet w key = Val s ->
        (forall h e, w_chainId w SdkChainId h <> Err e) ->
        exists rest,
          snd (run (main w env'))
          = (signedStart s ++ [Log "Read-only mode: false"] ++ rest)%list)
  /\ (fst (run (FullFlowMcp.program w env)) = Exited 1
      /\ requests (snd (run (FullFlowMcp.program w env))) = []).
Proof.
  intros Hkey.
  split.
  { intros cfg Hs. unfold newFluidSDK. cbn. rewrite Hs. reflexivity. }
  split; [pose proof (body_starts_read_only w env Hkey []) as Hb; extend_body Hb |].
  split.
  { pose proof (body_read_only w env Hkey (fun _ => True)
                  (fun _ _ _ => I) (fun _ _ _ => I) (fun _ _ _ _ => I)) as Hbody.
    unfold run, main, tryCatch.
    destruct (Hbody []) as [Ht Ho].
    destruct (mainBody w env []) as [[[] | e | c] t]; cbn [fst snd] in *;
      [exact Ht | | contradiction].
    exec. destruct (stackOf e); cbn; rewrite forallb_app, Ht; reflexivity. }
  split; [intros Hchain;
          pose proof (body_reports_flag w env Hkey [] Hchain) as Hb; extend_body Hb |].
  split.
  { intros Hchain Hreg Hcreate.
    pose proof (body_read_only w env Hkey (fun _ => False)
                  (fun h e H => Hchain h e H) (fun h e H => Hreg h e H)
                  (fun req h e H => Hcreate req h e H)) as Hbody.
    unfold run, main, tryCatch.
    destruct (Hbody []) as [_ Ho].
    destruct (mainBody w env []) as [[[] | e | c] t]; cbn [fst] in *;
      [reflexivity | contradiction | contradiction]. }
  split; [| apply full_flow_stops_without_key; exact Hkey].
  intros env' key s Hk Hw Hchain.
  pose proof (body_reports_signer w env' key s [] Hk Hw Hchain) as Hb. extend_body Hb.
Qed.

(** The theorem on a run without any private key, every collaborator
    answering. *)
Lemma read_only_mode_supported_witness :
  (exists rest,
      snd (run (main Worlds.happy Worlds.readOnlyEnv))
      = (readOnlyStart ++ [Log "Read-only mode: true"; Call SdkRegistries] ++ rest)%list)
  /\ fst (run (main Worlds.happy Worlds.readOnlyEnv)) = Ok tt
  /\ fst (run (FullFlowMcp.program Worlds.happy Worlds.readOnlyEnv)) = Exited 1.
Proof.
  pose proof (read_only_mode_supported Worlds.happy Worlds.readOnlyEnv eq_refl)
    as (_ & _ & _ & H4 & H5 & _ & H7 & _).
  split; [apply H4; intros h e H; discriminate H |].
  split; [apply H5; intros; discriminate | exact H7].
Defined.

(** C5, as stated, fails on the full-flow script: it is a write flow,
    it requires the key, and without it the run is fatal before any
    request is sent. *)
Example full_flow_requires_key :
  run (FullFlowMcp.program Worlds.happy Worlds.noKeyEnv)
  = (Exited 1,
     (preamble
        ++ snd (run FullFlowMcp.banner)
        ++ [LogError "FATAL ERROR";
            LogError "PRIVATE_KEY not set in .env file - write operations require a signer";
            LogError "Stack trace: Error";
            Exit 1])%list).
Proof. reflexivity. Qed.

End ReadOnlyProps.

(** ** The local MCP server: what is advertised is what is served *)

Module McpCatalogProps.

Import McpServer McpCatalog.

(** Case analysis on the next comparison of strings. *)
Ltac by_name :=
  match goal with
  | |- context [String.eqb ?x ?y] =>
      destruct (String.eqb_spec x y); subst; cbv beta iota
  end.

(** X1. The [calculate] tool computes exactly the operations that its
    input schema advertises.  Whatever the arguments, an operation that
    is not one of the advertised strings computes nothing: the handler
    renders it in the text "Error: Unknown operation <operation>" (a
    normal result), or throws the TypeError of an operation that cannot
    be rendered.  For an advertised operation on two numbers it never
    throws: it returns the line of the result, computed on the IEEE
    doubles, or, for a division by zero only, "Error: Division by
    zero".  A call without arguments throws a TypeError at the
    destructuring. *)
Theorem calculate_serves_the_advertised_operations
    (numberToString : float -> string) (mockWeatherText : value -> string)
    (coerced : string -> value -> value -> Result value)
    (fields : list (string * value)) :
  ((forall op, In op advertisedOperations -> lookup "operation" fields <> Str op) ->
     calculate numberToString coerced fields
     = rbind (toStr numberToString (lookup "operation" fields))
         (fun s => Val (textResult ("Error: Unknown operation " ++ s))))
  /\ (forall op,
        lookup "operation" fields = Str op -> ~ In op advertisedOperations ->
        calculate numberToString coerced fields
        = Val (textResult ("Error: Unknown operation " ++ op)))
  /\ (forall op x y,
        lookup "operation" fields = Str op -> In op advertisedOperations ->
        lookup "a" fields = Num x -> lookup "b" fields = Num y ->
        (op = "divide" /\ PrimFloat.eqb y 0%float = true
         /\ calculate numberToString coerced fields
            = Val (textResult "Error: Division by zero"))
        \/ (exists result,
              (op = "add" /\ result = (x + y)%float
               \/ op = "subtract" /\ result = (x - y)%float
               \/ op = "multiply" /\ result = (x * y)%float
               \/ op = "divide" /\ PrimFloat.eqb y 0%float = false
                  /\ result = (x / y)%float)
              /\ calculate numberToString coerced fields
                 = Val (textResult
                          ("Result: " ++ numberToString x ++ " " ++ op ++ " "
                             ++ numberToString y ++ " = " ++ numberToString result))))
  /\ callTool numberToString mockWeatherText coerced
       {| p_name := "calculate"; p_arguments := None |}
     = Err (typeError "Cannot destructure 'args' as it is undefined")
  /\ callTool numberToString mockWeatherText coerced
       {| p_name := "calculate"; p_arguments := Some fields |}
     = calculate numberToString coerced fields.
Proof.
  change advertisedOperations with ["add"; "subtract"; "multiply"; "divide"].
  unfold calculate, compute.
  split.
  { intros Hnot.
    assert (Hno : forall op, In op ["add"; "subtract"; "multiply"; "divide"] ->
                             isStr (lookup "operation" fields) op = false).
    { intros op Hop. specialize (Hnot op Hop).
      destruct (lookup "operation" fields); cbn; try reflexivity.
      destruct (String.eqb_spec s op); [subst; congruence | reflexivity]. }
    rewrite !Hno by (cbn; tauto).
    destruct (toStr numberToString (lookup "operation" fields)); reflexivity. }
  split.
  { intros op Hop Hnot. rewrite Hop. cbn [isStr toStr rbind].
    cbn [In] in Hnot.
    repeat by_name; try reflexivity; exfalso; tauto. }
  split.
  { intros op x y Hop Hin Hx Hy. rewrite Hop, Hx, Hy.
    cbn [isStr isZero arith rbind].
    cbn [In] in Hin.
    destruct Hin as [<- | [<- | [<- | [<- | []]]]]; cbn [String.eqb Ascii.eqb Bool.eqb];
      cbv beta iota.
    - right. eexists. split; [left; split; reflexivity | reflexivity].
    - right. eexists. split; [right; left; split; reflexivity | reflexivity].
    - right. eexists. split; [right; right; left; split; reflexivity | reflexivity].
    - destruct (PrimFloat.eqb y 0%float) eqn:Ey; cbv beta iota.
      + left. auto.
      + right. eexists. split; [right; right; right; auto | reflexivity]. }
  split; reflexivity.
Qed.

(** X2. The tool handler serves exactly the tools that the server
    lists.  A request for any other name is answered, as a normal
    result and whatever its arguments, with the text "Error: Unknown
    tool <name>".  A request for a listed name is dispatched to the case
    of that tool when it carries arguments, and throws a TypeError (at
    the destructuring) when it carries none.  The [echo] tool renders
    its message, whatever its type. *)
Theorem listed_tools_are_dispatched
    (numberToString : float -> string) (mockWeatherText : value -> string)
    (coerced : string -> value -> value -> Result value)
    (params : Params) :
  (~ In (p_name params) (map tool_name listTools) ->
     callTool numberToString mockWeatherText coerced params
     = Val (textResult ("Error: Unknown tool " ++ p_name params)))
  /\ (In (p_name params) (map tool_name listTools) ->
      p_arguments params = None ->
      callTool numberToString mockWeatherText coerced params
      = Err (typeError "Cannot destructure 'args' as it is undefined"))
  /\ (forall fields,
        In (p_name params) (map tool_name listTools) ->
        p_arguments params = Some fields ->
        (p_name params = "calculate"
         /\ callTool numberToString mockWeatherText coerced params
            = calculate numberToString coerced fields)
        \/ (p_name params = "get_weather"
            /\ callTool numberToString mockWeatherText coerced params
               = Val (textResult (mockWeatherText (lookup "location" fields))))
        \/ (p_name params = "echo"
            /\ callTool numberToString mockWeatherText coerced params
               = rbind (toStr numberToString (lookup "message" fields))
                   (fun s => Val (textResult ("Echo: " ++ s)))))
  /\ (forall fields message,
        p_name params = "echo" ->
        p_arguments params = Some fields ->
        lookup "message" fields = Str message ->
        callTool numberToString mockWeatherText coerced params
        = Val (textResult ("Echo: " ++ message)))
  /\ (forall e,
        callTool numberToString mockWeatherText coerced params = Err e ->
        In (p_name params) (map tool_name listTools)).
Proof.
  destruct params as [name args]. unfold callTool.
  cbn [p_name p_arguments map tool_name listTools In].
  split.
  { intros Hnot. repeat by_name; try reflexivity; exfalso; tauto. }
  split.
  { intros Hin ->. cbn [destructured rbind].
    repeat by_name; try reflexivity. exfalso. intuition congruence. }
  split.
  { intros fields Hin ->. cbn [destructured rbind].
    repeat by_name; try (exfalso; congruence); auto.
    exfalso. intuition congruence. }
  split.
  { intros fields message -> -> Hm. cbn [destructured rbind String.eqb Ascii.eqb Bool.eqb].
    cbv beta iota. rewrite Hm. reflexivity. }
  intros e. repeat by_name; auto.
  intros H. discriminate H.
Qed.

(** X3. The prompt handler serves exactly the prompts that the server
    lists, whatever the arguments: a listed prompt always gives one user
    message, also when an argument advertised as required is missing or
    empty, in which case its default is used ("User", "JavaScript",
    "medium"); any other name throws "Unknown prompt: <name>". *)
Theorem listed_prompts_are_served_with_defaults
    (name : string) (args : option (list (string * string))) :
  (In name (map prompt_name listPrompts) <->
     exists text, getPrompt name args = Val (userMessage text))
  /\ (~ In name (map prompt_name listPrompts) ->
      getPrompt name args = Err (JsError ("Unknown prompt: " ++ name) "Error"))
  /\ (envGet (argument "name" args) = None ->
      getPrompt "greeting" args = getPrompt "greeting" (Some [("name", "User")]))
  /\ (envGet (argument "language" args) = None ->
      envGet (argument "complexity" args) = None ->
      getPrompt "code_review" args
      = getPrompt "code_review" (Some [("language", "JavaScript"); ("complexity", "medium")]))
  /\ (forall k, In k (requiredArguments name) ->
      envGet (argument k args) = None ->
      exists text, getPrompt name args = Val (userMessage text)).
Proof.
  split.
  { unfold getPrompt. cbn [map prompt_name listPrompts In].
    repeat by_name; split; intros H; eauto; try tauto;
      try (destruct H as [text H]; discriminate H);
      exfalso; intuition congruence. }
  split.
  { unfold getPrompt. cbn [map prompt_name listPrompts In].
    repeat by_name; intros H; try reflexivity; exfalso; tauto. }
  split.
  { intros H. unfold getPrompt, argumentOr. cbn. rewrite H. reflexivity. }
  split.
  { intros H1 H2. unfold getPrompt, argumentOr. cbn. rewrite H1, H2. reflexivity. }
  intros k Hk _. unfold requiredArguments in Hk. unfold getPrompt.
  repeat by_name; eauto.
  exfalso. cbn [flat_map listPrompts prompt_name] in Hk.
  destruct (String.eqb_spec "greeting" name); [congruence |].
  destruct (String.eqb_spec "code_review" name); [congruence |].
  exact Hk.
Qed.

(** X4. The resource handler serves exactly the resources that the
    server lists: reading a listed URI gives one content, with that URI
    and with the mime type that the list advertises for it; reading any
    other URI throws "Unknown resource: <uri>". *)
Theorem listed_resources_are_read_as_advertised
    (configText statusText : string) (uri : string) :
  (In uri (map res_uri listResources) <-> advertisedMimeType uri <> None)
  /\ (forall mime,
        advertisedMimeType uri = Some mime ->
        exists text,
          readResource configText statusText uri
          = Val [ {| rc_uri := uri; rc_mimeType := mime; rc_text := text |} ])
  /\ (advertisedMimeType uri = None ->
      readResource configText statusText uri
      = Err (JsError ("Unknown resource: " ++ uri) "Error")).
Proof.
  unfold advertisedMimeType, readResource.
  cbn [map res_uri listResources In find].
  repeat by_name; cbn [option_map res_mimeType];
    try (exfalso; congruence);
    (split; [ split; intros H; try discriminate; try tauto; try congruence;
              try (exfalso; intuition congruence)
            | split; [ intros mime H; try discriminate H; injection H as <-; eauto
                     | intros H; try discriminate H; reflexivity ] ]).
Qed.

End McpCatalogProps.

(** ** Counting requests, and reaching them *)


Module Counting.

Lemma sent_app (p : Request -> bool) (t1 t2 : Trace) :
  sent p (t1 ++ t2)%list = (sent p t1 + sent p t2)%nat.
Proof. unfold sent. rewrite Run.requests_app, filter_app, length_app. reflexivity. Qed.

Lemma sent_avoiding (p : Request -> bool) (t : Trace) :
  forallb (avoiding p) t = true -> sent p t = 0%nat.
Proof.
  unfold sent.
  induction t as [| e t IH]; cbn; [reflexivity |].
  intros H. apply andb_true_iff in H. destruct H as [He Ht].
  destruct e as [s | s | ms | r | c]; cbn in *; auto.
  destruct (p r); [discriminate He | auto].
Qed.

Lemma no_call_of_avoiding (p : Request -> bool) (t : Trace) :
  forallb (avoiding p) t = true -> existsb (isCall p) t = false.
Proof.
  induction t as [| e t IH]; cbn; [reflexivity |].
  intros H. apply andb_true_iff in H. destruct H as [He Ht].
  rewrite (IH Ht), orb_false_r.
  destruct e as [s | s | ms | r | c]; cbn in *; auto.
  destruct (p r); [discriminate He | reflexivity].
Qed.

Lemma in_requests (r : Request) (t : Trace) : In (Call r) t <-> In r (requests t).
Proof.
  unfold requests. rewrite in_flat_map. split.
  - intros H. exists (Call r). cbn. auto.
  - intros (e & He & Hr). destruct e; cbn in Hr; try contradiction.
    destruct Hr as [-> | []]. exact He.
Qed.

Lemma sendsAtMost_tame {A} (p : Request -> bool) (m : M A) :
  tame (avoiding p) m -> sendsAtMost p 0 m.
Proof. intros H h. rewrite (sent_avoiding _ _ (proj1 (H h))). lia. Qed.

Lemma sendsAtMost_more {A} (p : Request -> bool) (n n' : nat) (m : M A) :
  (n <= n')%nat -> sendsAtMost p n m -> sendsAtMost p n' m.
Proof. intros Hn H h. specialize (H h). lia. Qed.

Lemma sendsAtMost_bind {A B} (p : Request -> bool) (n1 n2 : nat) (m : M A) (k : A -> M B) :
  sendsAtMost p n1 m -> (forall a, sendsAtMost p n2 (k a)) ->
  sendsAtMost p (n1 + n2) (bind m k).
Proof.
  intros Hm Hk h. unfold bind.
  pose proof (Hm h) as H1.
  destruct (m h) as [[a | e | c] t1]; cbn [snd] in *; try lia.
  pose proof (Hk a (h ++ t1)%list) as H2.
  destruct (k a (h ++ t1)%list) as [o t2]; cbn [snd] in *.
  rewrite sent_app. lia.
Qed.

Lemma sendsAtMost_tryCatch {A} (p : Request -> bool) (n1 n2 : nat) (m : M A)
    (handler : exn -> M A) :
  sendsAtMost p n1 m -> (forall e, sendsAtMost p n2 (handler e)) ->
  sendsAtMost p (n1 + n2) (tryCatch m handler).
Proof.
  intros Hm Hh h. unfold tryCatch.
  pose proof (Hm h) as H1.
  destruct (m h) as [[a | e | c] t1]; cbn [snd] in *; try lia.
  pose proof (Hh e (h ++ t1)%list) as H2.
  destruct (handler e (h ++ t1)%list) as [o t2]; cbn [snd] in *.
  rewrite sent_app. lia.
Qed.

Lemma sendsAtMost_ask {A} (p : Request -> bool)
    (oracle : Request -> Trace -> Result A) (req : Request) :
  sendsAtMost p 1 (ask oracle req).
Proof.
  intros h. unfold ask, call, sent.
  destruct (oracle req h); cbn; destruct (p req); cbn; lia.
Qed.

(** A script that only sends requests of another kind reaches nothing;
    after it, what the continuation reaches is what the sequence
    reaches. *)
Lemma reaching_bind {A B} (p : Request -> bool) (m : M A) (k : A -> M B) :
  tame (avoiding p) m -> (forall a, reaching p (k a)) -> reaching p (bind m k).
Proof.
  intros Hm Hk h. unfold bind.
  destruct (Hm h) as [Ht _].
  destruct (m h) as [[a | e | c] t1]; cbn [fst snd] in *.
  - pose proof (Hk a (h ++ t1)%list) as H2.
    destruct (k a (h ++ t1)%list) as [o t2]; cbn [fst snd] in *.
    rewrite existsb_app, (no_call_of_avoiding p t1 Ht). exact H2.
  - rewrite (no_call_of_avoiding p t1 Ht). discriminate.
  - rewrite (no_call_of_avoiding p t1 Ht). discriminate.
Qed.

Lemma returns_of_safe {A} (m : M A) : safe m -> forall h, exists a, fst (m h) = Ok a.
Proof.
  intros H h. destruct (H h) as [_ Ho].
  destruct (fst (m h)) as [a | e | c]; [eauto | contradiction | contradiction].
Qed.

Lemma reaching_safe {A} (p : Request -> bool) (m : M A) : safe m -> reaching p m.
Proof. intros H h _. apply returns_of_safe. exact H. Qed.

Lemma ask_inv_ok {A} (oracle : Request -> Trace -> Result A) (req : Request)
    (h t : Trace) (a : A) :
  ask oracle req h = (Ok a, t) -> oracle req h = Val a /\ t = [Call req].
Proof.
  unfold ask, call. destruct (oracle req h); intros H; [| discriminate H].
  injection H as -> <-. auto.
Qed.

End Counting.

Import Counting.

(** ** The lifecycle: what stops a run, and what cannot *)

Module FlowProps.

Import FullFlowMcp LifecycleProps.

(** The two ways a run ends. *)
Lemma program_cases (w : World) (env : Env) :
  (exists t,
      mainBody w env preamble = (Ok tt, t)
      /\ run (program w env)
         = (Exited 0, (preamble ++ t ++ [Log "All tests completed successfully"; Exit 0])%list))
  \/ (exists t e,
        mainBody w env preamble = (Throw e, t)
        /\ run (program w env) = (Exited 1, (preamble ++ t ++ fatalReport e)%list)).
Proof.
  destruct (mainBody_does_not_exit w env preamble) as [_ Ho].
  destruct (mainBody w env preamble) as [[[] | e | c] t] eqn:Eb;
    cbn [fst] in Ho; [| | contradiction].
  - left. exists t. split; [reflexivity | apply program_completes; exact Eb].
  - right. exists t, e. split; [reflexivity | apply program_fails; exact Eb].
Qed.

Lemma requests_fatalReport (e : exn) : requests (fatalReport e) = [].
Proof. unfold fatalReport. destruct (stackOf e); reflexivity. Qed.

(** The configuration sends no request, and fails exactly on an
    unusable environment. *)
Lemma configure_cases (w : World) (env : Env) (h : Trace) :
  (misconfigured w env
   /\ exists e t, configure w env h = (Throw e, t) /\ requests t = [])
  \/ (~ misconfigured w env
      /\ exists cfg t, configure w env h = (Ok cfg, t) /\ requests t = []).
Proof.
  unfold configure, misconfigured.
  destruct (envGet (RPC_URL env)) as [rpcUrl |]; [| left; split; [auto | eexists; eexists; split; reflexivity]].
  destruct (envGet (PRIVATE_KEY env)) as [key |]; [| left; split; [auto | eexists; eexists; split; reflexivity]].
  exec.
  destruct (w_newWallet w key) as [signer | e] eqn:Es; cbn.
  2:{ left. split; [right; right; left; eauto | eexists; eexists; split; reflexivity]. }
  destruct (envGet (FEEDBACK_PRIVATE_KEY env)) as [fkey |]; cbn.
  - destruct (w_newWallet w fkey) as [fs | e] eqn:Ef; cbn.
    + right. split; [| eexists; eexists; split; reflexivity].
      intros [H | [H | [(k & e & H1 & H2) | (k & e & H1 & H2)]]]; congruence.
    + left. split; [right; right; right; eauto | eexists; eexists; split; reflexivity].
  - right. split; [| eexists; eexists; split; reflexivity].
    intros [H | [H | [(k & e & H1 & H2) | (k & e & H1 & H2)]]]; congruence.
Qed.

(** The connectivity check: one request, a boolean, never an
    exception. *)
Lemma connectivity_run (w : World) (url : string) (h : Trace) :
  exists b t,
    testMCPConnectivity w url h = (Ok b, t)
    /\ requests t = [HttpGet (url ++ "/info")]
    /\ (b = true <->
        exists response data,
          w_fetch w (HttpGet (url ++ "/info"))
            (h ++ [Log ("Testing MCP server connectivity: " ++ url)])%list = Val response
          /\ ok response = true /\ json response = Val data
          /\ orUnknown data "version" = Val tt
          /\ orUnknown data "protocol" = Val tt).
Proof.
  unfold testMCPConnectivity. exec_lazy.
  destruct (w_fetch w (HttpGet (url ++ "/info"))
              (h ++ [Log ("Testing MCP server connectivity: " ++ url)])%list)
    as [response | e] eqn:Ef; cbv beta iota zeta.
  - destruct (ok response) eqn:Eok; cbv beta iota zeta; cbn [negb].
    + destruct (json response) as [data | e] eqn:Ej; cbv beta iota zeta.
      * destruct (orUnknown data "version") as [[] | e] eqn:Ev; cbv beta iota zeta.
        -- destruct (orUnknown data "protocol") as [[] | e] eqn:Ep; cbv beta iota zeta.
           ++ exists true. eexists. repeat split; eauto 10.
           ++ exists false. eexists. repeat split; try discriminate.
              intros (r & d & Hr & _ & Hd & _ & Hp). congruence.
        -- exists false. eexists. repeat split; try discriminate.
           intros (r & d & Hr & _ & Hd & Hv & _). congruence.
      * exists false. eexists. repeat split; try discriminate.
        intros (r & d & Hr & _ & Hd & _). congruence.
    + exists false. eexists. repeat split; try discriminate.
      intros (r & d & Hr & Hok & _). congruence.
  - exists false. eexists. repeat split; try discriminate.
    intros (r & d & Hr & _). discriminate Hr.
Qed.

Lemma step1_run (w : World) (h : Trace) :
  exists t,
    step1 w h = (Ok tt, t)
    /\ requests t = [HttpGet "https://fluidmcpserver.vercel.app//info"].
Proof.
  unfold step1.
  destruct (connectivity_run w MCP_SERVER_URL
              (h ++ [Log "STEP 1: Verify MCP Server Connectivity"])%list)
    as (b & t & Et & Rt & _).
  destruct b.
  - eexists. split.
    + eapply Run.bind_ok; [reflexivity |].
      eapply Run.bind_ok; [exact Et | reflexivity].
    + rewrite !Run.requests_app, Rt. reflexivity.
  - eexists. split.
    + eapply Run.bind_ok; [reflexivity |].
      eapply Run.bind_ok; [exact Et | reflexivity].
    + rewrite !Run.requests_app, Rt. reflexivity.
Qed.

(** X5. The run sends no request at all exactly when the environment
    gives no usable configuration (RPC_URL or PRIVATE_KEY missing or
    empty, or a key that the wallet constructor refuses); such a run
    ends with exit status 1. *)
Theorem unusable_configuration_sends_nothing (w : World) (env : Env) :
  (misconfigured w env ->
     fst (run (program w env)) = Exited 1
     /\ requests (snd (run (program w env))) = [])
  /\ (requests (snd (run (program w env))) = [] -> misconfigured w env).
Proof.
  assert (Hbanner : exists tb, banner preamble = (Ok tt, tb) /\ requests tb = []).
  { eexists. split; reflexivity. }
  destruct Hbanner as (tb & Eb & Rb).
  destruct (configure_cases w env (preamble ++ tb)%list)
    as [(Hmis & e & tc & Ec & Rc) | (Hok & cfg & tc & Ec & Rc)].
  - assert (Hbody : mainBody w env preamble = (Throw e, (tb ++ tc)%list)).
    { unfold mainBody. eapply Run.bind_ok; [exact Eb |].
      apply Run.bind_throw. exact Ec. }
    rewrite (program_fails w env _ e Hbody). cbn [fst snd].
    split; [| intros _; exact Hmis].
    intros _. split; [reflexivity |].
    rewrite !Run.requests_app, Rb, Rc, requests_fatalReport. reflexivity.
  - split; [intros Hmis; contradiction |].
    intros Hnone. exfalso.
    destruct cfg as [[rpcUrl signer] feedbackSigner].
    destruct (step1_run w ((preamble ++ tb) ++ tc)%list) as (t1 & E1 & R1).
    assert (Hin : In (HttpGet "https://fluidmcpserver.vercel.app//info")
                     (requests (snd (mainBody w env preamble)))).
    { unfold mainBody.
      rewrite (Run.trace_bind_ok _ _ _ _ _ Eb).
      rewrite (Run.trace_bind_ok _ _ _ _ _ Ec).
      cbv beta iota.
      rewrite (Run.trace_bind_ok _ _ _ _ _ E1).
      rewrite !Run.requests_app, R1.
      apply in_or_app. right. apply in_or_app. right.
      apply in_or_app. left. left. reflexivity. }
    destruct (program_cases w env) as [(t & Et & Er) | (t & e & Et & Er)];
      rewrite Er in Hnone; rewrite Et in Hin; cbn [fst snd] in *;
      rewrite !Run.requests_app in Hnone;
      apply app_eq_nil in Hnone; destruct Hnone as [_ Hnone];
      apply app_eq_nil in Hnone; destruct Hnone as [Hnone _];
      rewrite Hnone in Hin; contradiction.
Qed.

(** X6. The connectivity check of step 1 is advisory: it sends one GET
    request (to the server URL followed by "/info"), returns [true]
    exactly when the response is a success whose body parses and whose
    [version] and [protocol] can be rendered in the two console lines,
    returns [false] in every other case, a thrown request included, and
    never throws; so step 1 always returns, whatever the MCP server
    does.  A body is rendered unless the field is an object with an own
    [toString] property (or an array that holds one). *)
Theorem connectivity_check_is_advisory (w : World) (url : string) (h : Trace) :
  (exists b t,
      testMCPConnectivity w url h = (Ok b, t)
      /\ requests t = [HttpGet (url ++ "/info")]
      /\ (b = true <->
          exists response data,
            w_fetch w (HttpGet (url ++ "/info"))
              (h ++ [Log ("Testing MCP server connectivity: " ++ url)])%list = Val response
            /\ ok response = true /\ json response = Val data
            /\ orUnknown data "version" = Val tt
            /\ orUnknown data "protocol" = Val tt))
  /\ (forall data k,
        orUnknown data k = Val tt
        <-> (truthy (own k data) = true -> convertible (own k data) = true))
  /\ (exists t,
        step1 w h = (Ok tt, t)
        /\ requests t = [HttpGet "https://fluidmcpserver.vercel.app//info"]).
Proof.
  split; [apply connectivity_run |].
  split; [| apply step1_run].
  intros data k. unfold orUnknown, template.
  assert (Hget : getPropOpt data k = Val (own k data)) by (destruct data; reflexivity).
  rewrite Hget. cbn [rbind].
  destruct (truthy (own k data)); [| split; [discriminate | reflexivity]].
  destruct (convertible (own k data)); split; intros H; try reflexivity.
  - discriminate H.
  - specialize (H eq_refl). discriminate H.
Qed.

(** *** The guards of steps 2, 4 and 5 *)

Section Stops.

Variable w : World.
Variable env : Env.

Lemma body_fails_without_reviewer_funds (key : string) :
  envGet (FEEDBACK_PRIVATE_KEY env) = Some key ->
  reviewerHasNoFunds w env ->
  spec (avoiding (fun r => negb (isPrecheck r))) (fun _ => False) (fun _ => True)
       (mainBody w env).
Proof.
  intros Hkey Hfunds. unfold mainBody.
  apply spec_seq; [tame_by tame_banner | intros _].
  apply spec_bind with
    (Q := fun cfg : string * Wallet * option Wallet =>
            exists fs, snd cfg = Some fs /\ w_newWallet w key = Val fs).
  { unfold configure. rewrite Hkey.
    destruct (envGet (RPC_URL env)) as [rpcUrl |]; [| spec_auto].
    destruct (envGet (PRIVATE_KEY env)) as [okey |]; [| spec_auto].
    apply spec_seq; [spec_auto | intros signer].
    apply spec_bind with
      (Q := fun fs : option Wallet => exists f, fs = Some f /\ w_newWallet w key = Val f).
    { apply spec_bind with (Q := fun f : Wallet => w_newWallet w key = Val f);
        [spec_auto | intros f Hf].
      apply spec_seq; [spec_auto | intros _].
      apply spec_ret. eauto. }
    intros fs (f & -> & Hf). apply spec_ret. cbn. eauto. }
  intros [[rpcUrl signer] feedbackSigner] (fs & Hfs & Hw). cbn in Hfs. subst feedbackSigner.
  apply spec_seq; [tame_by tame_step1 | intros _].
  apply spec_bind with (Q := fun _ : FluidSDK * Z => False); [| intros a []].
  unfold step2.
  apply spec_seq; [spec_auto | intros _].
  apply spec_seq; [spec_auto | intros sdkConfig].
  apply spec_seq; [spec_auto | intros _].
  apply spec_seq; [spec_auto | intros chainId].
  apply spec_seq; [spec_auto | intros balance].
  apply spec_bind with (Q := fun _ : unit => False); [| intros a []].
  apply spec_bind with (Q := fun b : Z => b = 0).
  { apply spec_ask; [reflexivity | | auto].
    intros h b Hb. exact (Hfunds key fs h b Hkey Hw Hb). }
  intros b ->. cbn. spec_auto.
Qed.

Lemma body_fails_without_registries :
  noRegistries w ->
  spec (avoiding (fun r => negb (isSession r))) (fun _ => False) (fun _ => True)
       (mainBody w env).
Proof.
  intros Hnone. unfold mainBody.
  apply spec_seq; [tame_by tame_banner | intros _].
  apply spec_seq; [tame_by tame_configure | intros [[rpcUrl signer] feedbackSigner]].
  apply spec_seq; [tame_by tame_step1 | intros _].
  apply spec_bind with (Q := fun _ : FluidSDK * Z => False); [| intros a []].
  unfold step2.
  apply spec_seq; [spec_auto | intros _].
  apply spec_seq; [spec_auto | intros sdkConfig].
  apply spec_seq; [spec_auto | intros _].
  apply spec_seq; [spec_auto | intros chainId].
  apply spec_seq; [spec_auto | intros balance].
  apply spec_seq; [spec_auto | intros _].
  apply spec_seq; [unfold balanceGuard; spec_auto | intros _].
  apply spec_bind with (Q := fun registries : list (string * string) => registries = []).
  { apply spec_ask; [reflexivity | | auto]. intros h rs Hrs. exact (Hnone h rs Hrs). }
  intros registries ->. cbn.
  apply spec_bind with (Q := fun _ : unit => False); [| intros a []].
  spec_auto.
Qed.

Lemma body_fails_without_endpoint :
  endpointRefused w ->
  spec (avoiding isRegistration) (fun _ => False) (fun _ => True) (mainBody w env).
Proof.
  intros Hrefused. unfold mainBody.
  apply spec_seq; [tame_by tame_banner | intros _].
  apply spec_seq; [tame_by tame_configure | intros [[rpcUrl signer] feedbackSigner]].
  apply spec_seq; [tame_by tame_step1 | intros _].
  apply spec_seq; [tame_by tame_step2 | intros [sdk chainId]].
  apply spec_seq; [tame_by tame_step3 | intros _].
  apply spec_bind with (Q := fun _ : string => False); [| intros a []].
  unfold step4.
  apply spec_seq; [spec_auto | intros _].
  apply spec_seq; [spec_auto | intros timestamp].
  apply spec_seq; [spec_auto | intros _].
  apply spec_seq; [spec_auto | intros _].
  apply spec_bind with (Q := fun _ : unit => False); [| intros a []].
  unfold configureMcp.
  apply spec_seq; [spec_auto | intros _].
  apply spec_tryCatch_any; [| intros e; spec_auto].
  apply spec_seq; [| intros [[mcpTools mcpPrompts] mcpResources]].
  { assert (Hp : forall kind noun id pick,
               tame (avoiding isRegistration) (probe w kind noun id pick))
      by (intros; tame_by tame_probe).
    unfold fetchCapabilities, fetchTools, fetchPrompts, fetchResources. spec_auto. }
  destruct Hrefused as [Hset | Hactive].
  - apply spec_bind with (Q := fun _ : unit => False); [| intros a []].
    apply spec_ask; [reflexivity | | auto].
    intros h a Ha. exact (Hset _ h a Ha).
  - apply spec_seq; [spec_auto | intros _].
    apply spec_seq; [spec_auto | intros _].
    apply spec_seq; [spec_auto | intros _].
    apply spec_bind with (Q := fun _ : unit => False); [| intros a []].
    apply spec_ask; [reflexivity | | auto].
    intros h a Ha. exact (Hactive _ h a Ha).
Qed.

Lemma body_fails_without_agent_id :
  noAgentId w ->
  spec (avoiding isVerification) (fun _ => False) (fun _ => True) (mainBody w env).
Proof.
  intros Hnone. unfold mainBody.
  apply spec_seq; [tame_by tame_banner | intros _].
  apply spec_seq; [tame_by tame_configure | intros [[rpcUrl signer] feedbackSigner]].
  apply spec_seq; [tame_by tame_step1 | intros _].
  apply spec_seq; [tame_by tame_step2 | intros [sdk chainId]].
  apply spec_seq; [tame_by tame_step3 | intros _].
  apply spec_seq; [tame_by tame_step4 | intros agentName].
  apply spec_bind with (Q := fun _ : string => False); [| intros a []].
  unfold step5.
  apply spec_seq; [spec_auto | intros _].
  apply spec_seq; [spec_auto | intros _].
  apply spec_seq; [unfold ipfsGuard; spec_auto | intros _].
  apply spec_seq; [spec_auto | intros _].
  apply spec_bind with
    (Q := fun file : RegistrationFile => envGet (reg_agentId file) = None).
  { apply spec_ask; [reflexivity | | auto]. intros h file Hf. exact (Hnone h file Hf). }
  intros file Hfile.
  apply spec_seq; [spec_auto | intros _].
  apply spec_seq; [tame_by tame_showIpfsContent | intros _].
  rewrite Hfile. spec_auto.
Qed.

(** Names that cannot be rendered stop the body in step 4, at the
    console lines that follow [setMcpCapabilities]. *)
Lemma body_fails_on_unrenderable_names :
  unrenderableTools w ->
  spec (avoiding isRegistration) (fun _ => False) (fun _ => True) (mainBody w env).
Proof.
  intros Hodd. unfold mainBody.
  apply spec_seq; [tame_by tame_banner | intros _].
  apply spec_seq; [tame_by tame_configure | intros [[rpcUrl signer] feedbackSigner]].
  apply spec_seq; [tame_by tame_step1 | intros _].
  apply spec_seq; [tame_by tame_step2 | intros [sdk chainId]].
  apply spec_seq; [tame_by tame_step3 | intros _].
  apply spec_bind with (Q := fun _ : string => False); [| intros a []].
  unfold step4.
  apply spec_seq; [spec_auto | intros _].
  apply spec_seq; [spec_auto | intros timestamp].
  apply spec_seq; [spec_auto | intros _].
  apply spec_seq; [spec_auto | intros _].
  apply spec_bind with (Q := fun _ : unit => False); [| intros a []].
  unfold configureMcp.
  apply spec_seq; [spec_auto | intros _].
  apply spec_tryCatch_any; [| intros e; spec_auto].
  apply spec_bind with
    (Q := fun caps : list value * list value * list value =>
            joinValues (fst (fst caps)) = Err notConvertible).
  { assert (Hp : forall kind noun id pick,
               tame (avoiding isRegistration) (probe w kind noun id pick))
      by (intros; tame_by tame_probe).
    unfold fetchCapabilities, fetchTools, fetchPrompts, fetchResources.
    apply spec_seq; [spec_auto | intros _].
    apply spec_bind with (Q := fun names : list value => joinValues names = Err notConvertible).
    { intros h. destruct (Hodd h) as (response & names & Hf & Hok & Hd & Hj).
      rewrite ProbeProps.probe_run, Hf, Hok, Hd, Hj. split; [reflexivity | exact Hj]. }
    intros mcpTools Htools.
    apply spec_seq; [apply Hp | intros mcpPrompts].
    apply spec_seq; [apply Hp | intros mcpResources].
    apply spec_ret. exact Htools. }
  intros [[mcpTools mcpPrompts] mcpResources] Htools. cbn [fst] in Htools.
  assert (Hsome : (0 <? len mcpTools) = true).
  { destruct mcpTools; [discriminate Htools | reflexivity]. }
  rewrite Hsome. cbn [orb when].
  apply spec_seq; [spec_auto | intros _].
  apply spec_seq; [spec_auto | intros _].
  apply spec_bind with (Q := fun _ : unit => False); [| intros a []].
  apply spec_seq; [spec_auto | intros _].
  apply spec_seq; [spec_auto | intros _].
  apply spec_seq; [spec_auto | intros _].
  apply spec_bind with (Q := fun _ : unit => False); [| intros a []].
  rewrite Htools. spec_auto. intros a Ha. discriminate Ha.
Qed.

End Stops.

(** X7. When the second signer is configured and its wallet reads zero,
    the run ends with exit status 1 at the balance precheck of the
    reviewer's wallet: besides the connectivity check it has only read
    the chain and the balances; the registries are not read, no agent is
    created and nothing is registered. *)
Theorem empty_reviewer_wallet_is_fatal (w : World) (env : Env) (key : string) :
  envGet (FEEDBACK_PRIVATE_KEY env) = Some key ->
  reviewerHasNoFunds w env ->
  fst (run (program w env)) = Exited 1
  /\ forallb (avoiding (fun r => negb (isPrecheck r))) (snd (run (program w env))) = true.
Proof.
  intros Hkey Hfunds.
  apply program_of_failing_body.
  apply (body_fails_without_reviewer_funds w env key Hkey Hfunds).
Qed.

(** The theorem on a run whose reviewer's wallet is empty: the run is
    fatal on the reviewer's precheck. *)
Lemma empty_reviewer_wallet_is_fatal_witness :
  fst (run (program MoreWorlds.reviewerBroke Worlds.fullEnv)) = Exited 1
  /\ forallb (avoiding (fun r => negb (isPrecheck r)))
             (snd (run (program MoreWorlds.reviewerBroke Worlds.fullEnv))) = true.
Proof.
  apply (empty_reviewer_wallet_is_fatal MoreWorlds.reviewerBroke Worlds.fullEnv "b2").
  - reflexivity.
  - intros key reviewer h balance Hkey Hrev Hb.
    injection Hkey as <-. injection Hrev as <-.
    cbn in Hb. injection Hb as <-. reflexivity.
Defined.

(** X8. When the SDK knows no registry on the chain, the run ends with
    exit status 1 after step 2: no agent is created and nothing is
    registered. *)
Theorem missing_registries_are_fatal (w : World) (env : Env) :
  noRegistries w ->
  fst (run (program w env)) = Exited 1
  /\ forallb (avoiding (fun r => negb (isSession r))) (snd (run (program w env))) = true.
Proof.
  intros Hnone.
  apply program_of_failing_body.
  apply (body_fails_without_registries w env Hnone).
Qed.

Lemma missing_registries_are_fatal_witness :
  fst (run (program MoreWorlds.noRegistry Worlds.fullEnv)) = Exited 1
  /\ forallb (avoiding (fun r => negb (isSession r)))
             (snd (run (program MoreWorlds.noRegistry Worlds.fullEnv))) = true.
Proof.
  apply (missing_registries_are_fatal MoreWorlds.noRegistry Worlds.fullEnv).
  intros h registries H. injection H as <-. reflexivity.
Defined.

(** X9. A failure to configure the agent is fatal: when the agent
    refuses its MCP endpoint, or cannot be made active, the run ends
    with exit status 1 and the registration is never sent (the [catch]
    of the configuration logs the error and throws it again). *)
Theorem refused_endpoint_is_fatal (w : World) (env : Env) :
  endpointRefused w ->
  fst (run (program w env)) = Exited 1
  /\ forallb (avoiding isRegistration) (snd (run (program w env))) = true.
Proof.
  intros Hrefused.
  apply program_of_failing_body.
  apply (body_fails_without_endpoint w env Hrefused).
Qed.

Lemma refused_endpoint_is_fatal_witness :
  fst (run (program MoreWorlds.endpointDown Worlds.fullEnv)) = Exited 1
  /\ forallb (avoiding isRegistration)
             (snd (run (program MoreWorlds.endpointDown Worlds.fullEnv))) = true.
Proof.
  apply (refused_endpoint_is_fatal MoreWorlds.endpointDown Worlds.fullEnv).
  left. intros req h a H. discriminate H.
Defined.

(** X10. A registration that answers without an agent identifier
    (absent or empty) is fatal: the run ends with exit status 1 and none
    of the steps that follow the registration is started: no lookup, no
    loading, no feedback. *)
Theorem registration_without_identifier_is_fatal (w : World) (env : Env) :
  noAgentId w ->
  fst (run (program w env)) = Exited 1
  /\ forallb (avoiding isVerification) (snd (run (program w env))) = true.
Proof.
  intros Hnone.
  apply program_of_failing_body.
  apply (body_fails_without_agent_id w env Hnone).
Qed.

Lemma registration_without_identifier_is_fatal_witness :
  fst (run (program MoreWorlds.anonymous Worlds.fullEnv)) = Exited 1
  /\ forallb (avoiding isVerification)
             (snd (run (program MoreWorlds.anonymous Worlds.fullEnv))) = true.
Proof.
  apply (registration_without_identifier_is_fatal MoreWorlds.anonymous Worlds.fullEnv).
  intros h file H. injection H as <-. reflexivity.
Defined.

(** *** The configuration of the endpoint *)

(** Membership in a trace given by its pieces. *)
Ltac find_in :=
  cbn [app In];
  first [ assumption
        | solve [ left; reflexivity ]
        | solve [ right; find_in ]
        | solve [ apply in_or_app; left; find_in ]
        | solve [ apply in_or_app; right; find_in ] ].

(** The cases of a membership in a trace given by its pieces; the
    pieces that are variables are left to the caller. *)
Ltac split_in H :=
  cbn [app In] in H;
  repeat first
    [ apply in_app_or in H; destruct H as [H | H]; cbn [app In] in H
    | destruct H as [H | H]; [ try discriminate H | ] ];
  try contradiction.

Lemma nonempty_len {A} (l : list A) : (0 <? len l) = true <-> l <> [].
Proof.
  unfold len. destruct l; cbn; split; intros H; try discriminate; try reflexivity.
  exfalso. apply H. reflexivity.
Qed.

Lemma some_nonempty {A B C} (a : list A) (b : list B) (c : list C) :
  (0 <? len a) || (0 <? len b) || (0 <? len c) = true <->
  a <> [] \/ b <> [] \/ c <> [].
Proof.
  rewrite !orb_true_iff, !nonempty_len. tauto.
Qed.

(** X27. A tool listing whose names cannot be rendered as strings is
    fatal, although the probe itself survives it: the probe logs its
    warning and keeps the list, the list is handed to the agent, and the
    console line that joins the names then throws inside the
    configuration, whose [catch] throws again.  The run ends with exit
    status 1 and the registration is never sent. *)
Theorem unrenderable_names_are_fatal (w : World) (env : Env) :
  unrenderableTools w ->
  fst (run (program w env)) = Exited 1
  /\ forallb (avoiding isRegistration) (snd (run (program w env))) = true
  /\ (forall h,
        exists names,
          fetchTools w h
          = (Ok names, [Call (probeRequest "tools" 1); warning "tools" notConvertible])
          /\ names <> []).
Proof.
  intros Hodd.
  destruct (program_of_failing_body w env isRegistration
              (body_fails_on_unrenderable_names w env Hodd)) as [Hexit Htrace].
  split; [exact Hexit |].
  split; [exact Htrace |].
  intros h. destruct (Hodd h) as (response & names & Hf & Hok & Hd & Hj).
  exists names. unfold fetchTools.
  rewrite ProbeProps.probe_run, Hf, Hok, Hd, Hj.
  split; [reflexivity |].
  intros ->. discriminate Hj.
Qed.

(** The theorem on a server whose only tool is named by an object with
    an own [toString] property: the run has handed that name to the
    agent before it fails. *)
Lemma unrenderable_names_are_fatal_witness :
  fst (run (program MoreWorlds.oddNames Worlds.fullEnv)) = Exited 1
  /\ forallb (avoiding isRegistration)
             (snd (run (program MoreWorlds.oddNames Worlds.fullEnv))) = true
  /\ In (Call (AgentSetMcpCapabilities
                 [Obj [("toString", Num 1%float)]]
                 [Str "greeting"; Str "code_review"]
                 [Str "fluidsdk://config"; Str "fluidsdk://status"]))
        (snd (run (program MoreWorlds.oddNames Worlds.fullEnv))).
Proof.
  assert (Hodd : unrenderableTools MoreWorlds.oddNames).
  { intros h. eexists. eexists. repeat split; reflexivity. }
  destruct (unrenderable_names_are_fatal MoreWorlds.oddNames Worlds.fullEnv Hodd)
    as (H1 & H2 & _).
  split; [exact H1 |]. split; [exact H2 |].
  vm_compute. tauto.
Defined.

(** X11. The capabilities handed to the agent are the three lists that
    the probes returned.  The endpoint is always set, after the three
    probes, with automatic fetching switched off; [setMcpCapabilities]
    is sent only when one of the lists is not empty, and then with
    exactly the probed lists; when all three are empty it is not
    sent. *)
Theorem capabilities_are_the_probed_lists (w : World) (h : Trace) :
  exists tools prompts resources t,
    fetchCapabilities w (h ++ [Log "Configuring MCP endpoint..."])%list
    = (Ok (tools, prompts, resources), t)
    /\ In (Call (AgentSetMCP MCP_SERVER_URL MCP_PROTOCOL_VERSION false))
          (snd (configureMcp w h))
    /\ (forall url version autoFetch,
          In (Call (AgentSetMCP url version autoFetch)) (snd (configureMcp w h)) ->
          autoFetch = false)
    /\ (forall a b c,
          In (Call (AgentSetMcpCapabilities a b c)) (snd (configureMcp w h)) ->
          a = tools /\ b = prompts /\ c = resources
          /\ (tools <> [] \/ prompts <> [] \/ resources <> []))
    /\ (fst (configureMcp w h) = Ok tt ->
        tools <> [] \/ prompts <> [] \/ resources <> [] ->
        In (Call (AgentSetMcpCapabilities tools prompts resources))
           (snd (configureMcp w h))).
Proof.
  destruct (ProbeProps.fetchCapabilities_total w
              (h ++ [Log "Configuring MCP endpoint..."])%list)
    as (tools & prompts & resources & t & Ecaps & Rcaps).
  exists tools, prompts, resources, t.
  split; [exact Ecaps |].
  assert (Hprobes : forall r, In (Call r) t ->
            r = probeRequest "tools" 1 \/ r = probeRequest "prompts" 2
            \/ r = probeRequest "resources" 3).
  { intros r Hr. apply in_requests in Hr. rewrite Rcaps in Hr. cbn in Hr.
    intuition congruence. }
  assert (Hmcp : forall url version autoFetch,
            In (Call (AgentSetMCP url version autoFetch)) t -> autoFetch = false).
  { intros url version autoFetch Hin. apply Hprobes in Hin.
    unfold probeRequest in Hin. exfalso. intuition discriminate. }
  assert (Hcaps : forall a b c, ~ In (Call (AgentSetMcpCapabilities a b c)) t).
  { intros a b c Hin. apply Hprobes in Hin.
    unfold probeRequest in Hin. intuition discriminate. }
  unfold configureMcp. exec_lazy. rewrite Ecaps. cbv beta iota zeta.
  destruct (w_setEndpoint w _ _) as [[] | e]; cbv beta iota zeta.
  2:{ cbn [fst snd].
      split; [find_in |].
      split; [intros url version autoFetch Hin; split_in Hin; eauto; injection Hin; auto |].
      split; [intros a b c Hin; exfalso; split_in Hin; eapply Hcaps; eauto |].
      intros H; discriminate H. }
  destruct ((0 <? len tools) || (0 <? len prompts) || (0 <? len resources)) eqn:Esome;
    cbv beta iota zeta.
  - apply some_nonempty in Esome.
    destruct (w_setMcpCapabilities w _ _) as [[] | e]; cbv beta iota zeta;
      [ destruct (joinValues tools) as [[] | e]; cbv beta iota zeta;
        [ destruct (joinValues prompts) as [[] | e]; cbv beta iota zeta;
          [ destruct (joinValues resources) as [[] | e]; cbv beta iota zeta;
            [ destruct (w_setActive w _ _) as [[] | e]; cbv beta iota zeta | ] | ] | ] | ];
      cbn [fst snd];
      (split; [find_in |]);
      (split; [intros url version autoFetch Hin; split_in Hin; eauto; injection Hin; auto |]);
      (split; [intros a b c Hin; split_in Hin; try (exfalso; eapply Hcaps; eauto; fail);
               injection Hin as <- <- <-; auto |]);
      intros Hok _; try discriminate Hok; find_in.
  - assert (Hnone : ~ (tools <> [] \/ prompts <> [] \/ resources <> [])).
    { intros H. apply some_nonempty in H. congruence. }
    destruct (w_setActive w _ _) as [[] | e]; cbv beta iota zeta;
      cbn [fst snd];
      (split; [find_in |]);
      (split; [intros url version autoFetch Hin; split_in Hin; eauto; injection Hin; auto |]);
      (split; [intros a b c Hin; exfalso; split_in Hin; eapply Hcaps; eauto |]);
      intros _ Hsome; contradiction.
Qed.

(** *** The steps that cannot fail *)

Section Safe.

Variable w : World.

Lemma safe_testMCPConnectivity url : safe (testMCPConnectivity w url).
Proof. unfold safe. spec_auto. Qed.

Lemma safe_queryAgentFromSubgraph id : safe (queryAgentFromSubgraph w id).
Proof. unfold safe. spec_auto. Qed.

Lemma safe_searchAgentsInSubgraph : safe (searchAgentsInSubgraph w).
Proof. unfold safe. spec_auto. Qed.

Lemma safe_queryFeedbackFromSubgraph id : safe (queryFeedbackFromSubgraph w id).
Proof. unfold safe. spec_auto. Qed.

Lemma safe_probe kind noun id pick : safe (probe w kind noun id pick).
Proof. unfold safe. spec_auto. Qed.

Lemma safe_showIpfsContent file : safe (showIpfsContent w file).
Proof. unfold safe. spec_auto. Qed.

Lemma safe_retryLookup left : forall i id, safe (retryLookup w left i id).
Proof.
  pose proof safe_queryAgentFromSubgraph as Hq. unfold safe in *.
  induction left as [| left IH]; intros i id; cbn [retryLookup]; spec_auto.
Qed.

Lemma safe_step6 id : safe (step6 w id).
Proof.
  pose proof safe_queryAgentFromSubgraph as Hq.
  pose proof safe_retryLookup as Hr. unfold safe in *. spec_auto.
Qed.

Lemma safe_step7 id : safe (step7 w id).
Proof. unfold safe. spec_auto. Qed.

Lemma safe_step10 id fs feedback : safe (step10 w id fs feedback).
Proof. unfold safe. spec_auto. Qed.

Lemma safe_feedbackFlow score id fs : safe (feedbackFlow w score id fs).
Proof.
  pose proof safe_step10 as H10.
  pose proof safe_queryFeedbackFromSubgraph as Hq.
  unfold safe in *. spec_auto.
Qed.

Lemma safe_step8 id feedbackSigner : safe (step8 w id feedbackSigner).
Proof. pose proof safe_feedbackFlow as Hf. unfold safe in *. spec_auto. Qed.

Lemma safe_step11 id feedbackSigner :
  signersAnswer w -> safe (step11 w id feedbackSigner).
Proof.
  intros Hs. pose proof safe_searchAgentsInSubgraph as Hq. unfold safe in *.
  spec_auto. intros h e He. exact (Hs _ h e He).
Qed.

(** What follows the registration, from the first lookup on. *)
Lemma safe_after_registration id feedbackSigner :
  signersAnswer w ->
  safe (step6 w id ;;; step7 w id ;;; step8 w id feedbackSigner ;;;
        step11 w id feedbackSigner).
Proof.
  intros Hs.
  pose proof safe_step6 as H6. pose proof safe_step7 as H7.
  pose proof safe_step8 as H8. pose proof (safe_step11 id feedbackSigner Hs) as H11.
  unfold safe in *. spec_auto.
Qed.

End Safe.

(** X12. The inspection of the pinned registration file cannot fail the
    run: whatever the gateway answers (a thrown request, a non-2xx
    status, a body that does not parse or has another shape), it returns
    normally; it sends at most one request, and none at all when the
    registration gave no URI or a URI with an empty content identifier. *)
Theorem ipfs_inspection_never_fails (w : World) (file : RegistrationFile) (h : Trace) :
  fst (showIpfsContent w file h) = Ok tt
  /\ (length (requests (snd (showIpfsContent w file h))) <= 1)%nat
  /\ (envGet (option_map (replaceFirst "ipfs://" "") (reg_agentURI file)) = None ->
      snd (showIpfsContent w file h) = []).
Proof.
  split.
  { destruct (returns_of_safe _ (safe_showIpfsContent w file) h) as [[] H]. exact H. }
  split.
  { assert (H : sendsAtMost (fun _ => true) 1 (showIpfsContent w file)).
    { unfold showIpfsContent.
      destruct (envGet (option_map (replaceFirst "ipfs://" "") (reg_agentURI file)))
        as [ipfsCid |].
      - apply (sendsAtMost_tryCatch _ 1 0).
        + apply (sendsAtMost_bind _ 0 1); [apply sendsAtMost_tame; spec_auto | intros _].
          apply (sendsAtMost_bind _ 1 0); [apply sendsAtMost_ask | intros response].
          apply sendsAtMost_tame. spec_auto.
        + intros e. apply sendsAtMost_tame. spec_auto.
      - apply (sendsAtMost_more _ 0 1); [lia |]. apply sendsAtMost_tame. spec_auto. }
    specialize (H h). unfold sent in H.
    rewrite (forallb_filter_id (fun _ : Request => true)) in H; [exact H |].
    apply forallb_forall. reflexivity. }
  intros Hnone. unfold showIpfsContent. rewrite Hnone. reflexivity.
Qed.

(** *** The feedback flow *)


Lemma sendsAtMost_feedbackFlow (w : World) (score : Z) (id : string) (fs : Wallet) :
  sendsAtMost isSubmission 1 (feedbackFlow w score id fs).
Proof.
  unfold feedbackFlow.
  apply (sendsAtMost_bind _ 0 1); [apply sendsAtMost_tame; spec_auto | intros _].
  apply (sendsAtMost_tryCatch _ 1 0); [| intros e; apply sendsAtMost_tame; spec_auto].
  apply (sendsAtMost_bind _ 0 1); [apply sendsAtMost_tame; spec_auto | intros _].
  apply (sendsAtMost_bind _ 0 1);
    [apply sendsAtMost_tame; unfold prepareFeedback; spec_auto | intros feedbackFile].
  apply (sendsAtMost_bind _ 0 1); [apply sendsAtMost_tame; spec_auto | intros _].
  apply (sendsAtMost_bind _ 0 1); [apply sendsAtMost_tame; spec_auto | intros _].
  apply (sendsAtMost_bind _ 0 1); [apply sendsAtMost_tame; spec_auto | intros _].
  apply (sendsAtMost_bind _ 1 0); [apply sendsAtMost_ask | intros feedback].
  apply sendsAtMost_tame.
  assert (H9 : forall a, tame (avoiding isSubmission) (queryFeedbackFromSubgraph w a))
    by (intros; tame_by tame_queryFeedbackFromSubgraph).
  assert (H10 : forall a s f, tame (avoiding isSubmission) (step10 w a s f))
    by (intros; tame_by tame_step10).
  spec_auto.
Qed.


(** *** Transactions are not repeated *)

Section Once.

Variable w : World.
Variable env : Env.

Lemma sendsAtMost_body_registration : sendsAtMost isRegistration 1 (mainBody w env).
Proof.
  unfold mainBody.
  apply (sendsAtMost_bind _ 0 1); [apply sendsAtMost_tame; tame_by tame_banner | intros _].
  apply (sendsAtMost_bind _ 0 1);
    [apply sendsAtMost_tame; tame_by tame_configure | intros [[rpcUrl signer] fs]].
  apply (sendsAtMost_bind _ 0 1); [apply sendsAtMost_tame; tame_by tame_step1 | intros _].
  apply (sendsAtMost_bind _ 0 1);
    [apply sendsAtMost_tame; tame_by tame_step2 | intros [sdk chainId]].
  apply (sendsAtMost_bind _ 0 1); [apply sendsAtMost_tame; tame_by tame_step3 | intros _].
  apply (sendsAtMost_bind _ 0 1); [apply sendsAtMost_tame; tame_by tame_step4 | intros name].
  apply (sendsAtMost_bind _ 1 0).
  { unfold step5.
    apply (sendsAtMost_bind _ 0 1); [apply sendsAtMost_tame; spec_auto | intros _].
    apply (sendsAtMost_bind _ 0 1); [apply sendsAtMost_tame; spec_auto | intros _].
    apply (sendsAtMost_bind _ 0 1);
      [apply sendsAtMost_tame; unfold ipfsGuard; spec_auto | intros _].
    apply (sendsAtMost_bind _ 0 1); [apply sendsAtMost_tame; spec_auto | intros _].
    apply (sendsAtMost_bind _ 1 0); [apply sendsAtMost_ask | intros file].
    apply sendsAtMost_tame.
    assert (Hs : forall f, tame (avoiding isRegistration) (showIpfsContent w f))
      by (intros; tame_by tame_showIpfsContent).
    spec_auto. }
  intros id. apply sendsAtMost_tame.
  assert (H6 : forall a, tame (avoiding isRegistration) (step6 w a))
    by (intros; tame_by tame_step6).
  assert (H7 : forall a, tame (avoiding isRegistration) (step7 w a))
    by (intros; tame_by tame_step7).
  assert (H8 : forall a s, tame (avoiding isRegistration) (step8 w a s))
    by (intros; tame_by tame_step8).
  assert (H11 : forall a s, tame (avoiding isRegistration) (step11 w a s))
    by (intros; tame_by tame_step11).
  assert (Hw : tame (avoiding isRegistration) waitForIndexing)
    by (tame_by tame_waitForIndexing).
  spec_auto.
Qed.

Lemma sendsAtMost_body_creation : sendsAtMost isCreation 1 (mainBody w env).
Proof.
  unfold mainBody.
  apply (sendsAtMost_bind _ 0 1); [apply sendsAtMost_tame; tame_by tame_banner | intros _].
  apply (sendsAtMost_bind _ 0 1);
    [apply sendsAtMost_tame; tame_by tame_configure | intros [[rpcUrl signer] fs]].
  apply (sendsAtMost_bind _ 0 1); [apply sendsAtMost_tame; tame_by tame_step1 | intros _].
  apply (sendsAtMost_bind _ 0 1);
    [apply sendsAtMost_tame; tame_by tame_step2 | intros [sdk chainId]].
  apply (sendsAtMost_bind _ 0 1); [apply sendsAtMost_tame; tame_by tame_step3 | intros _].
  apply (sendsAtMost_bind _ 1 0).
  { unfold step4.
    apply (sendsAtMost_bind _ 0 1); [apply sendsAtMost_tame; spec_auto | intros _].
    apply (sendsAtMost_bind _ 0 1); [apply sendsAtMost_tame; spec_auto | intros timestamp].
    apply (sendsAtMost_bind _ 1 0); [apply sendsAtMost_ask | intros _].
    apply sendsAtMost_tame.
    assert (Hc : tame (avoiding isCreation) (configureMcp w))
      by (tame_by tame_configureMcp).
    spec_auto. }
  intros name. apply sendsAtMost_tame.
  assert (H5 : forall s, tame (avoiding isCreation) (step5 w s))
    by (intros; tame_by tame_step5).
  assert (H6 : forall a, tame (avoiding isCreation) (step6 w a))
    by (intros; tame_by tame_step6).
  assert (H7 : forall a, tame (avoiding isCreation) (step7 w a))
    by (intros; tame_by tame_step7).
  assert (H8 : forall a s, tame (avoiding isCreation) (step8 w a s))
    by (intros; tame_by tame_step8).
  assert (H11 : forall a s, tame (avoiding isCreation) (step11 w a s))
    by (intros; tame_by tame_step11).
  assert (Hw : tame (avoiding isCreation) waitForIndexing)
    by (tame_by tame_waitForIndexing).
  spec_auto.
Qed.

Lemma sendsAtMost_body_submission : sendsAtMost isSubmission 1 (mainBody w env).
Proof.
  unfold mainBody.
  apply (sendsAtMost_bind _ 0 1); [apply sendsAtMost_tame; tame_by tame_banner | intros _].
  apply (sendsAtMost_bind _ 0 1);
    [apply sendsAtMost_tame; tame_by tame_configure | intros [[rpcUrl signer] fs]].
  apply (sendsAtMost_bind _ 0 1); [apply sendsAtMost_tame; tame_by tame_step1 | intros _].
  apply (sendsAtMost_bind _ 0 1);
    [apply sendsAtMost_tame; tame_by tame_step2 | intros [sdk chainId]].
  apply (sendsAtMost_bind _ 0 1); [apply sendsAtMost_tame; tame_by tame_step3 | intros _].
  apply (sendsAtMost_bind _ 0 1); [apply sendsAtMost_tame; tame_by tame_step4 | intros name].
  apply (sendsAtMost_bind _ 0 1); [apply sendsAtMost_tame; tame_by tame_step5 | intros id].
  apply (sendsAtMost_bind _ 0 1);
    [apply sendsAtMost_tame; tame_by tame_waitForIndexing | intros _].
  apply (sendsAtMost_bind _ 0 1); [apply sendsAtMost_tame; tame_by tame_step6 | intros _].
  apply (sendsAtMost_bind _ 0 1); [apply sendsAtMost_tame; tame_by tame_step7 | intros _].
  apply (sendsAtMost_bind _ 1 0); [| intros _; apply sendsAtMost_tame; tame_by tame_step11].
  unfold step8.
  apply (sendsAtMost_bind _ 0 1); [apply sendsAtMost_tame; spec_auto | intros _].
  destruct fs as [fs |].
  - apply sendsAtMost_feedbackFlow.
  - apply (sendsAtMost_more _ 0 1); [lia |]. apply sendsAtMost_tame. spec_auto.
Qed.

Lemma sent_fatalReport (p : Request -> bool) (e : exn) : sent p (fatalReport e) = 0%nat.
Proof. unfold fatalReport. destruct (stackOf e); reflexivity. Qed.

(** A bound on the body is a bound on the run. *)
Lemma sendsAtMost_program (p : Request -> bool) (n : nat) :
  sendsAtMost p n (mainBody w env) ->
  (sent p (snd (run (program w env))) <= n)%nat.
Proof.
  intros H. specialize (H preamble).
  destruct (program_cases w env) as [(t & Et & Er) | (t & e & Et & Er)];
    rewrite Er; rewrite Et in H; cbn [snd] in *;
    rewrite !sent_app, ?sent_fatalReport; cbn; lia.
Qed.

End Once.

(** X14. No run repeats a transaction: whatever the collaborators
    answer, a run creates at most one agent object, sends at most one
    registration and submits at most one feedback. *)
Theorem transactions_are_not_repeated (w : World) (env : Env) :
  (sent isCreation (snd (run (program w env))) <= 1)%nat
  /\ (sent isRegistration (snd (run (program w env))) <= 1)%nat
  /\ (sent isSubmission (snd (run (program w env))) <= 1)%nat.
Proof.
  split; [apply sendsAtMost_program, sendsAtMost_body_creation |].
  split; [apply sendsAtMost_program, sendsAtMost_body_registration |].
  apply sendsAtMost_program, sendsAtMost_body_submission.
Qed.

(** *** What the exit status says *)

Section ExitStatus.

Variable w : World.
Variable env : Env.

(** A registration step that returns has been answered with an agent
    identifier. *)
Lemma step5_inv (sdk : FluidSDK) (h t : Trace) (id : string) :
  step5 w sdk h = (Ok id, t) ->
  In (Call AgentRegisterIPFS) t
  /\ exists file h',
       w_registerIPFS w AgentRegisterIPFS h' = Val file
       /\ envGet (reg_agentId file) = Some id.
Proof.
  unfold step5. intros H.
  apply Run.bind_inv_ok in H. destruct H as ([] & ta & t1 & _ & H & ->).
  apply Run.bind_inv_ok in H. destruct H as ([] & tb & t2 & _ & H & ->).
  apply Run.bind_inv_ok in H. destruct H as ([] & tc & t3 & _ & H & ->).
  apply Run.bind_inv_ok in H. destruct H as ([] & td & t4 & _ & H & ->).
  apply Run.bind_inv_ok in H. destruct H as (file & te & t5 & Hreg & H & ->).
  apply ask_inv_ok in Hreg. destruct Hreg as [Hreg ->].
  apply Run.bind_inv_ok in H. destruct H as ([] & tf & t6 & _ & H & ->).
  apply Run.bind_inv_ok in H. destruct H as ([] & tg & t7 & _ & H & ->).
  split; [find_in |].
  exists file. eexists. split; [exact Hreg |].
  destruct (envGet (reg_agentId file)) as [newAgentId |]; [| discriminate H].
  injection H as -> _. reflexivity.
Qed.

Lemma step6_looks_up (id : string) (h : Trace) :
  In (Call (SdkGetAgent id)) (snd (step6 w id h)).
Proof.
  destruct (PollingProps.step6_run w id h) as (n & found & _ & _ & Hr & _).
  apply in_requests. rewrite Hr. left. reflexivity.
Qed.

Lemma step11_inv (id : string) (fs : option Wallet) (h t : Trace) :
  step11 w id fs h = (Ok tt, t) -> hasLog completed t = true.
Proof.
  unfold step11. intros H.
  apply Run.bind_inv_ok in H. destruct H as ([] & ta & t1 & _ & H & ->).
  apply Run.bind_inv_ok in H. destruct H as (items & tb & t2 & _ & H & ->).
  apply Run.bind_inv_ok in H. destruct H as ([] & tc & t3 & _ & H & ->).
  apply Run.bind_inv_ok in H. destruct H as ([] & td & t4 & Hd & H & ->).
  injection Hd as <-.
  rewrite !Run.hasLog_app. cbn. rewrite ?orb_true_r. reflexivity.
Qed.

(** A body that returns has registered the agent, has been given its
    identifier, has looked it up and has written the completion line. *)
Lemma body_inv (h t : Trace) :
  mainBody w env h = (Ok tt, t) ->
  In (Call AgentRegisterIPFS) t
  /\ hasLog completed t = true
  /\ exists file id h',
       w_registerIPFS w AgentRegisterIPFS h' = Val file
       /\ envGet (reg_agentId file) = Some id
       /\ In (Call (SdkGetAgent id)) t.
Proof.
  unfold mainBody. intros H.
  apply Run.bind_inv_ok in H. destruct H as ([] & tb & t1 & _ & H & ->).
  apply Run.bind_inv_ok in H. destruct H as ([[rpcUrl signer] fs] & tc & t2 & _ & H & ->).
  apply Run.bind_inv_ok in H. destruct H as ([] & ts1 & t3 & _ & H & ->).
  apply Run.bind_inv_ok in H. destruct H as ([sdk chainId] & ts2 & t4 & _ & H & ->).
  apply Run.bind_inv_ok in H. destruct H as ([] & ts3 & t5 & _ & H & ->).
  apply Run.bind_inv_ok in H. destruct H as (agentName & ts4 & t6 & _ & H & ->).
  apply Run.bind_inv_ok in H. destruct H as (id & ts5 & t7 & H5 & H & ->).
  apply Run.bind_inv_ok in H. destruct H as ([] & tw & t8 & _ & H & ->).
  apply Run.bind_inv_ok in H. destruct H as (found & ts6 & t9 & H6 & H & ->).
  apply Run.bind_inv_ok in H. destruct H as ([] & ts7 & t10 & _ & H & ->).
  apply Run.bind_inv_ok in H. destruct H as ([] & ts8 & t11 & _ & H & ->).
  apply step5_inv in H5. destruct H5 as (Hin & file & h' & Hfile & Hid).
  apply step11_inv in H.
  assert (Hlook : In (Call (SdkGetAgent id)) ts6).
  { match type of H6 with ?m ?hh = _ =>
      pose proof (step6_looks_up id hh) as Hl; rewrite H6 in Hl; exact Hl end. }
  split; [find_in |].
  split; [rewrite !Run.hasLog_app, H, ?orb_true_r; reflexivity |].
  exists file, id, h'. split; [exact Hfile |]. split; [exact Hid |]. find_in.
Qed.

(** Once the body has sent a lookup, it returns. *)
Lemma body_reaching : signersAnswer w -> reaching isLookup (mainBody w env).
Proof.
  intros Hs. unfold mainBody.
  apply reaching_bind; [tame_by tame_banner | intros _].
  apply reaching_bind; [tame_by tame_configure | intros [[rpcUrl signer] fs]].
  apply reaching_bind; [tame_by tame_step1 | intros _].
  apply reaching_bind; [tame_by tame_step2 | intros [sdk chainId]].
  apply reaching_bind; [tame_by tame_step3 | intros _].
  apply reaching_bind; [tame_by tame_step4 | intros agentName].
  apply reaching_bind; [tame_by tame_step5 | intros id].
  apply reaching_bind; [tame_by tame_waitForIndexing | intros _].
  apply reaching_safe. apply safe_after_registration. exact Hs.
Qed.

Lemma no_call_in_fatalReport (p : Request -> bool) (e : exn) :
  existsb (isCall p) (fatalReport e) = false.
Proof. unfold fatalReport. destruct (stackOf e); reflexivity. Qed.

End ExitStatus.

(** *** One signer *)

Section OneSignerRun.

Variable w : World.
Variable env : Env.
Hypothesis no_second_signer : envGet (FEEDBACK_PRIVATE_KEY env) = None.

Lemma reaching_bind_post {A B} (p : Request -> bool) (Q : A -> Prop)
    (m : M A) (k : A -> M B) :
  spec (avoiding p) Q (fun _ => True) m ->
  (forall a, Q a -> reaching p (k a)) ->
  reaching p (bind m k).
Proof.
  intros Hm Hk h. unfold bind.
  destruct (Hm h) as [Ht Ho].
  destruct (m h) as [[a | e | c] t1]; cbn [fst snd] in *.
  - pose proof (Hk a Ho (h ++ t1)%list) as H2.
    destruct (k a (h ++ t1)%list) as [o t2]; cbn [fst snd] in *.
    rewrite existsb_app, (no_call_of_avoiding p t1 Ht). exact H2.
  - rewrite (no_call_of_avoiding p t1 Ht). discriminate.
  - rewrite (no_call_of_avoiding p t1 Ht). discriminate.
Qed.

(** Without a reviewer nothing that follows the registration can throw:
    step 8 is the skip notice and step 11 asks no signer. *)
Lemma safe_after_registration_one_signer id :
  safe (step6 w id ;;; step7 w id ;;; step8 w id None ;;; step11 w id None).
Proof.
  pose proof (safe_step6 w) as H6. pose proof (safe_step7 w) as H7.
  pose proof (safe_searchAgentsInSubgraph w) as Hq.
  unfold safe in *. spec_auto.
Qed.

Lemma configure_finds_no_reviewer :
  spec (avoiding isLookup) (fun cfg => snd cfg = None) (fun _ => True) (configure w env).
Proof.
  unfold configure. rewrite no_second_signer.
  destruct (envGet (RPC_URL env)) as [rpcUrl |]; [| spec_auto].
  destruct (envGet (PRIVATE_KEY env)) as [key |]; [| spec_auto].
  apply spec_seq; [spec_auto | intros signer].
  apply spec_bind with (Q := fun fs : option Wallet => fs = None);
    [spec_auto | intros fs ->; spec_auto].
Qed.

(** With one signer, a body that has sent a lookup returns. *)
Lemma body_reaching_one_signer : reaching isLookup (mainBody w env).
Proof.
  unfold mainBody.
  apply reaching_bind; [tame_by tame_banner | intros _].
  eapply reaching_bind_post; [apply configure_finds_no_reviewer |].
  intros [[rpcUrl signer] fs] Hfs. cbn in Hfs. subst fs.
  apply reaching_bind; [tame_by tame_step1 | intros _].
  apply reaching_bind; [tame_by tame_step2 | intros [sdk chainId]].
  apply reaching_bind; [tame_by tame_step3 | intros _].
  apply reaching_bind; [tame_by tame_step4 | intros agentName].
  apply reaching_bind; [tame_by tame_step5 | intros id].
  apply reaching_bind; [tame_by tame_waitForIndexing | intros _].
  apply reaching_safe. apply safe_after_registration_one_signer.
Qed.

End OneSignerRun.

(** C2 (amended). When only one signing identity is configured, the
    orchestrator detects it and reports it (the warning of the
    configuration, the skip notice of step 8), never prepares nor submits
    a feedback, and goes on: step 8 returns normally, and the missing
    signer never fails the run.  A run that has got as far as the first
    lookup of the new agent (its steps up to the registration have
    succeeded) always exits with status 0; a run that exits with status
    0 has written both reports and the completion line; a run exits with
    status 1 only when one of the steps up to the registration fails. *)
Theorem one_signer_skips_feedback (w : World) (env : Env) :
  envGet (FEEDBACK_PRIVATE_KEY env) = None ->
  forallb (avoiding isFeedbackWrite) (snd (run (program w env))) = true
  /\ (forall newAgentId h,
        step8 w newAgentId None h
        = (Ok tt, [Log "STEP 8: Submit Feedback";
                   Log feedbackSkipped;
                   Log "Add FEEDBACK_PRIVATE_KEY to .env to test feedback functionality"]))
  /\ (fst (run (program w env)) = Exited 0 \/ fst (run (program w env)) = Exited 1)
  /\ (fst (run (program w env)) = Exited 0 ->
      hasLog secondSignerWarning (snd (run (program w env))) = true
      /\ hasLog feedbackSkipped (snd (run (program w env))) = true
      /\ hasLog completed (snd (run (program w env))) = true)
  /\ (existsb (isCall isLookup) (snd (run (program w env))) = true ->
      fst (run (program w env)) = Exited 0)
  /\ (fst (run (program w env)) = Exited 1 ->
      existsb (isCall isLookup) (snd (run (program w env))) = false).
Proof.
  intros Hfs.
  pose proof (body_without_second_signer w env Hfs) as Hbody.
  destruct (program_of_tame_body w env isFeedbackWrite Hbody) as [Htrace Hexit].
  split; [exact Htrace |].
  split; [reflexivity |].
  split; [exact Hexit |].
  destruct (program_cases w env) as [(t & Et & Er) | (t & e & Et & Er)];
    rewrite Er; cbn [fst snd].
  - split.
    { intros _.
      destruct (body_reports w env Hfs preamble t Et) as [H1 H2].
      destruct (body_inv w env preamble t Et) as (_ & H3 & _).
      rewrite !Run.hasLog_app, H1, H2, H3.
      repeat split; rewrite ?orb_true_r; reflexivity. }
    split; [reflexivity | intros H; discriminate H].
  - assert (Hnone : existsb (isCall isLookup) (preamble ++ t ++ fatalReport e)%list = false).
    { rewrite !existsb_app, no_call_in_fatalReport, orb_false_r. cbn [preamble existsb isCall orb].
      destruct (existsb (isCall isLookup) t) eqn:Hreach; [| reflexivity].
      exfalso.
      destruct (body_reaching_one_signer w env Hfs preamble) as [a Ha];
        rewrite Et in *; [exact Hreach | discriminate Ha]. }
    split; [intros H; discriminate H |].
    split; [rewrite Hnone; intros H; discriminate H |].
    intros _. exact Hnone.
Qed.

(** The theorem on a run where everything answers and no second signer
    is configured: the run exits with status 0, with both reports. *)
Lemma one_signer_skips_feedback_witness :
  fst (run (program Worlds.happy Worlds.oneSignerEnv)) = Exited 0
  /\ hasLog secondSignerWarning (snd (run (program Worlds.happy Worlds.oneSignerEnv))) = true
  /\ hasLog feedbackSkipped (snd (run (program Worlds.happy Worlds.oneSignerEnv))) = true
  /\ forallb (avoiding isFeedbackWrite) (snd (run (program Worlds.happy Worlds.oneSignerEnv)))
     = true.
Proof.
  pose proof (one_signer_skips_feedback Worlds.happy Worlds.oneSignerEnv eq_refl)
    as (H1 & _ & _ & H4 & H5 & _).
  assert (H0 : fst (run (program Worlds.happy Worlds.oneSignerEnv)) = Exited 0)
    by (apply H5; reflexivity).
  split; [exact H0 |].
  split; [apply (H4 H0) |].
  split; [apply (H4 H0) | exact H1].
Defined.

(** C2, as stated, fails: with one signer and every collaborator
    answering, the run is not fatal, it exits with status 0. *)
Lemma one_signer_run_exits_zero :
  envGet (FEEDBACK_PRIVATE_KEY Worlds.oneSignerEnv) = None
  /\ fst (run (program Worlds.happy Worlds.oneSignerEnv)) = Exited 0.
Proof. split; reflexivity. Qed.

(** X15. The exit status of a run is 0 or 1, and it is decided by step
    5 at the latest.  A run that exits with status 0 has sent the
    registration, was answered with an agent identifier, has looked that
    agent up and has written the completion line.  Conversely (the
    signers giving their address), a run that has sent a lookup of the
    agent exits with status 0: nothing that follows the registration can
    fail it, neither a subgraph that never shows the agent, nor a failed
    loading, nor a failed feedback, nor a failed search. *)
Theorem exit_status_is_decided_by_registration (w : World) (env : Env) :
  (fst (run (program w env)) = Exited 0 \/ fst (run (program w env)) = Exited 1)
  /\ (fst (run (program w env)) = Exited 0 ->
      In (Call AgentRegisterIPFS) (snd (run (program w env)))
      /\ hasLog completed (snd (run (program w env))) = true
      /\ exists file id h,
           w_registerIPFS w AgentRegisterIPFS h = Val file
           /\ envGet (reg_agentId file) = Some id
           /\ In (Call (SdkGetAgent id)) (snd (run (program w env))))
  /\ (signersAnswer w ->
      existsb (isCall isLookup) (snd (run (program w env))) = true ->
      fst (run (program w env)) = Exited 0).
Proof.
  destruct (program_cases w env) as [(t & Et & Er) | (t & e & Et & Er)];
    rewrite Er; cbn [fst snd].
  - split; [auto |].
    split; [| reflexivity].
    intros _. destruct (body_inv w env preamble t Et) as (Hreg & Hdone & file & id & h & Hf & Hid & Hl).
    split; [find_in |].
    split; [rewrite !Run.hasLog_app, Hdone, ?orb_true_r; reflexivity |].
    exists file, id, h. split; [exact Hf |]. split; [exact Hid |]. find_in.
  - split; [auto |].
    split; [intros H; discriminate H |].
    intros Hs Hreach. exfalso.
    rewrite !existsb_app, no_call_in_fatalReport, orb_false_r in Hreach.
    cbn in Hreach.
    destruct (body_reaching w env Hs preamble) as [a Ha];
      rewrite Et in *; [exact Hreach | discriminate Ha].
Qed.

(** The theorem on three runs: everything answers; the subgraph never
    shows the agent; the submission of the feedback is reverted.  All
    three exit with status 0. *)
Lemma exit_status_is_decided_by_registration_witness :
  fst (run (program Worlds.happy Worlds.fullEnv)) = Exited 0
  /\ fst (run (program Worlds.neverIndexed Worlds.fullEnv)) = Exited 0
  /\ fst (run (program MoreWorlds.reverted Worlds.fullEnv)) = Exited 0.
Proof.
  assert (Hs : forall g, w_getAddress g = w_getAddress Worlds.happy -> signersAnswer g).
  { intros g Hg a h e. rewrite Hg. discriminate. }
  split; [| split].
  - apply (proj2 (proj2 (exit_status_is_decided_by_registration Worlds.happy Worlds.fullEnv)));
      [apply Hs; reflexivity | reflexivity].
  - apply (proj2 (proj2 (exit_status_is_decided_by_registration
                           Worlds.neverIndexed Worlds.fullEnv)));
      [apply Hs; reflexivity | reflexivity].
  - apply (proj2 (proj2 (exit_status_is_decided_by_registration
                           MoreWorlds.reverted Worlds.fullEnv)));
      [apply Hs; reflexivity | reflexivity].
Defined.

End FlowProps.

(** ** The basic SDK test: what is fatal and what is never sent *)

Module IndexTestProps.

Import IndexTest.

Section Suite.

Variable w : World.
Variable env : Env.

Lemma tame_guarded {A} (P : Event -> bool) (E : exn -> Prop)
    (query : string -> M A) (found : A -> string) (failed : string) :
  (forall s, P (Log s) = true) ->
  (forall id, tame P (query id)) ->
  spec P (fun _ => True) E (withTestAgent env query found failed).
Proof. intros Hlog Hq. unfold withTestAgent. spec_auto. apply Hq. Qed.

(** The body sends no transaction, and throws only what the unguarded
    calls throw. *)
Lemma body_never_transacts (E : exn -> Prop) :
  (forall key e, envGet (PRIVATE_KEY env) = Some key -> w_newWallet w key = Err e -> E e) ->
  (forall h e, w_chainId w SdkChainId h = Err e -> E e) ->
  (forall h e, w_registries w SdkRegistries h = Err e -> E e) ->
  (forall req h e, w_createAgent w req h = Err e -> E e) ->
  (forall req h e, w_prepareFeedback w req h = Err e -> E e) ->
  spec (avoiding isTransaction) (fun _ => True) E (mainBody w env).
Proof.
  intros Hwallet Hchain Hreg Hcreate Hprepare.
  unfold mainBody.
  apply spec_seq; [spec_auto | intros _].
  apply spec_seq.
  { destruct (envGet (PRIVATE_KEY env)) as [key |] eqn:Hkey; [| spec_auto].
    apply spec_seq; [| intros s; spec_auto].
    apply spec_lift; [auto | intros e He; exact (Hwallet key e eq_refl He)]. }
  intros signer.
  repeat (apply spec_seq; [ | intros ? ]);
    try (apply tame_guarded; [reflexivity | intros; spec_auto]);
    try solve [spec_auto].
  unfold prepareFeedback.
  destruct (negb (isReadOnly _)); cbn [when]; [| spec_auto].
  repeat (apply spec_seq; [ | intros ? ]); try solve [spec_auto].
  destruct (envGet (TEST_AGENT_ID env)) as [id |]; [| spec_auto].
  apply spec_seq; [| intros; spec_auto].
  apply spec_call; [reflexivity | auto |].
  intros h e. cbn. intros He. exact (Hprepare _ h e He).
Qed.

(** Without [TEST_AGENT_ID] the body sends no request on an agent. *)
Lemma body_skips_agent_tests :
  envGet (TEST_AGENT_ID env) = None ->
  tame (avoiding isAgentQuery) (mainBody w env).
Proof.
  intros Hid. unfold tame, mainBody, withTestAgent. rewrite Hid.
  spec_auto.
Qed.

(** With a signer and an agent, a preparation that is refused is
    fatal. *)
Lemma body_fails_on_refused_preparation (key id : string) :
  envGet (PRIVATE_KEY env) = Some key ->
  envGet (TEST_AGENT_ID env) = Some id ->
  preparationRefused w ->
  spec (fun _ => true) (fun _ => False) (fun _ => True) (mainBody w env).
Proof.
  intros Hkey Hid Hrefused.
  unfold mainBody. rewrite Hkey.
  apply spec_seq; [spec_auto | intros _].
  apply spec_bind with (Q := fun signer : option Wallet => exists s, signer = Some s).
  { apply spec_seq; [spec_auto | intros s].
    apply spec_seq; [spec_auto | intros _].
    apply spec_ret. eauto. }
  intros signer (s & ->).
  cbn [newFluidSDK cfg_signer isReadOnly negb when].
  unfold withTestAgent. rewrite Hid.
  do 20 (apply spec_seq; [ solve [spec_auto] | intros ? ]).
  apply spec_bind with (Q := fun _ : unit => False); [| intros ? []].
  do 2 (apply spec_seq; [ solve [spec_auto] | intros ? ]).
  apply spec_bind with (Q := fun _ : unit => False); [| intros ? []].
  apply spec_bind with (Q := fun _ : value => False); [| intros ? []].
  unfold prepareFeedback. apply spec_call; [reflexivity | | auto].
  intros h file. cbn. intros Hfile. exact (Hrefused _ h file Hfile).
Qed.

(** What [main] makes of its body. *)
Lemma main_cases (h : Trace) (P : Event -> bool) :
  (forall s, P (LogError s) = true) -> P (Exit 1) = true ->
  tame P (mainBody w env) ->
  forallb P (snd (main w env h)) = true
  /\ ((exists t, mainBody w env h = (Ok tt, t) /\ fst (main w env h) = Ok tt)
      \/ (exists e t, mainBody w env h = (Throw e, t) /\ fst (main w env h) = Exited 1)).
Proof.
  intros Perr Pexit Hbody. unfold main, tryCatch.
  destruct (Hbody h) as [Ht Ho].
  destruct (mainBody w env h) as [[[] | e | c] t]; cbn [fst snd] in *;
    [ split; [exact Ht | left; eauto] | | contradiction ].
  exec. destruct (stackOf e); cbn; rewrite forallb_app, Ht; cbn;
    rewrite ?Perr, ?Pexit; split; try reflexivity; right; eauto.
Qed.

End Suite.

(** X16. The basic test never sends a transaction, with or without a
    signer: no run registers an agent or submits a feedback (its write
    section stops at the preparation).  A run either returns normally or
    ends with exit status 1. *)
Theorem suite_never_transacts (w : World) (env : Env) :
  forallb (avoiding isTransaction) (snd (run (main w env))) = true
  /\ (fst (run (main w env)) = Ok tt \/ fst (run (main w env)) = Exited 1).
Proof.
  pose proof (body_never_transacts w env (fun _ => True)
                (fun _ _ _ _ => I) (fun _ _ _ => I) (fun _ _ _ => I)
                (fun _ _ _ _ => I) (fun _ _ _ _ => I)) as Hbody.
  destruct (main_cases w env [] (avoiding isTransaction)
              (fun _ => eq_refl) eq_refl Hbody) as [Ht Ho].
  split; [exact Ht |].
  destruct Ho as [(t & _ & Ho) | (e & t & _ & Ho)]; auto.
Qed.

(** X17. Without [TEST_AGENT_ID] the tests that need an agent are
    skipped: no run looks an agent up, loads it, searches its feedback,
    asks for its reputation or prepares a feedback for it. *)
Theorem agent_tests_need_an_agent (w : World) (env : Env) :
  envGet (TEST_AGENT_ID env) = None ->
  forallb (avoiding isAgentQuery) (snd (run (main w env))) = true.
Proof.
  intros Hid.
  apply (main_cases w env [] (avoiding isAgentQuery) (fun _ => eq_refl) eq_refl).
  apply body_skips_agent_tests. exact Hid.
Qed.

Lemma agent_tests_need_an_agent_witness :
  forallb (avoiding isAgentQuery) (snd (run (main Worlds.happy MoreWorlds.signerOnlyEnv)))
  = true.
Proof.
  apply (agent_tests_need_an_agent Worlds.happy MoreWorlds.signerOnlyEnv).
  reflexivity.
Defined.

(** X18. In the basic test only the calls made outside the [try] of a
    test are fatal.  When the wallet constructor, the chain, the
    registries, the creation of the agent object and the preparation of
    the feedback answer, the run returns normally, whatever the six read
    queries do.  But the preparation of test 8 has no [try] of its own:
    with a signer and an agent, a refused preparation ends the run with
    exit status 1. *)
Theorem only_unguarded_calls_are_fatal (w : World) (env : Env) :
  (unguardedAnswer w env -> fst (run (main w env)) = Ok tt)
  /\ (forall key id,
        envGet (PRIVATE_KEY env) = Some key ->
        envGet (TEST_AGENT_ID env) = Some id ->
        preparationRefused w ->
        fst (run (main w env)) = Exited 1).
Proof.
  split.
  - intros (Hwallet & Hchain & Hreg & Hcreate & Hprepare).
    pose proof (body_never_transacts w env (fun _ => False)
                  (fun key e Hk He => Hwallet key e Hk He)
                  (fun h e He => Hchain h e He) (fun h e He => Hreg h e He)
                  (fun req h e He => Hcreate req h e He)
                  (fun req h e He => Hprepare req h e He)) as Hbody.
    unfold run, main, tryCatch.
    destruct (Hbody []) as [_ Ho].
    destruct (mainBody w env []) as [[[] | e | c] t]; cbn [fst] in *;
      [reflexivity | contradiction | contradiction].
  - intros key id Hkey Hid Hrefused.
    pose proof (body_fails_on_refused_preparation w env key id Hkey Hid Hrefused) as Hbody.
    unfold run, main, tryCatch.
    destruct (Hbody []) as [_ Ho].
    destruct (mainBody w env []) as [[[] | e | c] t]; cbn [fst] in *;
      [contradiction | | contradiction].
    exec. destruct (stackOf e); reflexivity.
Qed.

(** The theorem on a run with a signer and an agent where the subgraph
    is down for the search of the feedback: the run returns normally. *)
Lemma only_unguarded_calls_are_fatal_witness :
  fst (run (main Worlds.searchDown Worlds.fullEnv)) = Ok tt.
Proof.
  apply (proj1 (only_unguarded_calls_are_fatal Worlds.searchDown Worlds.fullEnv)).
  repeat split; intros; discriminate.
Defined.

End IndexTestProps.

(** ** The standalone feedback script *)

Module TestFeedbackProps.

Import TestFeedback.

Section Script.

Variable w : World.
Variable env : Env.

Lemma safe_own_query id : safe (queryFeedbackFromSubgraph w id).
Proof. unfold safe. spec_auto. Qed.

Lemma safe_retrieve signer feedback : safe (retrieve w signer feedback).
Proof. unfold safe. spec_auto. Qed.

(** What the script does up to the submission. *)
Lemma tame_mainnam (P : Event -> bool) :
  (forall s, P (Log s) = true) -> (forall ms, P (Sleep ms) = true) ->
  P (Call SdkChainId) = true ->
  P (Call (SdkGiveFeedback newAgentId None)) = true ->
  (forall id t, P (Call (SdkSearchFeedback id t)) = true) ->
  (forall id t, P (Call (SdkGetReputationSummary id t)) = true) ->
  (forall a, P (Call (SignerGetAddress a)) = true) ->
  (forall id r i, P (Call (SdkGetFeedback id r i)) = true) ->
  tame P (mainnam w env).
Proof. intros. spec_auto. Qed.

Lemma program_cases_own (h : Trace) :
  (exists t, mainnam w env h = (Ok tt, t) /\ program w env h = (Ok tt, t))
  \/ (exists e t,
        mainnam w env h = (Throw e, t)
        /\ program w env h
           = (Exited 1,
              (t ++ [LogError ("Error in testfeedback script: " ++ describe e); Exit 1])%list)).
Proof.
  assert (Hbody : tame (fun _ => true) (mainnam w env))
    by (apply tame_mainnam; intros; reflexivity).
  unfold program, tryCatch.
  destruct (Hbody h) as [_ Ho].
  destruct (mainnam w env h) as [[[] | e | c] t]; cbn [fst] in Ho;
    [left; eauto | right | contradiction].
  exists e, t. split; reflexivity.
Qed.

Lemma mainnam_unconfigured (h : Trace) :
  reviewerMisconfigured w env ->
  exists e, mainnam w env h = (Throw e, []).
Proof.
  unfold mainnam.
  intros [H | [H | (key & e & Hk & He)]].
  - rewrite H. eexists; reflexivity.
  - rewrite H. destruct (envGet (RPC_URL env)); eexists; reflexivity.
  - rewrite Hk. destruct (envGet (RPC_URL env)); [| eexists; reflexivity].
    exec. rewrite He. eexists; reflexivity.
Qed.

(** Once a query on the feedback is sent, the script returns. *)
Lemma mainnam_reaching : reaching isFeedbackRead (mainnam w env).
Proof.
  unfold mainnam.
  destruct (envGet (RPC_URL env)) as [rpcUrl |];
    [| intros h H; discriminate H].
  destruct (envGet (FEEDBACK_PRIVATE_KEY env)) as [key |];
    [| intros h H; discriminate H].
  apply reaching_bind; [spec_auto | intros signer].
  apply reaching_bind; [spec_auto | intros sdkConfig].
  apply reaching_bind; [spec_auto | intros _].
  apply reaching_bind; [spec_auto | intros _].
  apply reaching_bind; [spec_auto | intros _].
  apply reaching_bind; [spec_auto | intros feedback].
  apply reaching_safe.
  pose proof safe_own_query as Hq. pose proof safe_retrieve as Hr.
  unfold safe in *. spec_auto.
Qed.

Lemma mainnam_fails_on_refused_submission :
  submissionRefused w ->
  spec (avoiding isFeedbackRead) (fun _ => False) (fun _ => True) (mainnam w env).
Proof.
  intros Hrefused. unfold mainnam.
  destruct (envGet (RPC_URL env)) as [rpcUrl |]; [| spec_auto].
  destruct (envGet (FEEDBACK_PRIVATE_KEY env)) as [key |]; [| spec_auto].
  apply spec_seq; [spec_auto | intros signer].
  apply spec_seq; [spec_auto | intros sdkConfig].
  apply spec_seq; [spec_auto | intros _].
  apply spec_seq; [spec_auto | intros _].
  apply spec_seq; [spec_auto | intros _].
  apply spec_bind with (Q := fun _ : Feedback => False); [| intros ? []].
  apply spec_ask; [reflexivity | | auto].
  intros h a Ha. exact (Hrefused _ h a Ha).
Qed.

End Script.

(** X19. The standalone feedback script needs RPC_URL and
    FEEDBACK_PRIVATE_KEY, and nothing else: when one of them is missing
    or empty, or when the wallet constructor refuses the key, the script
    ends with exit status 1 without a single request and with the error
    as its only console line. *)
Theorem feedback_script_requires_its_key (w : World) (env : Env) :
  reviewerMisconfigured w env ->
  exists e,
    run (program w env)
    = (Exited 1, [LogError ("Error in testfeedback script: " ++ describe e); Exit 1]).
Proof.
  intros Hmis.
  destruct (mainnam_unconfigured w env [] Hmis) as [e He].
  exists e. unfold run, program. erewrite Run.tryCatch_caught; [| exact He | reflexivity].
  reflexivity.
Qed.

(** The theorem on a run whose environment holds the owner's key only. *)
Lemma feedback_script_requires_its_key_witness :
  exists e,
    run (program Worlds.happy Worlds.oneSignerEnv)
    = (Exited 1, [LogError ("Error in testfeedback script: " ++ describe e); Exit 1]).
Proof.
  apply (feedback_script_requires_its_key Worlds.happy Worlds.oneSignerEnv).
  right. left. reflexivity.
Defined.

(** X20. In the standalone feedback script the submission decides the
    run.  A run either returns normally or ends with exit status 1; it
    never prepares a feedback (the file is given) and it submits at most
    once, without a separate signer.  When the submission is refused the
    run ends with exit status 1 and no query on the feedback is sent;
    once a query on the feedback is sent the run returns normally,
    whatever the queries answer. *)
Theorem feedback_script_is_decided_by_the_submission (w : World) (env : Env) :
  (fst (run (program w env)) = Ok tt \/ fst (run (program w env)) = Exited 1)
  /\ forallb (avoiding (unexpectedWrite newAgentId))
             (snd (run (program w env))) = true
  /\ (submissionRefused w ->
      fst (run (program w env)) = Exited 1
      /\ forallb (avoiding isFeedbackRead) (snd (run (program w env))) = true)
  /\ (existsb (isCall isFeedbackRead) (snd (run (program w env))) = true ->
      fst (run (program w env)) = Ok tt).
Proof.
  unfold run.
  destruct (program_cases_own w env []) as [(t & Et & Er) | (e & t & Et & Er)];
    rewrite Er; cbn [fst snd].
  - split; [auto |].
    split.
    { assert (H : tame (avoiding (unexpectedWrite newAgentId)) (mainnam w env))
        by (apply tame_mainnam; intros; reflexivity).
      destruct (H []) as [Ht _]. rewrite Et in Ht. exact Ht. }
    split; [| reflexivity].
    intros Hrefused. exfalso.
    destruct (mainnam_fails_on_refused_submission w env Hrefused []) as [_ Ho].
    rewrite Et in Ho. exact Ho.
  - split; [auto |].
    split.
    { assert (H : tame (avoiding (unexpectedWrite newAgentId)) (mainnam w env))
        by (apply tame_mainnam; intros; reflexivity).
      destruct (H []) as [Ht _]. rewrite Et in Ht. cbn [snd] in Ht.
      rewrite forallb_app, Ht. reflexivity. }
    split.
    + intros Hrefused. split; [reflexivity |].
      destruct (mainnam_fails_on_refused_submission w env Hrefused []) as [Ht _].
      rewrite Et in Ht. cbn [snd] in Ht. rewrite forallb_app, Ht. reflexivity.
    + intros Hreach. exfalso.
      rewrite existsb_app in Hreach. cbn in Hreach. rewrite orb_false_r in Hreach.
      destruct (mainnam_reaching w env []) as [a Ha];
        rewrite Et in *; [exact Hreach | discriminate Ha].
Qed.

End TestFeedbackProps.

(** ** The program logic, for the scripts with more collaborators *)

Module WideLogic.

Import Wide.

Section Rules.

Context {A B : Type}.
Variable P : Event -> bool.
Variable E : exn -> Prop.

Lemma wide_ret (Q : A -> Prop) (a : A) : Q a -> spec P Q E (ret a).
Proof. intros Ha h; cbn; auto. Qed.

Lemma wide_bind (Q : A -> Prop) (R : B -> Prop) (m : M A) (k : A -> M B) :
  spec P Q E m -> (forall a, Q a -> spec P R E (k a)) -> spec P R E (bind m k).
Proof.
  intros Hm Hk h. unfold bind.
  destruct (Hm h) as [Ht Ho].
  destruct (m h) as [[a | e | c] t1]; cbn in *; try tauto.
  destruct (Hk a Ho (h ++ t1)%list) as [Ht2 Ho2].
  destruct (k a (h ++ t1)%list) as [o t2]; cbn in *.
  rewrite forallb_app, Ht, Ht2. auto.
Qed.

Lemma wide_seq (R : B -> Prop) (m : M A) (k : A -> M B) :
  spec P (fun _ => True) E m -> (forall a, spec P R E (k a)) -> spec P R E (bind m k).
Proof. intros Hm Hk. eapply wide_bind; [exact Hm | intros; apply Hk]. Qed.

Lemma wide_tryCatch (Q : A -> Prop) (E' : exn -> Prop) (m : M A) (handler : exn -> M A) :
  spec P Q E' m -> (forall e, E' e -> spec P Q E (handler e)) ->
  spec P Q E (tryCatch m handler).
Proof.
  intros Hm Hh h. unfold tryCatch.
  destruct (Hm h) as [Ht Ho].
  destruct (m h) as [[a | e | c] t1]; cbn in *; try tauto.
  destruct (Hh e Ho (h ++ t1)%list) as [Ht2 Ho2].
  destruct (handler e (h ++ t1)%list) as [o t2]; cbn in *.
  rewrite forallb_app, Ht, Ht2. auto.
Qed.

Lemma wide_tryCatch_any (Q : A -> Prop) (m : M A) (handler : exn -> M A) :
  spec P Q (fun _ => True) m -> (forall e, spec P Q E (handler e)) ->
  spec P Q E (tryCatch m handler).
Proof. intros Hm Hh. eapply wide_tryCatch; [exact Hm | intros; apply Hh]. Qed.

(** The finalizer runs on every path, and what it throws is thrown. *)
Lemma wide_finally (Q : A -> Prop) (m : M A) (handler : exn -> M A) (finalizer : M unit) :
  spec P Q (fun _ => True) m -> (forall e, spec P Q E (handler e)) ->
  spec P (fun _ => True) E finalizer ->
  spec P Q E (tryCatchFinally m handler finalizer).
Proof.
  intros Hm Hh Hf h. unfold tryCatchFinally.
  destruct (wide_tryCatch_any Q m handler Hm Hh h) as [Ht Ho].
  destruct (tryCatch m handler h) as [[a | e | c] t1]; cbn [fst snd] in *;
    try contradiction;
    destruct (Hf (h ++ t1)%list) as [Ht2 Ho2];
    destruct (finalizer (h ++ t1)%list) as [[[] | e2 | c2] t2]; cbn [fst snd] in *;
    try contradiction; rewrite forallb_app, Ht, Ht2; auto.
Qed.

Lemma wide_ask (Q : A -> Prop) (oracle : Request -> Trace -> Result A) (req : Request) :
  P (Call req) = true ->
  (forall h a, oracle req h = Val a -> Q a) ->
  (forall h e, oracle req h = Err e -> E e) ->
  spec P Q E (ask oracle req).
Proof.
  intros HP HQ HE h. unfold ask.
  destruct (oracle req h) eqn:Eo; cbn; rewrite HP; split; eauto.
Qed.

(** A script of [Script] keeps its specification. *)
Lemma wide_embed (Q : A -> Prop) (P0 : Script.Event -> bool) (m : Script.M A) :
  Observe.spec P0 Q E m ->
  (forall e, P0 e = true -> P (Narrow e) = true) ->
  spec P Q E (embed m).
Proof.
  intros Hm HP h. unfold embed.
  destruct (Hm (narrow h)) as [Ht Ho].
  destruct (m (narrow h)) as [o t]; cbn [fst snd] in *.
  split; [| exact Ho].
  rewrite forallb_forall in *. intros e He.
  apply in_map_iff in He. destruct He as (e0 & <- & He0). auto.
Qed.

Lemma wide_lift (Q : A -> Prop) (r : Result A) :
  (forall a, r = Val a -> Q a) -> (forall e, r = Err e -> E e) -> spec P Q E (lift r).
Proof. intros HQ HE h. unfold lift, embed, Script.lift. destruct r; cbn; auto. Qed.

Lemma wide_throwError (Q : A -> Prop) (msg : string) :
  E (JsError msg "Error") -> spec P Q E (throwError msg).
Proof. intros He h; cbn; auto. Qed.

Lemma wide_askSdk (Q : A -> Prop) (oracle : Script.Request -> Script.Trace -> Result A)
    (req : Script.Request) :
  P (Narrow (Script.Call req)) = true ->
  (forall h a, oracle req h = Val a -> Q a) ->
  (forall h e, oracle req h = Err e -> E e) ->
  spec P Q E (askSdk oracle req).
Proof.
  intros HP HQ HE h. unfold askSdk, embed, Sdk.ask, Script.call.
  destruct (oracle req (narrow h)) eqn:Eo; cbn; rewrite HP; split; eauto.
Qed.

End Rules.

Section UnitRules.

Variable P : Event -> bool.
Variable E : exn -> Prop.

Lemma wide_log (Q : unit -> Prop) (text : string) :
  P (Narrow (Log text)) = true -> Q tt -> spec P Q E (log text).
Proof. intros HP HQ h; cbn. rewrite HP. auto. Qed.

Lemma wide_logError (Q : unit -> Prop) (text : string) :
  P (Narrow (LogError text)) = true -> Q tt -> spec P Q E (logError text).
Proof. intros HP HQ h; cbn. rewrite HP. auto. Qed.

Lemma wide_sleep (Q : unit -> Prop) (ms : Z) :
  P (Narrow (Sleep ms)) = true -> Q tt -> spec P Q E (sleep ms).
Proof. intros HP HQ h; cbn. rewrite HP. auto. Qed.

Lemma wide_tell (Q : unit -> Prop) (req : Request) :
  P (Call req) = true -> Q tt -> spec P Q E (tell req).
Proof. intros HP HQ h; cbn. rewrite HP. auto. Qed.

Lemma wide_history (Q : Trace -> Prop) : (forall h, Q h) -> spec P Q E history.
Proof. intros HQ h; cbn. auto. Qed.

Lemma wide_dateNow (w : Sdk.World) : spec P (fun _ => True) E (embed (dateNow w)).
Proof. intros h; cbn; auto. Qed.

End UnitRules.

Lemma wide_bind_ok {A B} (m : M A) (k : A -> M B) (h t1 t2 : Trace) (a : A)
    (o : Outcome B) :
  m h = (Ok a, t1) -> k a (h ++ t1)%list = (o, t2) ->
  bind m k h = (o, (t1 ++ t2)%list).
Proof. intros Hm Hk. unfold bind. rewrite Hm, Hk. reflexivity. Qed.

Lemma wide_tryCatch_exited {A} (m : M A) (handler : exn -> M A) (h t : Trace) (c : Z) :
  m h = (Exited c, t) -> tryCatch m handler h = (Exited c, t).
Proof. intros Hm. unfold tryCatch. rewrite Hm. reflexivity. Qed.

Lemma returns_of_wide_safe {A} (m : M A) : safe m -> forall h, exists a, fst (m h) = Ok a.
Proof.
  intros H h. destruct (H h) as [_ Ho].
  destruct (fst (m h)) as [a | e | c]; [eauto | contradiction | contradiction].
Qed.

End WideLogic.

Import WideLogic.

Ltac wide_step :=
  lazymatch goal with
  | |- Wide.tame _ _ => unfold Wide.tame
  | |- Wide.safe _ => unfold Wide.safe
  | |- Wide.spec _ _ _ (Wide.bind _ _) => apply wide_seq; [ | intros ]
  | |- Wide.spec _ _ _ (Wide.tryCatch _ _) => apply wide_tryCatch_any; [ | intros ]
  | |- Wide.spec _ _ _ (Wide.ret _) => apply wide_ret; side
  | |- Wide.spec _ _ _ (Wide.log _) => apply wide_log; side
  | |- Wide.spec _ _ _ (Wide.logError _) => apply wide_logError; side
  | |- Wide.spec _ _ _ (Wide.sleep _) => apply wide_sleep; side
  | |- Wide.spec _ _ _ (Wide.throwError _) => apply wide_throwError; side
  | |- Wide.spec _ _ _ (Wide.lift _) => apply wide_lift; side
  | |- Wide.spec _ _ _ (Wide.askSdk _ _) => apply wide_askSdk; side
  | |- Wide.spec _ _ _ (Wide.ask _ _) => apply wide_ask; side
  | |- Wide.spec _ _ _ (Wide.tell _) => apply wide_tell; side
  | |- Wide.spec _ _ _ Wide.history => apply wide_history; side
  | |- Wide.spec _ _ _ (Wide.embed (dateNow _)) => apply wide_dateNow
  | |- Wide.spec _ _ _ (Wide.when ?b _) => destruct b eqn:?; cbn [Wide.when]
  | |- Wide.spec _ _ _ (match ?x with _ => _ end) => destruct x eqn:?
  | |- Wide.spec _ _ _ ?m => let f := head_of m in progress unfold f
  end.

Ltac wide_auto := repeat (first [ solve [ auto with tame ] | wide_step ]).

(** ** The single-signer full-flow script: what is skipped and what is
       fatal *)

Module FullFlowScriptProps.

Import Wide WideMeasures FullFlowScript.

Section Script.

Variable ww : World.
Variable env : Env.

(** The feedback flow only sends what it is written to send, and
    returns. *)
Lemma feedbackFlow_embedded (P : Event -> bool) (E : exn -> Prop) id signer :
  (forall s, P (Narrow (Log s)) = true) ->
  (forall ms, P (Narrow (Sleep ms)) = true) ->
  (forall a sc tags, P (Narrow (Script.Call (SdkPrepareFeedback a sc tags))) = true) ->
  (forall a s, P (Narrow (Script.Call (SdkGiveFeedback a s))) = true) ->
  (forall a r i, P (Narrow (Script.Call (SdkGetFeedback a r i))) = true) ->
  (forall a t, P (Narrow (Script.Call (SdkSearchFeedback a t))) = true) ->
  (forall a t, P (Narrow (Script.Call (SdkGetReputationSummary a t))) = true) ->
  spec P (fun _ => True) E (embed (FullFlow.feedbackFlow (base ww) id signer)).
Proof.
  intros Hlog Hsleep Hprep Hgive Hget Hsearch Hrep.
  apply wide_embed with (P0 := fun e => P (Narrow e)); [| auto].
  unfold FullFlow.feedbackFlow, FullFlow.verifyFeedback, FullFlow.retrieveFeedback,
    FullFlow.searchAgentFeedback, FullFlow.reputationSummary, prepareFeedback.
  spec_auto.
Qed.

Let w : Sdk.World := base ww.

Lemma tame_configureEndpoints (P : Event -> bool) (E : exn -> Prop) :
  (forall s, P (Narrow (Log s)) = true) ->
  (forall u v a, P (Narrow (Script.Call (AgentSetMCP u v a))) = true) ->
  (forall b, P (Narrow (Script.Call (AgentSetActive b))) = true) ->
  (forall u v a, P (Call (AgentSetA2A u v a)) = true) ->
  spec P (fun _ => True) E (configureEndpoints ww).
Proof. intros. wide_auto. Qed.

(** The registration block reports every failure, and returns. *)
Lemma tame_register (P : Event -> bool) (E : exn -> Prop) sdk signer :
  (forall e, silent e = true -> P e = true) ->
  (forall r, isRegistration r = false -> isCreation r = false ->
             P (Narrow (Script.Call r)) = true) ->
  (ipfsClient sdk = true -> P (Narrow (Script.Call AgentRegisterIPFS)) = true) ->
  spec P (fun _ => True) E (register ww sdk signer).
Proof.
  intros Hsilent Hreq Hreg.
  assert (Hlog : forall s, P (Narrow (Log s)) = true) by (intros; apply Hsilent; reflexivity).
  assert (Hsleep : forall ms, P (Narrow (Sleep ms)) = true)
    by (intros; apply Hsilent; reflexivity).
  assert (Hflow : forall id, spec P (fun _ => True) (fun _ => True)
                               (embed (FullFlow.feedbackFlow (base ww) id signer)))
    by (intros; apply feedbackFlow_embedded; intros; auto).
  unfold register, loadRegistered, searchForAgent, getAgentById.
  apply wide_tryCatch_any; [| intros e; wide_auto].
  apply wide_seq; [wide_auto | intros _].
  destruct (ipfsClient sdk) eqn:Hipfs; cbn [negb]; [| wide_auto].
  wide_auto.
Qed.

(** The body, with what its setup may throw. *)
Lemma body_spec (P : Event -> bool) (E : exn -> Prop) :
  (forall e, silent e = true -> P e = true) ->
  (forall r, isRegistration r = false -> P (Narrow (Script.Call r)) = true) ->
  P (Narrow (Script.Call AgentRegisterIPFS)) = true ->
  (forall u v a, P (Call (AgentSetA2A u v a)) = true) ->
  (envGet (RPC_URL env) = None -> E (JsError "RPC_URL not set in .env file" "Error")) ->
  (envGet (PRIVATE_KEY env) = None ->
   E (JsError "PRIVATE_KEY not set in .env file - write operations require a signer"
        "Error")) ->
  (forall key e, envGet (PRIVATE_KEY env) = Some key -> w_newWallet w key = Err e -> E e) ->
  (forall h e, w_chainId w SdkChainId h = Err e -> E e) ->
  (forall req h e, w_getBalance w req h = Err e -> E e) ->
  (forall h e, w_registries w SdkRegistries h = Err e -> E e) ->
  (forall req h e, w_createAgent w req h = Err e -> E e) ->
  spec P (fun _ => True) E (mainBody ww env).
Proof.
  intros Hsilent Hreq Hreg Ha2a Hrpc Hkey Hwallet Hchain Hbalance Hregs Hcreate.
  assert (Hlog : forall s, P (Narrow (Log s)) = true) by (intros; apply Hsilent; reflexivity).
  assert (Hc : forall E', spec P (fun _ => True) E' (configureEndpoints ww)).
  { intros E'. apply tame_configureEndpoints; intros; auto. }
  assert (Hr : forall E' sdk signer, spec P (fun _ => True) E' (register ww sdk signer)).
  { intros E' sdk signer. apply tame_register; intros; auto. }
  unfold mainBody. fold w.
  do 3 (apply wide_seq; [wide_auto | intros _]).
  destruct (envGet (RPC_URL env)) as [rpcUrl |]; [| wide_auto].
  destruct (envGet (PRIVATE_KEY env)) as [key |] eqn:Ekey; [| wide_auto].
  apply wide_seq; [apply wide_lift; [auto | intros e He; exact (Hwallet key e eq_refl He)] |].
  intros signer.
  wide_auto; eauto.
Qed.

(** The two ways a run ends. *)
Lemma script_cases :
  (exists t tail,
      mainBody ww env (preamble "Starting in 2 seconds...") = (Ok tt, t)
      /\ run (program ww env)
         = (Exited 0, (preamble "Starting in 2 seconds..." ++ t ++ tail)%list)
      /\ forallb silent tail = true)
  \/ (exists t e tail,
        mainBody ww env (preamble "Starting in 2 seconds...") = (Throw e, t)
        /\ run (program ww env)
           = (Exited 1, (preamble "Starting in 2 seconds..." ++ t ++ tail)%list)
        /\ forallb silent tail = true).
Proof.
  assert (Hbody : tame (fun _ => true) (mainBody ww env))
    by (apply body_spec; intros; auto).
  destruct (Hbody (preamble "Starting in 2 seconds...")) as [_ Ho].
  destruct (mainBody ww env (preamble "Starting in 2 seconds...")) as [[[] | e | c] t] eqn:Eb;
    cbn [fst] in Ho; [| | contradiction].
  - left. exists t. eexists. split; [reflexivity |].
    unfold preamble in *.
    cbv [run program main bind tryCatch log sleep exit logError embed Script.log
         Script.sleep Script.emit Script.exit Script.logError map app].
    rewrite Eb. split; reflexivity.
  - right. exists t, e.
    destruct (stackOf e) as [st |] eqn:Est;
      eexists; (split; [reflexivity |]);
      unfold preamble in *;
      cbv [run program main bind tryCatch log sleep exit logError embed Script.log
           Script.sleep Script.emit Script.exit Script.logError map app];
      rewrite Eb; cbv beta iota zeta; rewrite Est;
      cbv [ret map app]; split; reflexivity.
Qed.

Lemma silent_avoiding (bad : Script.Request -> bool) (e : Event) :
  silent e = true -> avoiding bad e = true.
Proof. destruct e as [[] |]; cbn; intros H; try reflexivity; discriminate H. Qed.

(** Where the registration is skipped, the body sends no transaction. *)
Lemma body_skips_registration :
  envGet (PINATA_JWT env) = None \/ ownerHasNoFunds w env \/ noRegistries w ->
  tame (avoiding isTransaction) (mainBody ww env).
Proof.
  intros Hskip.
  assert (Hc : forall E', spec (avoiding isTransaction) (fun _ => True) E'
                               (configureEndpoints ww)).
  { intros E'. apply tame_configureEndpoints; intros; reflexivity. }
  unfold tame, mainBody. fold w.
  do 3 (apply wide_seq; [wide_auto | intros _]).
  destruct (envGet (RPC_URL env)) as [rpcUrl |]; [| wide_auto].
  destruct (envGet (PRIVATE_KEY env)) as [key |] eqn:Ekey; [| wide_auto].
  apply wide_bind with (Q := fun signer : Wallet => w_newWallet w key = Val signer);
    [wide_auto | intros signer Hsigner].
  apply wide_seq; [wide_auto | intros _].
  apply wide_bind with
    (Q := fun c : SdkConfig => envGet (PINATA_JWT env) = None -> cfg_ipfs c = None).
  { destruct (envGet (PINATA_JWT env)) as [jwt |];
      (apply wide_seq; [wide_auto | intros _]); apply wide_ret;
      [intros H; discriminate H | reflexivity]. }
  intros sdkConfig Hconfig.
  apply wide_seq; [wide_auto | intros _].
  apply wide_seq; [wide_auto | intros chainId].
  apply wide_bind with (Q := fun balance : Z => ownerHasNoFunds w env -> balance = 0).
  { apply wide_askSdk; [reflexivity | | auto].
    intros h balance Hb Hfunds. exact (Hfunds key signer h balance Ekey Hsigner Hb). }
  intros balance Hbalance.
  apply wide_seq; [wide_auto | intros _].
  apply wide_bind with
    (Q := fun registries : list (string * string) => noRegistries w -> registries = []).
  { apply wide_askSdk; [reflexivity | | auto].
    intros h registries Hr Hnone. exact (Hnone h registries Hr). }
  intros registries Hregistries.
  destruct (len registries =? 0) eqn:Elen; [wide_auto |].
  do 6 (apply wide_seq; [wide_auto | intros ?]).
  apply wide_seq; [wide_auto | intros _].
  apply wide_seq; [wide_auto | intros _].
  destruct Hskip as [Hjwt | [Hfunds | Hnone]].
  - destruct (balance =? 0); [wide_auto |].
    unfold register. cbn [newFluidSDK ipfsClient]. rewrite (Hconfig Hjwt). cbn [negb].
    wide_auto.
  - rewrite (Hbalance Hfunds). cbn. wide_auto.
  - rewrite (Hregistries Hnone) in Elen. discriminate Elen.
Qed.

End Script.

(** X21. In the single-signer full flow the guards of the registration
    skip it, they do not fail the run: when no pinning credential is
    configured, or the owner's balance reads zero, or the SDK knows no
    registry, no run sends a transaction (neither the registration nor a
    feedback), and the run still ends with exit status 0 whenever its
    setup answers (the two variables, the wallet constructor, the chain,
    the balance, the registries and the creation of the agent object);
    it ends with exit status 1 only when the setup fails. *)
Theorem registration_is_skipped_not_failed (ww : World) (env : Env) :
  envGet (PINATA_JWT env) = None \/ ownerHasNoFunds (base ww) env \/ noRegistries (base ww) ->
  forallb (avoiding isTransaction) (snd (run (program ww env))) = true
  /\ (setupAnswers (base ww) env -> fst (run (program ww env)) = Exited 0)
  /\ (fst (run (program ww env)) = Exited 1 -> ~ setupAnswers (base ww) env).
Proof.
  intros Hskip.
  assert (Hzero : setupAnswers (base ww) env -> fst (run (program ww env)) = Exited 0).
  { intros (Hrpc & Hkey & Hwallet & Hchain & Hbalance & Hregs & Hcreate).
    assert (Hbody : spec (fun _ => true) (fun _ => True) (fun _ => False) (mainBody ww env)).
    { apply body_spec; intros; try reflexivity; eauto.
      - eapply Hwallet; eauto.
      - eapply Hchain; eauto.
      - eapply Hbalance; eauto.
      - eapply Hregs; eauto.
      - eapply Hcreate; eauto. }
    destruct (Hbody (preamble "Starting in 2 seconds...")) as [_ Ho].
    destruct (script_cases ww env)
      as [(t & tail & Eb & Er & Hs) | (t & e & tail & Eb & Er & Hs)];
      rewrite Er; rewrite Eb in Ho; cbn [fst] in *; [reflexivity | contradiction]. }
  split; [| split; [exact Hzero |]].
  - destruct (body_skips_registration ww env Hskip (preamble "Starting in 2 seconds..."))
      as [Ht _].
    destruct (script_cases ww env)
      as [(t & tail & Eb & Er & Hs) | (t & e & tail & Eb & Er & Hs)];
      rewrite Er; rewrite Eb in Ht; cbn [fst snd] in *;
      rewrite !forallb_app, Ht; cbn [forallb preamble avoiding Observe.avoiding andb];
      apply forallb_forall; intros x Hx; apply silent_avoiding;
      rewrite forallb_forall in Hs; auto.
  - intros Hone Hsetup. rewrite (Hzero Hsetup) in Hone. discriminate Hone.
Qed.

(** The theorem on a run without a pinning credential: no transaction,
    and exit status 0. *)
Lemma registration_is_skipped_not_failed_witness :
  forallb (avoiding isTransaction)
          (snd (run (program (plain Worlds.happy) Worlds.noIpfsEnv))) = true
  /\ fst (run (program (plain Worlds.happy) Worlds.noIpfsEnv)) = Exited 0.
Proof.
  pose proof (registration_is_skipped_not_failed (plain Worlds.happy) Worlds.noIpfsEnv
                (or_introl eq_refl)) as (H1 & H2 & _).
  split; [exact H1 |].
  apply H2. repeat split; intros; discriminate.
Defined.

(** X22. In the single-signer full flow only the setup is fatal: when
    the two variables are set, the wallet constructor accepts the key,
    and the chain, the balance, the registries and the creation of the
    agent object answer, the run ends with exit status 0, whatever the
    endpoints, the registration, the loading, the feedback and the
    queries do. *)
Theorem only_the_setup_is_fatal (ww : World) (env : Env) :
  setupAnswers (base ww) env ->
  fst (run (program ww env)) = Exited 0.
Proof.
  intros (Hrpc & Hkey & Hwallet & Hchain & Hbalance & Hregs & Hcreate).
  assert (Hbody : spec (fun _ => true) (fun _ => True) (fun _ => False) (mainBody ww env)).
  { apply body_spec; intros; try reflexivity; eauto.
    - eapply Hwallet; eauto.
    - eapply Hchain; eauto.
    - eapply Hbalance; eauto.
    - eapply Hregs; eauto.
    - eapply Hcreate; eauto. }
  destruct (Hbody (preamble "Starting in 2 seconds...")) as [_ Ho].
  destruct (script_cases ww env) as [(t & tail & Eb & Er & Hs) | (t & e & tail & Eb & Er & Hs)];
    rewrite Er; rewrite Eb in Ho; cbn [fst] in *; [reflexivity | contradiction].
Qed.

Lemma only_the_setup_is_fatal_witness :
  fst (run (program (plain MoreWorlds.endpointDown) Worlds.fullEnv)) = Exited 0.
Proof.
  apply (only_the_setup_is_fatal (plain MoreWorlds.endpointDown) Worlds.fullEnv).
  repeat split; intros; discriminate.
Defined.

End FullFlowScriptProps.

(** ** The MCP integration test *)

Module McpIntegrationProps.

Import Wide WideMeasures McpIntegration.

Section Script.

Variable ww : World.
Variable env : Env.

Lemma tame_forEach {A} (P : Event -> bool) (E : exn -> Prop) (f : A -> M unit)
    (items : list A) :
  (forall x, spec P (fun _ => True) E (f x)) ->
  spec P (fun _ => True) E (forEach items f).
Proof.
  intros Hf. induction items as [| x items IH]; cbn [forEach]; wide_auto.
Qed.

(** The connection test reports every failure, and returns. *)
Lemma tame_testMCPConnection (P : Event -> bool) (E : exn -> Prop) url :
  (forall e, silent e = true -> P e = true) ->
  (forall r, isClientCall r = true -> P (Call r) = true) ->
  spec P (fun _ => True) E (testMCPConnection ww url).
Proof.
  intros Hsilent Hcall.
  assert (Hlog : forall s, P (Narrow (Log s)) = true) by (intros; apply Hsilent; reflexivity).
  unfold testMCPConnection.
  apply wide_seq; [wide_auto | intros _].
  apply wide_tryCatch_any; [| intros e; wide_auto].
  repeat (apply wide_seq; [ | intros ? ]);
    try (apply tame_forEach; intros; wide_auto);
    wide_auto.
Qed.

Lemma tame_registerAgent (P : Event -> bool) sdk signer :
  (forall e, silent e = true -> P e = true) ->
  (forall r, P (Narrow (Script.Call r)) = true) ->
  tame P (registerAgent ww sdk signer).
Proof.
  intros Hsilent Hreq.
  assert (Hlog : forall s, P (Narrow (Log s)) = true) by (intros; apply Hsilent; reflexivity).
  wide_auto.
Qed.

(** The body never stops the server, and never exits. *)
Lemma tame_body (P : Event -> bool) :
  (forall e, silent e = true -> P e = true) ->
  (forall r, P (Narrow (Script.Call r)) = true) ->
  (forall r, isKill r = false -> P (Call r) = true) ->
  tame P (mainBody ww env).
Proof.
  intros Hsilent Hreq Hcall.
  assert (Hlog : forall s, P (Narrow (Log s)) = true) by (intros; apply Hsilent; reflexivity).
  assert (Hsleep : forall ms, P (Narrow (Sleep ms)) = true)
    by (intros; apply Hsilent; reflexivity).
  assert (Ht : forall url, spec P (fun _ => True) (fun _ => True) (testMCPConnection ww url)).
  { intros. apply tame_testMCPConnection; [exact Hsilent |].
    intros r Hr. apply Hcall. destruct r; try discriminate Hr; reflexivity. }
  assert (Hr : forall sdk signer, spec P (fun _ => True) (fun _ => True)
                                       (registerAgent ww sdk signer)).
  { intros. apply tame_registerAgent; auto. }
  unfold tame, mainBody, integration, startMCPServer. wide_auto.
Qed.

(** Without a complete configuration, or when the compilation fails,
    the body makes no call but the compilation. *)
Lemma body_stops_before_the_server :
  envGet (RPC_URL env) = None \/ envGet (PRIVATE_KEY env) = None \/ compilationFails ww ->
  tame (fun e => avoiding (fun _ => true) e && avoidingCall beyondCompilation e)
       (mainBody ww env).
Proof.
  intros Hstop. unfold tame, mainBody.
  apply wide_seq; [wide_auto | intros _].
  destruct (envGet (RPC_URL env)) as [rpcUrl |] eqn:Erpc; [| wide_auto].
  destruct (envGet (PRIVATE_KEY env)) as [key |] eqn:Ekey; [| wide_auto].
  destruct Hstop as [H | [H | Hfails]]; try discriminate H.
  apply wide_seq; [wide_auto | intros signer].
  apply wide_seq; [wide_auto | intros _].
  apply wide_bind with (Q := fun compiled : bool => compiled = false);
    [| intros compiled ->; wide_auto].
  apply wide_tryCatch_any; [| intros e; wide_auto].
  apply wide_bind with (Q := fun _ : unit => False); [| intros ? []].
  apply wide_ask; [reflexivity | | auto].
  intros h a Ha. exact (Hfails _ h a Ha).
Qed.

Lemma safe_report (P : Event -> bool) (E : exn -> Prop) e :
  (forall s, P (Narrow (LogError s)) = true) ->
  spec P (fun _ => True) E (report e).
Proof. intros. wide_auto. Qed.

(** The [try] and the [catch] of [main] together always return. *)
Lemma guarded_run (P : Event -> bool) :
  (forall s, P (Narrow (LogError s)) = true) ->
  tame P (mainBody ww env) ->
  exists t, tryCatch (mainBody ww env) report [] = (Ok tt, t) /\ forallb P t = true.
Proof.
  intros Herr Hbody.
  assert (H : spec P (fun _ => True) (fun _ => False) (tryCatch (mainBody ww env) report)).
  { apply wide_tryCatch_any; [exact Hbody | intros e; apply safe_report; exact Herr]. }
  destruct (H []) as [Ht Ho].
  destruct (tryCatch (mainBody ww env) report []) as [[[] | e | c] t];
    cbn [fst snd] in *; try contradiction.
  exists t. auto.
Qed.

(** The run, from what the [try] and the [catch] have done. *)
Lemma program_run (t : Trace) :
  tryCatch (mainBody ww env) report [] = (Ok tt, t) ->
  run (program ww env)
  = (Exited 0,
     (t ++ cleanupOf t ++ [Narrow (Log "Test completed"); Narrow (Exit 0)])%list).
Proof.
  intros H.
  assert (Hmain : main ww env [] = (Ok tt, (t ++ cleanupOf t)%list)).
  { unfold main, tryCatchFinally. rewrite H.
    unfold cleanup, cleanupOf. cbv [bind history when app].
    destruct (serverStarted t); reflexivity. }
  unfold run, program.
  apply wide_tryCatch_exited.
  rewrite app_assoc.
  eapply wide_bind_ok; [exact Hmain | reflexivity].
Qed.

End Script.

(** X23. The MCP integration test cannot fail, and it stops the server
    it has started.  Every run ends with exit status 0 (the [catch] of
    [main] only reports, also a missing RPC_URL or PRIVATE_KEY).  The
    server process is stopped exactly when it was started, as the last
    action before the completion line, and at no other place.  (The
    calls that start and stop the child process do not throw: they
    report their failures as events.) *)
Theorem integration_test_always_passes (ww : World) (env : Env) :
  exists t,
    run (program ww env)
    = (Exited 0,
       (t ++ cleanupOf t ++ [Narrow (Log "Test completed"); Narrow (Exit 0)])%list)
    /\ forallb (avoidingCall isKill) t = true.
Proof.
  destruct (guarded_run ww env (avoidingCall isKill)) as (t & Ht & HP).
  - reflexivity.
  - apply tame_body.
    + intros e He. destruct e as [[] |]; try reflexivity; discriminate He.
    + reflexivity.
    + intros r Hr. cbn. rewrite Hr. reflexivity.
  - exists t. split; [apply program_run; exact Ht | exact HP].
Qed.

(** X24. The MCP integration test starts nothing before its setup is
    done: when RPC_URL or PRIVATE_KEY is missing, or when the compilation
    of the server fails, the run starts no server, opens no MCP
    connection and sends no request to the SDK or the chain; its only
    call is the compilation, and it still ends with exit status 0. *)
Theorem nothing_starts_before_the_setup (ww : World) (env : Env) :
  envGet (RPC_URL env) = None \/ envGet (PRIVATE_KEY env) = None \/ compilationFails ww ->
  fst (run (program ww env)) = Exited 0
  /\ requests (snd (run (program ww env))) = []
  /\ forallb (avoidingCall beyondCompilation) (snd (run (program ww env))) = true.
Proof.
  intros Hstop.
  destruct (guarded_run ww env
              (fun e => avoiding (fun _ => true) e && avoidingCall beyondCompilation e))
    as (t & Ht & HP).
  - reflexivity.
  - apply body_stops_before_the_server. exact Hstop.
  - rewrite (program_run ww env t Ht). cbn [fst snd].
    assert (Hnot : serverStarted t = false).
    { clear Ht. unfold serverStarted.
      induction t as [| x t IH]; [reflexivity |].
      cbn in HP. apply andb_true_iff in HP. destruct HP as [Hx HP].
      cbn. rewrite (IH HP), orb_false_r.
      destruct x as [x | []]; try reflexivity.
      cbn in Hx. discriminate Hx. }
    unfold cleanupOf. rewrite Hnot. cbn [app].
    split; [reflexivity |].
    split.
    + unfold requests. clear Ht Hnot.
      induction t as [| x t IH]; [reflexivity |].
      cbn in HP. apply andb_true_iff in HP. destruct HP as [Hx HP].
      specialize (IH HP).
      destruct x as [[] | r]; cbn in *; try exact IH.
      discriminate Hx.
    + rewrite forallb_app. cbn. rewrite andb_true_r.
      clear Ht Hnot.
      induction t as [| x t IH]; [reflexivity |].
      cbn in HP. apply andb_true_iff in HP. destruct HP as [Hx HP].
      cbn. rewrite (IH HP), andb_true_r.
      apply andb_true_iff in Hx. tauto.
Qed.

Lemma nothing_starts_before_the_setup_witness :
  fst (run (program (noCompiler Worlds.happy) Worlds.fullEnv)) = Exited 0
  /\ requests (snd (run (program (noCompiler Worlds.happy) Worlds.fullEnv))) = []
  /\ forallb (avoidingCall beyondCompilation)
             (snd (run (program (noCompiler Worlds.happy) Worlds.fullEnv))) = true.
Proof.
  apply (nothing_starts_before_the_setup (noCompiler Worlds.happy) Worlds.fullEnv).
  right. right. intros req h a H. discriminate H.
Defined.

End McpIntegrationProps.

(** ** The MCP queries of the SDK *)

Module McpToolsQueryProps.

Import Wide WideMeasures McpToolsQuery.

Section Script.

Variable ww : World.

Lemma tame_forEachFrom {A} (P : Event -> bool) (E : exn -> Prop) (f : A -> Z -> M unit)
    (items : list A) :
  (forall x idx, spec P (fun _ => True) E (f x idx)) ->
  forall idx, spec P (fun _ => True) E (forEachFrom idx items f).
Proof.
  intros Hf. induction items as [| x items IH]; intros idx; cbn [forEachFrom]; wide_auto.
Qed.

Lemma tame_forEach_indexed {A} (P : Event -> bool) (E : exn -> Prop) (f : A -> Z -> M unit)
    (items : list A) :
  (forall x idx, spec P (fun _ => True) E (f x idx)) ->
  spec P (fun _ => True) E (forEach items f).
Proof. intros Hf. unfold forEach. apply tame_forEachFrom. exact Hf. Qed.

(** The seven tests report every failure, and return. *)
Lemma safe_tests (P : Event -> bool) (E : exn -> Prop) :
  (forall s, P (Narrow (Log s)) = true) ->
  (forall r, isMcpQuery r = true -> P (Call r) = true) ->
  spec P (fun _ => True) E
    (bind (listAll "TEST 1: Get All Unique MCP Tools" (w_getAllMcpTools ww)
             SdkGetAllMcpTools "tool")
       (fun _ =>
     bind (listAll "TEST 2: Get All Unique MCP Prompts" (w_getAllMcpPrompts ww)
             SdkGetAllMcpPrompts "prompt")
       (fun _ =>
     bind (listAll "TEST 3: Get All Unique MCP Resources" (w_getAllMcpResources ww)
             SdkGetAllMcpResources "resource")
       (fun _ =>
     bind (searchAny ww) (fun _ =>
     bind (searchByTool ww) (fun _ =>
     bind (searchByPrompt ww) (fun _ =>
     bind (searchByBoth ww) (fun _ => log "ALL TESTS COMPLETED")))))))).
Proof.
  intros Hlog Hquery.
  assert (Hloop : forall A (f : A -> Z -> M unit) items E',
             (forall x idx, spec P (fun _ => True) E' (f x idx)) ->
             spec P (fun _ => True) E' (forEach items f))
    by (intros; apply tame_forEach_indexed; auto).
  unfold listAll, showNames, searchAny, searchByTool, searchByPrompt, searchByBoth.
  repeat first
    [ solve [ auto with tame ]
    | apply Hloop; intros
    | wide_step ].
Qed.

Lemma query_body_spec (P : Event -> bool) (Q : unit -> Prop) (E : exn -> Prop) :
  (forall s, P (Narrow (Log s)) = true) ->
  P (Narrow (Script.Call SdkChainId)) = true ->
  (forall r, isMcpQuery r = true -> P (Call r) = true) ->
  (forall h e, w_chainId (base ww) SdkChainId h = Err e -> E e) ->
  (forall h a, w_chainId (base ww) SdkChainId h = Val a -> Q tt) ->
  spec P Q E (mainBody ww).
Proof.
  intros Hlog Hchain Hquery HE HQ. unfold mainBody.
  do 3 (apply wide_seq; [wide_auto | intros _]).
  apply wide_bind with (Q := fun _ : Z => Q tt).
  { apply wide_askSdk; [exact Hchain | | exact HE].
    intros h a Ha. exact (HQ h a Ha). }
  intros _ HQtt.
  intros h. destruct (safe_tests P (fun _ => False) Hlog Hquery h) as [Ht Ho].
  split; [exact Ht |].
  destruct (fst _) as [[] | e | c]; [exact HQtt | contradiction | contradiction].
Qed.

(** The two ways a run ends. *)
Lemma script_cases_query :
  (exists t tail,
      mainBody ww (preamble "Starting test in 2 seconds...") = (Ok tt, t)
      /\ run (program ww)
         = (Exited 0, (preamble "Starting test in 2 seconds..." ++ t ++ tail)%list)
      /\ forallb silent tail = true)
  \/ (exists t e tail,
        mainBody ww (preamble "Starting test in 2 seconds...") = (Throw e, t)
        /\ run (program ww)
           = (Exited 1, (preamble "Starting test in 2 seconds..." ++ t ++ tail)%list)
        /\ forallb silent tail = true).
Proof.
  assert (Hbody : tame (fun _ => true) (mainBody ww))
    by (apply query_body_spec; intros; auto).
  destruct (Hbody (preamble "Starting test in 2 seconds...")) as [_ Ho].
  destruct (mainBody ww (preamble "Starting test in 2 seconds..."))
    as [[[] | e | c] t] eqn:Eb;
    cbn [fst] in Ho; [| | contradiction].
  - left. exists t. eexists. split; [reflexivity |].
    unfold preamble in *.
    cbv [run program main bind tryCatch log sleep exit logError embed Script.log
         Script.sleep Script.emit Script.exit Script.logError map app].
    rewrite Eb. split; reflexivity.
  - right. exists t, e.
    destruct (stackOf e) as [st |] eqn:Est;
      eexists; (split; [reflexivity |]);
      unfold preamble in *;
      cbv [run program main bind tryCatch log sleep exit logError embed Script.log
           Script.sleep Script.emit Script.exit Script.logError map app];
      rewrite Eb; cbv beta iota zeta; rewrite Est;
      cbv [ret map app]; split; reflexivity.
Qed.

End Script.

(** X25. The script of the MCP queries is read-only, and only the chain
    can fail it.  No run sends a request of the SDK's write or agent
    interface: besides the MCP queries it only reads the chain.  When
    the chain answers, the run ends with exit status 0 whatever the MCP
    queries do (each test reports its own failure); when the chain does
    not answer, the run ends with exit status 1 before any MCP query. *)
Theorem only_the_chain_is_fatal (ww : World) :
  forallb (avoiding beyondChain) (snd (run (program ww))) = true
  /\ (chainUp (base ww) -> fst (run (program ww)) = Exited 0)
  /\ (chainDown (base ww) ->
      fst (run (program ww)) = Exited 1
      /\ forallb (avoidingCall isMcpQuery) (snd (run (program ww))) = true).
Proof.
  assert (Hsilent : forall bad l, forallb silent l = true -> forallb (avoiding bad) l = true).
  { intros bad l Hl. apply forallb_forall. intros x Hx.
    rewrite forallb_forall in Hl.
    specialize (Hl x Hx). destruct x as [[] |]; cbn in *; try reflexivity; discriminate Hl. }
  assert (Hsilent' : forall bad l, forallb silent l = true ->
                                   forallb (avoidingCall bad) l = true).
  { intros bad l Hl. apply forallb_forall. intros x Hx.
    rewrite forallb_forall in Hl.
    specialize (Hl x Hx). destruct x as [[] |]; cbn in *; try reflexivity; discriminate Hl. }
  split; [| split].
  - assert (Hbody : tame (avoiding beyondChain) (mainBody ww))
      by (apply query_body_spec; intros; auto).
    destruct (Hbody (preamble "Starting test in 2 seconds...")) as [Ht _].
    destruct (script_cases_query ww)
      as [(t & tail & Eb & Er & Hs) | (t & e & tail & Eb & Er & Hs)];
      rewrite Er; rewrite Eb in Ht; cbn [fst snd] in *;
      rewrite !forallb_app, Ht, (Hsilent _ _ Hs); reflexivity.
  - intros Hup.
    assert (Hbody : spec (fun _ => true) (fun _ => True) (fun _ => False) (mainBody ww)).
    { apply query_body_spec; intros; auto. eapply Hup; eauto. }
    destruct (Hbody (preamble "Starting test in 2 seconds...")) as [_ Ho].
    destruct (script_cases_query ww)
      as [(t & tail & Eb & Er & Hs) | (t & e & tail & Eb & Er & Hs)];
      rewrite Er; rewrite Eb in Ho; cbn [fst] in *; [reflexivity | contradiction].
  - intros Hdown.
    assert (Hbody : spec (avoidingCall isMcpQuery) (fun _ => False) (fun _ => True)
                         (mainBody ww)).
    { unfold mainBody.
      do 3 (apply wide_seq; [wide_auto | intros _]).
      apply wide_bind with (Q := fun _ : Z => False); [| intros ? []].
      apply wide_askSdk; [reflexivity | | auto].
      intros h a Ha. exact (Hdown h a Ha). }
    destruct (Hbody (preamble "Starting test in 2 seconds...")) as [Ht Ho].
    destruct (script_cases_query ww)
      as [(t & tail & Eb & Er & Hs) | (t & e & tail & Eb & Er & Hs)];
      rewrite Er; rewrite Eb in Ht, Ho; cbn [fst snd] in *; [contradiction |].
    split; [reflexivity |].
    rewrite !forallb_app, Ht, (Hsilent' _ _ Hs). reflexivity.
Qed.

(** X26. The script of the MCP queries searches only for capabilities
    that the SDK has listed.  Whatever set of tool names and of prompt
    names the listing queries answer within, every search of the run
    names only tools and prompts of these sets: the searched names are
    taken from the lists, and only from lists that are not empty. *)
Theorem searches_name_listed_capabilities (ww : World)
    (knownTool knownPrompt : string -> bool) :
  listsOnly (w_getAllMcpTools ww) SdkGetAllMcpTools knownTool ->
  listsOnly (w_getAllMcpPrompts ww) SdkGetAllMcpPrompts knownPrompt ->
  forallb (searchesWithin knownTool knownPrompt) (snd (run (program ww))) = true.
Proof.
  intros Htools Hprompts.
  set (P := searchesWithin knownTool knownPrompt).
  assert (Hfirst : forall known l,
             forallb known l = true -> (0 <? len l) = true -> known (first l) = true).
  { intros known [| x l] Hl Hlen; [discriminate Hlen |].
    cbn in Hl. apply andb_true_iff in Hl. exact (proj1 Hl). }
  assert (Hlog : forall s, P (Narrow (Log s)) = true) by reflexivity.
  assert (Hloop : forall A (f : A -> Z -> M unit) items,
             (forall x idx, spec P (fun _ => True) (fun _ => True) (f x idx)) ->
             spec P (fun _ => True) (fun _ => True) (forEach items f))
    by (intros; apply tame_forEach_indexed; auto).
  assert (Hlist : forall title oracle req noun,
             isMcpQuery req = true ->
             (forall t p m, req <> SdkSearchAgentsByMcpCapabilities t p m) ->
             tame P (listAll title oracle req noun)).
  { intros title oracle req noun _ Hreq. unfold listAll, showNames.
    assert (P (Call req) = true) by (destruct req; try reflexivity; exfalso; eapply Hreq; eauto).
    repeat first [ solve [ auto with tame ] | apply Hloop; intros | wide_step ]. }
  assert (Hany : tame P (searchAny ww)).
  { unfold searchAny.
    repeat first [ solve [ auto with tame ] | apply Hloop; intros | wide_step ]. }
  assert (Htool : tame P (searchByTool ww)).
  { unfold searchByTool, tame.
    apply wide_seq; [wide_auto | intros _].
    apply wide_tryCatch_any; [| intros; wide_auto].
    apply wide_bind with (Q := fun l => forallb knownTool l = true).
    { apply wide_ask; [reflexivity | exact Htools | auto]. }
    intros l Hl. destruct (0 <? len l) eqn:Hlen; [| wide_auto].
    assert (P (Call (SdkSearchAgentsByMcpCapabilities [first l] [] None)) = true)
      by (unfold P; cbn; rewrite (Hfirst _ _ Hl Hlen); reflexivity).
    repeat first [ solve [ auto with tame ] | apply Hloop; intros | wide_step ]. }
  assert (Hprompt : tame P (searchByPrompt ww)).
  { unfold searchByPrompt, tame.
    apply wide_seq; [wide_auto | intros _].
    apply wide_tryCatch_any; [| intros; wide_auto].
    apply wide_bind with (Q := fun l => forallb knownPrompt l = true).
    { apply wide_ask; [reflexivity | exact Hprompts | auto]. }
    intros l Hl. destruct (0 <? len l) eqn:Hlen; [| wide_auto].
    assert (P (Call (SdkSearchAgentsByMcpCapabilities [] [first l] None)) = true)
      by (unfold P; cbn; rewrite (Hfirst _ _ Hl Hlen); reflexivity).
    repeat first [ solve [ auto with tame ] | apply Hloop; intros | wide_step ]. }
  assert (Hboth : tame P (searchByBoth ww)).
  { unfold searchByBoth, tame.
    apply wide_seq; [wide_auto | intros _].
    apply wide_tryCatch_any; [| intros; wide_auto].
    apply wide_bind with (Q := fun l => forallb knownTool l = true).
    { apply wide_ask; [reflexivity | exact Htools | auto]. }
    intros l Hl.
    apply wide_bind with (Q := fun l' => forallb knownPrompt l' = true).
    { apply wide_ask; [reflexivity | exact Hprompts | auto]. }
    intros l' Hl'.
    destruct (0 <? len l) eqn:Hlen; cbn [andb]; [| wide_auto].
    destruct (0 <? len l') eqn:Hlen'; [| wide_auto].
    assert (P (Call (SdkSearchAgentsByMcpCapabilities [first l] [first l'] (Some false)))
            = true)
      by (unfold P; cbn; rewrite (Hfirst _ _ Hl Hlen), (Hfirst _ _ Hl' Hlen'); reflexivity).
    repeat first [ solve [ auto with tame ] | apply Hloop; intros | wide_step ]. }
  assert (Hbody : tame P (mainBody ww)).
  { unfold mainBody, tame.
    do 3 (apply wide_seq; [wide_auto | intros _]).
    apply wide_seq; [apply wide_askSdk; auto | intros _].
    do 3 (apply wide_seq; [apply Hlist; [reflexivity | intros; discriminate] | intros _]).
    apply wide_seq; [exact Hany | intros _].
    apply wide_seq; [exact Htool | intros _].
    apply wide_seq; [exact Hprompt | intros _].
    apply wide_seq; [exact Hboth | intros _].
    wide_auto. }
  assert (Hsilent : forall l, forallb silent l = true -> forallb P l = true).
  { intros l Hl. apply forallb_forall. intros x Hx.
    rewrite forallb_forall in Hl.
    specialize (Hl x Hx). destruct x as [[] |]; cbn in *; try reflexivity; discriminate Hl. }
  destruct (Hbody (preamble "Starting test in 2 seconds...")) as [Ht _].
  destruct (script_cases_query ww)
    as [(t & tail & Eb & Er & Hs) | (t & e & tail & Eb & Er & Hs)];
    rewrite Er; rewrite Eb in Ht; cbn [fst snd] in *;
    rewrite !forallb_app, Ht, (Hsilent _ Hs); reflexivity.
Qed.

Lemma searches_name_listed_capabilities_witness :
  forallb (searchesWithin (fun name => existsb (String.eqb name) ["calculate"; "echo"])
                          (String.eqb "greeting"))
          (snd (run (program (plain Worlds.happy)))) = true.
Proof.
  apply (searches_name_listed_capabilities (plain Worlds.happy)).
  - intros h names H. injection H as <-. reflexivity.
  - intros h names H. injection H as <-. reflexivity.
Defined.

End McpToolsQueryProps.
